(** * Living Memory Vault: ingestion, memory store and responder

    A shallow embedding of [backend/ingestion.py], [backend/embeddings.py],
    [backend/rag.py] and [backend/utils.py].  Python code that touches the
    file system, the ChromaDB collection or one of the models is written in
    a small state-and-exception monad [Py] over a [World]; the collaborators
    that the repository does not implement (uuid4, the clock, the codecs,
    the Whisper/BLIP/FLAN-T5 pipelines, the sentence encoder, [str.lower],
    [str.strip]) are the fields of an [Env] record, and every theorem is
    stated for an arbitrary [Env]. *)

From Stdlib Require Import Strings.Ascii Strings.String Strings.Byte.
From stdpp Require Import base option list strings pretty gmap fin_maps.

Open Scope string_scope.

(** ** Python values, exceptions and the run-time world *)

Module Runtime.

(** The values that occur in memory dicts and in ChromaDB metadata. *)
Inductive pyval :=
| PNone
| PStr (s : string)
| PInt (z : Z).

#[global] Instance pyval_eq_dec : EqDecision pyval.
Proof. solve_decision. Defined.

(** [str(v)], as an f-string formats a value. *)
Definition py_str (v : pyval) : string :=
  match v with
  | PNone => "None"
  | PStr s => s
  | PInt z => pretty z
  end.

(** Truthiness, as [if v:] tests it. *)
Definition truthy (v : pyval) : bool :=
  match v with
  | PNone => false
  | PStr s => negb (String.eqb s "")
  | PInt z => negb (Z.eqb z 0)
  end.

Abbreviation pydict := (gmap string pyval).
Abbreviation bytes := (list Byte.byte).

(** [d.get(k)] and [d.get(k, dflt)]. *)
Definition dict_get (d : pydict) (k : string) (dflt : pyval) : pyval :=
  default dflt (d !! k).

Inductive exn_class :=
| UnicodeDecodeError
| FileNotFoundError
| OSError
| KeyError
| OtherError.

#[global] Instance exn_class_eq_dec : EqDecision exn_class.
Proof. solve_decision. Defined.

(** An exception object: its class and [str(e)].  Only subclasses of
    [Exception] are modelled. *)
Record exn := mk_exn { exn_cls : exn_class; exn_msg : string }.

Inductive result (A : Type) :=
| Ok (a : A)
| Raise (e : exn).
Arguments Ok {A} a.
Arguments Raise {A} e.

Definition is_ok {A} (r : result A) : bool :=
  match r with
  | Ok _ => true
  | Raise _ => false
  end.

(** What the outside world can observe besides files and the index. *)
Inductive event :=
| EvPrint (line : string)
| EvEmbed (text : pyval)
| EvStoreGet (limit : nat)
| EvStoreAdd (ids : list string)
| EvGenerate (prompt : string).

Section WithVector.

(** The type of embedding vectors (lists of floats in the source). *)
Context {V : Type}.

(** One entry of the ChromaDB collection. *)
Record row := mk_row {
  row_id : string;
  row_embedding : V;
  row_document : pyval;
  row_metadata : gmap string pyval
}.

Record World := mk_world {
  fs : gmap string bytes;   (* files, by path *)
  uuids_drawn : nat;        (* number of uuid4() calls so far *)
  clock : nat;              (* number of datetime.now() calls so far *)
  store : list row;         (* the "memories" collection, oldest first *)
  trace : list event        (* observable events, oldest first *)
}.

(** The collaborators outside this repository. *)
Record Env := mk_env {
  uuid4 : nat -> string;               (* str(uuid.uuid4()) of the n-th draw *)
  now_iso : nat -> string;             (* datetime.now().isoformat() *)
  write_error : string -> option exn;  (* open(path,'wb') + write fails with *)
  read_utf8 : bytes -> option string;  (* text-mode read; None = UnicodeDecodeError *)
  read_latin1 : bytes -> string;
  docx_paragraphs : bytes -> result (list string);
  whisper : bytes -> result string;    (* pipeline(...)(path)["text"] *)
  blip : bytes -> result string;       (* captioner(Image.open(path))[0][...] *)
  encode : pyval -> V;                 (* model.encode(text).tolist() *)
  store_get_error : option exn;        (* collection.get fails with *)
  flan_t5 : string -> result string;   (* generator(prompt,...)[0][...] *)
  str_lower : string -> string;
  str_strip : string -> string
}.

Definition Py (A : Type) : Type := World -> result A * World.

Definition ret {A} (a : A) : Py A := fun w => (Ok a, w).

Definition raise {A} (e : exn) : Py A := fun w => (Raise e, w).

Definition bind {A B} (m : Py A) (k : A -> Py B) : Py B :=
  fun w =>
    match m w with
    | (Ok a, w') => k a w'
    | (Raise e, w') => (Raise e, w')
    end.

(** [try: body  except <classes>: handler]. *)
Definition try_except {A} (body : Py A) (catches : exn -> bool)
    (handler : exn -> Py A) : Py A :=
  fun w =>
    match body w with
    | (Ok a, w') => (Ok a, w')
    | (Raise e, w') => if catches e then handler e w' else (Raise e, w')
    end.

(** [try: body  finally: cleanup]; an exception in [cleanup] replaces the
    outcome of [body]. *)
Definition try_finally {A} (body : Py A) (cleanup : Py unit) : Py A :=
  fun w =>
    match body w with
    | (r, w') =>
        match cleanup w' with
        | (Ok _, w'') => (r, w'')
        | (Raise e, w'') => (Raise e, w'')
        end
    end.

Definition lift {A} (r : result A) : Py A := fun w => (r, w).

(** The world after the events [evs] have been observed. *)
Definition log (evs : list event) (w : World) : World :=
  mk_world (fs w) (uuids_drawn w) (clock w) (store w) (trace w ++ evs).

Definition emit (ev : event) : Py unit := fun w => (Ok tt, log [ev] w).

Definition set_fs (f : gmap string bytes) (w : World) : World :=
  mk_world f (uuids_drawn w) (clock w) (store w) (trace w).

Definition set_store (s : list row) (w : World) : World :=
  mk_world (fs w) (uuids_drawn w) (clock w) s (trace w).

(** [d[k]]: KeyError when the key is missing. *)
Definition getitem (d : pydict) (k : string) : Py pyval :=
  match d !! k with
  | Some v => ret v
  | None => raise (mk_exn KeyError ("'" ++ k ++ "'"))
  end.

(** [print(line)]. *)
Definition print (line : string) : Py unit := emit (EvPrint line).

End WithVector.

Arguments row : clear implicits.
Arguments World : clear implicits.
Arguments Env : clear implicits.
Arguments Py : clear implicits.

Notation "'let*' x ':=' m 'in' k" := (bind m (fun x => k))
  (at level 10, x name, m at level 100, k at level 200).

(** [for x in xs: ys.append(f(x))]. *)
Fixpoint for_each {V A B} (f : A -> Py V B) (xs : list A) : Py V (list B) :=
  match xs with
  | [] => ret []
  | x :: rest =>
      let* y := f x in
      let* ys := for_each f rest in
      ret (y :: ys)
  end.

(** The newline character. *)
Definition NL : string := String "010"%char EmptyString.

(** [sub in s] on strings. *)
Fixpoint contains (sub s : string) : bool :=
  String.prefix sub s
  || match s with
     | EmptyString => false
     | String _ s' => contains sub s'
     end.

(** [s[n:]]. *)
Definition str_from (n : nat) (s : string) : string :=
  String.substring n (String.length s - n) s.

(** Every exception class derives from [Exception]. *)
Definition any_exception (e : exn) : bool := true.

Definition is_class (c : exn_class) (e : exn) : bool :=
  bool_decide (exn_cls e = c).

End Runtime.

(** ** backend/embeddings.py *)

Module Embeddings.
Import Runtime.

Section WithEnv.

Context {V : Type} (env : Env V).

(** The [limit=10000] of the count probe. *)
Definition GET_LIMIT : nat := 100 * 100.

(** [self.collection.get(limit=n)['ids']]: at most [limit] ids. *)
Definition collection_get_ids (limit : nat) : Py V (list string) :=
  let* _ := emit (EvStoreGet limit) in
  match store_get_error env with
  | Some e => raise e
  | None => fun w => (Ok (take limit (row_id <$> store w)), w)
  end.

(** [self.collection.add(...)]: the rows handed over are recorded and
    appended.  The checks that ChromaDB itself runs on a batch are not
    modelled: this is what the index does with a batch whose ids are new to
    it, and statements about the index after a call are to be read for such
    batches. *)
Definition collection_add (rows : list (row V)) : Py V unit :=
  let* _ := emit (EvStoreAdd (row_id <$> rows)) in
  fun w => (Ok tt, set_store (store w ++ rows) w).

Definition generate_embedding (text : pyval) : Py V V :=
  let* _ := emit (EvEmbed text) in
  ret (encode env text).

(** [f"memory_{n}"]. *)
Definition memory_id (n : nat) : string := "memory_" ++ pretty n.

(** [{k: v for k, v in metadata.items() if v is not None}]. *)
Definition strip_none (metadata : pydict) : pydict :=
  filter (fun kv : string * pyval => kv.2 ≠ PNone) metadata.

(** The body of the [for i, memory in enumerate(memories)] loop. *)
Definition build_row (existing_count i : nat) (memory : pydict)
    : Py V (row V) :=
  let* content := getitem memory "content" in
  let* embedding := generate_embedding content in
  let id := memory_id (existing_count + i) in
  let* document := getitem memory "content" in
  let* filename := getitem memory "filename" in
  let* source_type := getitem memory "source_type" in
  let* upload_time := getitem memory "upload_time" in
  let metadata : pydict :=
    list_to_map
      [("filename", filename);
       ("source_type", source_type);
       ("upload_time", upload_time);
       ("year", dict_get memory "year" (PStr ""));
       ("file_path", dict_get memory "file_path" (PStr ""))] in
  let metadata := strip_none metadata in
  ret (mk_row id embedding document metadata).

Fixpoint build_rows (existing_count i : nat) (memories : list pydict)
    : Py V (list (row V)) :=
  match memories with
  | [] => ret []
  | memory :: rest =>
      let* r := build_row existing_count i memory in
      let* rs := build_rows existing_count (S i) rest in
      ret (r :: rs)
  end.

(** The count probe with its bare [except:]. *)
Definition probe_existing_count : Py V nat :=
  try_except
    (let* ids := collection_get_ids GET_LIMIT in ret (length ids))
    any_exception
    (fun _ => ret 0).

Definition add_memories (memories : list pydict) : Py V unit :=
  match memories with
  | [] => ret tt
  | _ :: _ =>
      let* existing_count := probe_existing_count in
      let* rows := build_rows existing_count 0 memories in
      collection_add rows
  end.

(** *** Vocabulary of the statements about the store *)

(** The keys that [add_memories] reads with [memory[...]]. *)
Definition has_required_keys (memory : pydict) : Prop :=
  is_Some (memory !! "content") ∧ is_Some (memory !! "filename")
  ∧ is_Some (memory !! "source_type") ∧ is_Some (memory !! "upload_time").

Definition METADATA_KEYS : list string :=
  ["filename"; "source_type"; "upload_time"; "year"; "file_path"].

(** What holds of the metadata stored in row [r] for the record [memory]:
    no field is [None], and a field that is (or defaults to) the empty
    string is present with that value. *)
Definition stored_metadata_ok (memory : pydict) (r : row V) : Prop :=
  (forall k v, row_metadata r !! k = Some v -> v <> PNone)
  /\ (forall k, k ∈ METADATA_KEYS ->
       dict_get memory k (PStr "") = PStr "" ->
       row_metadata r !! k = Some (PStr "")).

(** The metadata dict literal, before [None] values are filtered out. *)
Definition raw_metadata (memory : pydict) : pydict :=
  list_to_map
    [("filename", dict_get memory "filename" PNone);
     ("source_type", dict_get memory "source_type" PNone);
     ("upload_time", dict_get memory "upload_time" PNone);
     ("year", dict_get memory "year" (PStr ""));
     ("file_path", dict_get memory "file_path" (PStr ""))].

(** The row that the loop builds for the [i]-th record of a batch. *)
Definition row_of (existing_count i : nat) (memory : pydict) : row V :=
  let content := dict_get memory "content" PNone in
  mk_row (memory_id (existing_count + i)) (encode env content) content
         (strip_none (raw_metadata memory)).

Fixpoint rows_of (existing_count i : nat) (memories : list pydict)
    : list (row V) :=
  match memories with
  | [] => []
  | memory :: rest =>
      row_of existing_count i memory :: rows_of existing_count (S i) rest
  end.

(** The embedding calls of a batch, in order. *)
Definition embed_events (memories : list pydict) : list event :=
  (fun memory => EvEmbed (dict_get memory "content" PNone)) <$> memories.

End WithEnv.

End Embeddings.

(** ** backend/ingestion.py *)

Module Ingestion.
Import Runtime.

(** One element of [uploaded_files]:
    [(filename, file_data, source_type, description)]. *)
Definition upload : Type := string * bytes * string * string.

Definition UPLOADS_DIR : string := "uploads".

(** [uploads_dir / unique_filename]. *)
Definition media_path (unique_filename : string) : string :=
  UPLOADS_DIR ++ "/" ++ unique_filename.

(** [Path(f"temp_{filename}")]. *)
Definition temp_path_of (filename : string) : string := "temp_" ++ filename.

Definition AUDIO_PLACEHOLDER_TAIL : string :=
  ". This is a placeholder for audio content.".

(** The string returned by the [except] branch of [process_audio_file]. *)
Definition audio_placeholder (e : exn) : string :=
  "Audio transcription failed: " ++ exn_msg e ++ AUDIO_PLACEHOLDER_TAIL.

(** The string returned by [process_image_file]. *)
Definition image_content (caption : string) : string :=
  "This image shows: " ++ caption ++
  ". This appears to be a personal memory captured in a photograph.".

(** [f"Description: {description}\n\n{content}"] when a description is
    given. *)
Definition with_description (description content : string) : string :=
  if String.eqb description "" then content
  else "Description: " ++ description ++ NL ++ NL ++ content.

(** The memory dict built for a successfully normalized upload. *)
Definition memory_dict (content filename source_type upload_time : string)
    (saved : option string) : pydict :=
  list_to_map
    [("content", PStr content);
     ("filename", PStr filename);
     ("source_type", PStr source_type);
     ("upload_time", PStr upload_time);
     ("year", PNone);
     ("file_path", match saved with
                   | Some unique_filename => PStr unique_filename
                   | None => PNone
                   end)].

Section WithEnv.

Context {V : Type} (env : Env V).

(** [with open(path, 'wb') as f: f.write(data)].  Directories are not
    modelled: the file system is a flat map from path to contents, and
    whether a path can be written is the environment's decision. *)
Definition open_write (path : string) (data : bytes) : Py V unit :=
  match write_error env path with
  | Some e => raise e
  | None => fun w => (Ok tt, set_fs (<[path := data]> (fs w)) w)
  end.

Definition open_read (path : string) : Py V bytes :=
  fun w =>
    match fs w !! path with
    | Some data => (Ok data, w)
    | None => (Raise (mk_exn FileNotFoundError path), w)
    end.

(** [if path.exists(): path.unlink()]. *)
Definition unlink_if_exists (path : string) : Py V unit :=
  fun w =>
    match fs w !! path with
    | Some _ => (Ok tt, set_fs (delete path (fs w)) w)
    | None => (Ok tt, w)
    end.

Definition draw_uuid4 : Py V string :=
  fun w => (Ok (uuid4 env (uuids_drawn w)),
            mk_world (fs w) (S (uuids_drawn w)) (clock w) (store w) (trace w)).

Definition datetime_now_isoformat : Py V string :=
  fun w => (Ok (now_iso env (clock w)),
            mk_world (fs w) (uuids_drawn w) (S (clock w)) (store w) (trace w)).

Definition process_text_file (file_path : string) : Py V string :=
  try_except
    (let* data := open_read file_path in
     match read_utf8 env data with
     | Some text => ret text
     | None => raise (mk_exn UnicodeDecodeError "'utf-8' codec can't decode")
     end)
    (is_class UnicodeDecodeError)
    (fun _ =>
       let* data := open_read file_path in
       ret (read_latin1 env data)).

Definition process_word_file (file_path : string) : Py V string :=
  let* data := open_read file_path in
  let* full_text := lift (docx_paragraphs env data) in
  ret (String.concat NL full_text).

Definition process_audio_file (file_path : string) : Py V string :=
  try_except
    (let* data := open_read file_path in
     let* transcription := lift (whisper env data) in
     ret ("Audio transcription: " ++ transcription))
    any_exception
    (fun e => ret (audio_placeholder e)).

Definition process_image_file (file_path : string) : Py V string :=
  let* data := open_read file_path in
  let* caption := lift (blip env data) in
  ret (image_content caption).

(** The [if/elif] chain on [source_type]; [None] is the [continue] of the
    final [else]. *)
Definition dispatch (source_type temp_path : string)
    : Py V (option string) :=
  if String.eqb source_type "text" then
    let* content := process_text_file temp_path in ret (Some content)
  else if String.eqb source_type "word" then
    let* content := process_word_file temp_path in ret (Some content)
  else if String.eqb source_type "audio" then
    let* content := process_audio_file temp_path in ret (Some content)
  else if String.eqb source_type "image" then
    let* content := process_image_file temp_path in ret (Some content)
  else ret None.

(** [if source_type in ['image', 'audio']: ...]: the media side-file.
    Returns [unique_filename] when a side-file was written. *)
Definition save_media (filename : string) (file_data : bytes)
    (source_type : string) : Py V (option string) :=
  if bool_decide (source_type ∈ ["image"; "audio"]) then
    let* id := draw_uuid4 in
    let unique_filename := id ++ "_" ++ filename in
    let* _ := open_write (media_path unique_filename) file_data in
    ret (Some unique_filename)
  else ret None.

(** The [except Exception as e] handler of the loop body. *)
Definition on_error (filename : string) (saved : option string) (e : exn)
    : Py V (option pydict) :=
  let* _ := print ("Error processing " ++ filename ++ ": " ++ exn_msg e) in
  let* _ := match saved with
            | Some unique_filename =>
                unlink_if_exists (media_path unique_filename)
            | None => ret tt
            end in
  ret None.

(** One iteration of the loop over [uploaded_files]: the memory appended
    to [memories], if any. *)
Definition ingest_one (u : upload) : Py V (option pydict) :=
  let '(filename, file_data, source_type, description) := u in
  let* saved := save_media filename file_data source_type in
  let temp_path := temp_path_of filename in
  let* _ := open_write temp_path file_data in
  try_finally
    (try_except
       (let* dispatched := dispatch source_type temp_path in
        match dispatched with
        | None => ret None
        | Some content =>
            let content := with_description description content in
            let* upload_time := datetime_now_isoformat in
            ret (Some (memory_dict content filename source_type
                                   upload_time saved))
        end)
       any_exception
       (on_error filename saved))
    (unlink_if_exists temp_path).

Fixpoint ingest_loop (uploaded_files : list upload) (memories : list pydict)
    : Py V (list pydict) :=
  match uploaded_files with
  | [] => ret memories
  | u :: rest =>
      let* produced := ingest_one u in
      ingest_loop rest
        (match produced with
         | Some memory => memories ++ [memory]
         | None => memories
         end)
  end.

(** [uploads_dir.mkdir(exist_ok=True)] has no counterpart here, since
    directories are not modelled. *)
Definition ingest_files (uploaded_files : list upload)
    : Py V (list pydict) :=
  ingest_loop uploaded_files [].

(** *** Vocabulary of the statements about ingestion *)

(** What [process_text_file] reads from a file holding [data]. *)
Definition decode_text (data : bytes) : string :=
  match read_utf8 env data with
  | Some text => text
  | None => read_latin1 env data
  end.

(** The outcome of the [if/elif] chain on a scratch file holding [data]:
    [None] for a type outside the four supported ones. *)
Definition normalized (source_type : string) (data : bytes)
    : option (result string) :=
  if String.eqb source_type "text" then Some (Ok (decode_text data))
  else if String.eqb source_type "word" then
    Some (match docx_paragraphs env data with
          | Ok full_text => Ok (String.concat NL full_text)
          | Raise e => Raise e
          end)
  else if String.eqb source_type "audio" then
    Some (Ok (match whisper env data with
              | Ok transcription => "Audio transcription: " ++ transcription
              | Raise e => audio_placeholder e
              end))
  else if String.eqb source_type "image" then
    Some (match blip env data with
          | Ok caption => Ok (image_content caption)
          | Raise e => Raise e
          end)
  else None.

(** The name under which the media side-file of an upload is saved. *)
Definition saved_name (filename source_type : string) (w : World V)
    : option string :=
  if bool_decide (source_type ∈ ["image"; "audio"])
  then Some (uuid4 env (uuids_drawn w) ++ "_" ++ filename)
  else None.

Definition can_write (path : string) : bool :=
  match write_error env path with
  | None => true
  | Some _ => false
  end.

(** Both writes that precede the [try] succeed. *)
Definition writes_succeed (filename source_type : string) (w : World V)
    : bool :=
  match saved_name filename source_type w with
  | Some unique_filename => can_write (media_path unique_filename)
  | None => true
  end
  && can_write (temp_path_of filename).

(** The world once the side-file, if any, is written. *)
Definition media_saved (filename : string) (data : bytes)
    (source_type : string) (w : World V) : World V :=
  match saved_name filename source_type w with
  | Some unique_filename =>
      mk_world (<[media_path unique_filename := data]> (fs w))
               (S (uuids_drawn w)) (clock w) (store w) (trace w)
  | None => w
  end.

(** The world once the side-file and the scratch file are written. *)
Definition staged (filename : string) (data : bytes) (source_type : string)
    (w : World V) : World V :=
  let w0 := media_saved filename data source_type w in
  set_fs (<[temp_path_of filename := data]> (fs w0)) w0.

Definition tick (w : World V) : World V :=
  mk_world (fs w) (uuids_drawn w) (S (clock w)) (store w) (trace w).

Definition without_file (path : string) (w : World V) : World V :=
  set_fs (delete path (fs w)) w.

Definition without_saved (saved : option string) (w : World V) : World V :=
  match saved with
  | Some unique_filename => without_file (media_path unique_filename) w
  | None => w
  end.

(** What one iteration makes of an upload whose two writes succeed. *)
Definition iteration (u : upload) (w : World V)
    : result (option pydict) * World V :=
  let '(filename, data, source_type, description) := u in
  let saved := saved_name filename source_type w in
  let w1 := staged filename data source_type w in
  let temp_path := temp_path_of filename in
  match normalized source_type data with
  | None => (Ok None, without_file temp_path w1)
  | Some (Ok content) =>
      (Ok (Some (memory_dict (with_description description content)
                             filename source_type (now_iso env (clock w))
                             saved)),
       without_file temp_path (tick w1))
  | Some (Raise e) =>
      (Ok None,
       without_file temp_path
         (without_saved saved
            (log [EvPrint ("Error processing " ++ filename ++ ": "
                           ++ exn_msg e)] w1)))
  end.

End WithEnv.

End Ingestion.

(** ** backend/rag.py *)

Module Rag.
Import Runtime.

(** One element of [retrieved_memories]; the ['distance'] entry is never
    read by [generate_response] and is left out. *)
Record retrieved := mk_retrieved {
  content : pyval;
  metadata : pydict
}.

(** An element of the returned ['images'] / ['audio'] lists. *)
Record media_ref := mk_media { path : pyval; filename : pyval }.

Record answer := mk_answer {
  response : string;
  images : list media_ref;
  audio : list media_ref
}.

Definition NO_MEMORIES : string :=
  "I don't have any memories to reference yet. Please upload some files first!".

Definition IMAGE_INTENT : string :=
  "The user is asking about images/photos in their memories.".

Definition AUDIO_INTENT : string :=
  "The user is asking about audio recordings in their memories.".

Definition IMAGE_WORDS : list string :=
  ["photo"; "image"; "picture"; "show"; "display"].

Definition AUDIO_WORDS : list string :=
  ["audio"; "sound"; "recording"; "play"; "listen"; "music"; "voice"].

(** [mem['metadata'].get('source_type') == t]. *)
Definition has_source (t : string) (mem : retrieved) : bool :=
  bool_decide (dict_get (metadata mem) "source_type" PNone = PStr t).

Definition image_memories (retrieved_memories : list retrieved) :=
  List.filter (has_source "image") retrieved_memories.

Definition audio_memories (retrieved_memories : list retrieved) :=
  List.filter (has_source "audio") retrieved_memories.

Definition other_memories (retrieved_memories : list retrieved) :=
  List.filter
    (fun mem => negb (has_source "image" mem || has_source "audio" mem))
    retrieved_memories.

(** [mem['metadata'].get('file_path')] is truthy. *)
Definition has_file_path (mem : retrieved) : bool :=
  truthy (dict_get (metadata mem) "file_path" PNone).

Definition build_prompt (query context : string) : string :=
  "Question: " ++ query ++ NL ++ "Context: " ++ context ++ NL ++ "Answer:".

Section WithEnv.

Context {V : Type} (env : Env V).

(** [any(word in query.lower() for word in words)]. *)
Definition mentions (words : list string) (query : string) : bool :=
  existsb (fun word => contains word (str_lower env query)) words.

(** One line of the default context. *)
Definition context_line (mem : retrieved) : Py V string :=
  let* filename := getitem (metadata mem) "filename" in
  let* source_type := getitem (metadata mem) "source_type" in
  ret ("Memory from " ++ py_str filename ++ " (" ++ py_str source_type
       ++ "): " ++ py_str (content mem)).

(** The [if ... elif ...] that overrides the default context. *)
Definition route_context (query : string)
    (image_mems audio_mems : list retrieved) (context : string) : string :=
  if negb (bool_decide (image_mems = [])) && mentions IMAGE_WORDS query
  then IMAGE_INTENT
  else if negb (bool_decide (audio_mems = [])) && mentions AUDIO_WORDS query
  then AUDIO_INTENT
  else context.

Definition generator (prompt : string) : Py V string :=
  let* _ := emit (EvGenerate prompt) in
  lift (flan_t5 env prompt).

(** The two loops that collect the media of the answer. *)
Fixpoint collect_media (mems : list retrieved) : Py V (list media_ref) :=
  match mems with
  | [] => ret []
  | mem :: rest =>
      if has_file_path mem then
        let* p := getitem (metadata mem) "file_path" in
        let* f := getitem (metadata mem) "filename" in
        let* tail := collect_media rest in
        ret (mk_media p f :: tail)
      else collect_media rest
  end.

(** [if generated_text.startswith("Answer:"): ...[7:].strip()]. *)
Definition strip_answer_label (generated_text : string) : string :=
  if String.prefix "Answer:" generated_text
  then str_strip env (str_from 7 generated_text)
  else generated_text.

Definition generate_response (query : string)
    (retrieved_memories : list retrieved) : Py V answer :=
  match retrieved_memories with
  | [] => ret (mk_answer NO_MEMORIES [] [])
  | _ :: _ =>
      let image_mems := image_memories retrieved_memories in
      let audio_mems := audio_memories retrieved_memories in
      let other_mems := other_memories retrieved_memories in
      let* lines := for_each context_line other_mems in
      let context := String.concat NL lines in
      let context := route_context query image_mems audio_mems context in
      let prompt := build_prompt query context in
      let* generated_text := generator prompt in
      let generated_text := strip_answer_label generated_text in
      let* imgs := collect_media image_mems in
      let* auds := collect_media audio_mems in
      ret (mk_answer
             ("As your memory archivist, I recall: " ++ generated_text)
             imgs auds)
  end.

(** *** Vocabulary of the statements about the responder *)

(** A retrieved result carries the two metadata fields that are read with
    [mem['metadata'][...]]. *)
Definition well_formed (mem : retrieved) : Prop :=
  is_Some (metadata mem !! "filename")
  /\ is_Some (metadata mem !! "source_type").

(** The context line of a well-formed result. *)
Definition line_of (mem : retrieved) : string :=
  "Memory from " ++ py_str (dict_get (metadata mem) "filename" PNone)
  ++ " (" ++ py_str (dict_get (metadata mem) "source_type" PNone)
  ++ "): " ++ py_str (content mem).

Definition default_context (retrieved_memories : list retrieved) : string :=
  String.concat NL (line_of <$> other_memories retrieved_memories).

(** The prompt handed to the generative model. *)
Definition prompt_of (query : string) (retrieved_memories : list retrieved)
    : string :=
  build_prompt query
    (route_context query (image_memories retrieved_memories)
                   (audio_memories retrieved_memories)
                   (default_context retrieved_memories)).

(** The [{'path': ..., 'filename': ...}] entry of a well-formed result. *)
Definition media_ref_of (mem : retrieved) : media_ref :=
  mk_media (dict_get (metadata mem) "file_path" PNone)
           (dict_get (metadata mem) "filename" PNone).

End WithEnv.

End Rag.

(** ** A concrete environment, used to run the definitions *)

Module Sample.
Import Runtime.

Definition ascii_lower (c : ascii) : ascii :=
  let n := nat_of_ascii c in
  if (65 <=? n)%nat && (n <=? 90)%nat then ascii_of_nat (n + 32) else c.

Fixpoint lower (s : string) : string :=
  match s with
  | EmptyString => EmptyString
  | String c s' => String (ascii_lower c) (lower s')
  end.

Definition is_space (c : ascii) : bool :=
  let n := nat_of_ascii c in
  (n =? 32)%nat || ((9 <=? n)%nat && (n <=? 13)%nat).

Fixpoint lstrip (s : string) : string :=
  match s with
  | EmptyString => EmptyString
  | String c s' => if is_space c then lstrip s' else s
  end.

Fixpoint rstrip (s : string) : string :=
  match s with
  | EmptyString => EmptyString
  | String c s' =>
      match rstrip s' with
      | EmptyString => if is_space c then EmptyString else String c EmptyString
      | t => String c t
      end
  end.

Definition strip (s : string) : string := rstrip (lstrip s).

Definition is_ascii (data : bytes) : bool :=
  forallb (fun b => (Byte.to_nat b <? 128)%nat) data.

(** Files of 7-bit characters decode to themselves. *)
Definition utf8 (data : bytes) : option string :=
  if is_ascii data then Some (string_of_list_byte data) else None.

Definition latin1 (data : bytes) : string := string_of_list_byte data.

(** [s] without a leading [pre]. *)
Fixpoint after_prefix (pre s : string) : string :=
  match pre, s with
  | String a pre', String b s' =>
      if Ascii.eqb a b then after_prefix pre' s' else s
  | _, _ => s
  end.

(** [open(path, 'wb')] fails when the directory of [path] is missing:
    only the working directory and [uploads/] exist. *)
Definition missing_directory (path : string) : option exn :=
  if contains "/" (after_prefix "uploads/" path)
  then Some (mk_exn FileNotFoundError
               ("[Errno 2] No such file or directory: '" ++ path ++ "'"))
  else None.

Definition docx (data : bytes) : result (list string) :=
  let s := string_of_list_byte data in
  if String.prefix "PK" s then Ok [after_prefix "PK" s]
  else Raise (mk_exn OtherError "File is not a zip file").

Definition speech (data : bytes) : result string :=
  match data with
  | [] => Raise (mk_exn OtherError "Soundfile is malformed")
  | _ => Ok " at the beach"
  end.

Definition captioner (data : bytes) : result string :=
  match data with
  | [] => Raise (mk_exn OtherError "cannot identify image file")
  | _ => Ok "a dog on a beach"
  end.

Definition env : Env (list nat) :=
  {| uuid4 := fun n => "6f1c2a9e-" ++ pretty n;
     now_iso := fun n => "2024-05-01T10:00:0" ++ pretty n;
     write_error := missing_directory;
     read_utf8 := utf8;
     read_latin1 := latin1;
     docx_paragraphs := docx;
     whisper := speech;
     blip := captioner;
     encode := fun v => [String.length (py_str v)];
     store_get_error := None;
     flan_t5 := fun _ => Ok "Answer: a day at the beach ";
     str_lower := lower;
     str_strip := strip |}.

(** The same machine with an index whose [get] raises. *)
Definition env_get_fails : Env (list nat) :=
  {| uuid4 := uuid4 env;
     now_iso := now_iso env;
     write_error := write_error env;
     read_utf8 := read_utf8 env;
     read_latin1 := read_latin1 env;
     docx_paragraphs := docx_paragraphs env;
     whisper := whisper env;
     blip := blip env;
     encode := encode env;
     store_get_error := Some (mk_exn OtherError "database is locked");
     flan_t5 := flan_t5 env;
     str_lower := str_lower env;
     str_strip := str_strip env |}.

Definition empty_world : World (list nat) := mk_world ∅ 0 0 [] [].

Definition ascii_bytes (s : string) : bytes := list_byte_of_string s.

(** A record as [ingest_files] produces it for a text upload. *)
Definition diary : pydict :=
  Ingestion.memory_dict "Dear diary" "diary.txt" "text"
                        "2024-05-01T10:00:00" None.

(** A record built by another caller: no ['year'], no ['file_path']. *)
Definition bare_note : pydict :=
  list_to_map
    [("content", PStr "milk, eggs");
     ("filename", PStr "note.txt");
     ("source_type", PStr "text");
     ("upload_time", PStr "2024-05-02T08:30:00")].

(** The same machine with a read-only working directory: only files under
    [uploads/] can be written. *)
Definition read_only_cwd (path : string) : option exn :=
  if String.prefix "uploads/" path then missing_directory path
  else Some (mk_exn OSError
               ("[Errno 30] Read-only file system: '" ++ path ++ "'")).

Definition env_read_only_cwd : Env (list nat) :=
  {| uuid4 := uuid4 env;
     now_iso := now_iso env;
     write_error := read_only_cwd;
     read_utf8 := read_utf8 env;
     read_latin1 := read_latin1 env;
     docx_paragraphs := docx_paragraphs env;
     whisper := whisper env;
     blip := blip env;
     encode := encode env;
     store_get_error := store_get_error env;
     flan_t5 := flan_t5 env;
     str_lower := str_lower env;
     str_strip := str_strip env |}.

Definition greeting : Ingestion.upload :=
  ("hello.txt", ascii_bytes "hello", "text", "").

Definition empty_text : Ingestion.upload := ("empty.txt", [], "text", "").

Definition silent_memo : Ingestion.upload :=
  ("memo.mp3", [], "audio", "voice memo").

Definition beach_photo : Ingestion.upload :=
  ("beach.png", ascii_bytes "PNG", "image", "").

Definition nested_photo : Ingestion.upload :=
  ("album/beach.png", ascii_bytes "PNG", "image", "").

Definition scanned_pdf : Ingestion.upload :=
  ("scan.pdf", ascii_bytes "%PDF", "pdf", "").

Definition hit (text filename source_type : string) (file_path : pyval)
    : Rag.retrieved :=
  Rag.mk_retrieved (PStr text)
    (Embeddings.strip_none
       (list_to_map
          [("filename", PStr filename);
           ("source_type", PStr source_type);
           ("upload_time", PStr "2024-05-01T10:00:00");
           ("year", PNone);
           ("file_path", file_path)])).

Definition diary_hit : Rag.retrieved :=
  hit "We drove to the beach" "diary.txt" "text" PNone.

Definition photo_hit : Rag.retrieved :=
  hit "This image shows: a dog on a beach" "beach.png" "image"
      (PStr "6f1c2a9e-0_beach.png").

(** An image whose side-file name was not stored. *)
Definition pathless_photo_hit : Rag.retrieved :=
  hit "This image shows: a cat" "cat.png" "image" PNone.

Definition memo_hit : Rag.retrieved :=
  hit "Audio transcription: waves" "memo.mp3" "audio"
      (PStr "6f1c2a9e-1_memo.mp3").

(** A result whose metadata lacks the file name. *)
Definition nameless_hit : Rag.retrieved :=
  Rag.mk_retrieved (PStr "loose page")
    (list_to_map [("source_type", PStr "text")]).

(** The records of a run, when it returned. *)
Definition records {A} (run : result (list A) * World (list nat)) : list A :=
  match run.1 with
  | Ok ms => ms
  | Raise _ => []
  end.

Definition stored (n : nat) : row (list nat) :=
  mk_row (Embeddings.memory_id n) [n] (PStr "old") ∅.

(** A world whose index already holds [n] rows. *)
Definition world_with_rows (n : nat) : World (list nat) :=
  mk_world ∅ 0 0 (stored <$> seq 0 n) [].

End Sample.

(** ** backend/embeddings.py and backend/rag.py: retrieval *)

Module Retrieval.
Import Runtime.

(** One element of the list returned by [search_memories]. *)
Record hit (D : Type) := mk_hit {
  hit_content : pyval;
  hit_metadata : pydict;
  hit_distance : D
}.
Arguments mk_hit {D} _ _ _.
Arguments hit_content {D} _.
Arguments hit_metadata {D} _.
Arguments hit_distance {D} _.

(** What [collection.query] answers for the single query embedding:
    [results['documents'][0]], [results['metadatas'][0]] and
    [results['distances'][0]]. *)
Record query_result (D : Type) := mk_query_result {
  documents : list pyval;
  metadatas : list pydict;
  distances : list D
}.
Arguments mk_query_result {D} _ _ _.
Arguments documents {D} _.
Arguments metadatas {D} _.
Arguments distances {D} _.

Definition INDEX_ERROR : exn := mk_exn OtherError "list index out of range".

(** The dict handed on to [generate_response], which never reads
    ['distance']. *)
Definition as_retrieved {D} (h : hit D) : Rag.retrieved :=
  Rag.mk_retrieved (hit_content h) (hit_metadata h).

Section WithEnv.

(** [D] is the type of distances (floats in the source); [chroma_query] is
    ChromaDB's nearest-neighbour search over the rows of the index. *)
Context {V D : Type} (env : Env V).
Context (chroma_query : V -> nat -> list (row V) -> result (query_result D)).

(** [self.collection.query(query_embeddings=[embedding],
    n_results=n_results)]. *)
Definition collection_query (embedding : V) (n_results : nat)
    : Py V (query_result D) :=
  fun w => (chroma_query embedding n_results (store w), w).

(** [l[i]] for an index produced by [range]: IndexError past the end. *)
Definition list_item {A} (l : list A) (i : nat) : Py V A :=
  match l !! i with
  | Some x => ret x
  | None => raise INDEX_ERROR
  end.

(** The body of the loop over [range(len(results['documents'][0]))]. *)
Definition hit_at (results : query_result D) (i : nat) : Py V (hit D) :=
  let* c := list_item (documents results) i in
  let* m := list_item (metadatas results) i in
  let* d := list_item (distances results) i in
  ret (mk_hit c m d).

Definition search_memories (query : string) (n_results : nat)
    : Py V (list (hit D)) :=
  let* query_embedding := Embeddings.generate_embedding env (PStr query) in
  let* results := collection_query query_embedding n_results in
  for_each (hit_at results) (seq 0 (length (documents results))).

(** [RAGSystem.retrieve_memories]. *)
Definition retrieve_memories (query : string) (n_results : nat)
    : Py V (list (hit D)) :=
  search_memories query n_results.

(** The hits of a well-shaped answer: one per document. *)
Definition hits_of (results : query_result D) : list (hit D) :=
  zip_with (fun cm d => mk_hit cm.1 cm.2 d)
           (zip (documents results) (metadatas results))
           (distances results).

End WithEnv.

End Retrieval.

(** ** Further vocabulary and sample data *)

Module Cases.
Import Runtime.

(** The ids of the rows are [memory_0, memory_1, ...] in order. *)
Definition ids_in_sequence {V} (rows : list (row V)) : Prop :=
  row_id <$> rows = Embeddings.memory_id <$> seq 0 (length rows).

(** The file names of a batch, as the records carry them. *)
Definition upload_name (u : Ingestion.upload) : option pyval :=
  Some (PStr u.1.1.1).

Definition scratch_paths (uploads : list Ingestion.upload) : list string :=
  (fun u : Ingestion.upload => Ingestion.temp_path_of u.1.1.1) <$> uploads.


(** An index that answers a query with its first [k] rows. *)
Definition first_rows (embedding : list nat) (k : nat)
    (rows : list (row (list nat))) : result (Retrieval.query_result nat) :=
  Ok (Retrieval.mk_query_result
        (row_document <$> take k rows)
        (row_metadata <$> take k rows)
        (seq 0 (length (take k rows)))).

(** An index whose answer lacks the metadata of its last document. *)
Definition ragged (embedding : list nat) (k : nat)
    (rows : list (row (list nat))) : result (Retrieval.query_result nat) :=
  Ok (Retrieval.mk_query_result [PStr "a"; PStr "b"] [∅] [0; 1]).

Definition blank_photo : Ingestion.upload := ("blank.png", [], "image", "").

(** An unsupported upload whose name has a directory part. *)
Definition nested_pdf : Ingestion.upload :=
  ("docs/scan.pdf", Sample.ascii_bytes "%PDF", "pdf", "").


(** The names of the side-files that a batch saves, in order, when the
    uuid counter stands at [n] and every write succeeds. *)
Fixpoint side_names {V} (env : Env V) (uploads : list Ingestion.upload)
    (n : nat) : list string :=
  match uploads with
  | [] => []
  | u :: rest =>
      if bool_decide (u.1.2 ∈ ["image"; "audio"])
      then (uuid4 env n ++ "_" ++ u.1.1.1) :: side_names env rest (S n)
      else side_names env rest n
  end.

(** A record without ['filename']. *)
Definition nameless_record : pydict :=
  list_to_map [("content", PStr "loose page")].

(** A model that fails. *)
Definition env_model_fails : Env (list nat) :=
  {| uuid4 := uuid4 Sample.env;
     now_iso := now_iso Sample.env;
     write_error := write_error Sample.env;
     read_utf8 := read_utf8 Sample.env;
     read_latin1 := read_latin1 Sample.env;
     docx_paragraphs := docx_paragraphs Sample.env;
     whisper := whisper Sample.env;
     blip := blip Sample.env;
     encode := encode Sample.env;
     store_get_error := store_get_error Sample.env;
     flan_t5 := fun _ => Raise (mk_exn OtherError "CUDA out of memory");
     str_lower := str_lower Sample.env;
     str_strip := str_strip Sample.env |}.

End Cases.

(** ** backend/utils.py *)

Module Utils.
Import Runtime.

(** [s[:n]]. *)
Definition str_to (n : nat) (s : string) : string := String.substring 0 n s.

Definition NOT_SUBSCRIPTABLE : exn :=
  mk_exn OtherError "object is not subscriptable".

(** [v[:n]]: a str is cut, [None] and an int raise TypeError. *)
Definition slice_to (n : nat) (v : pyval) : result string :=
  match v with
  | PStr s => Ok (str_to n s)
  | PNone | PInt _ => Raise NOT_SUBSCRIPTABLE
  end.

(** The f-string of [format_memory_for_display], its fields evaluated from
    left to right. *)
Definition format_memory_for_display {V} (memory : Rag.retrieved)
    : Py V string :=
  let* filename := getitem (Rag.metadata memory) "filename" in
  let* source_type := getitem (Rag.metadata memory) "source_type" in
  let* upload_time := getitem (Rag.metadata memory) "upload_time" in
  let* day := lift (slice_to 10 upload_time) in
  let* shown := lift (slice_to 200 (Rag.content memory)) in
  ret ("**" ++ py_str filename ++ "** (" ++ py_str source_type ++ ", "
       ++ day ++ "): " ++ shown ++ "...").

(** [\d] on the characters of the model's strings. *)
Definition is_digit (c : ascii) : bool :=
  (48 <=? nat_of_ascii c)%nat && (nat_of_ascii c <=? 57)%nat.

Definition digit_value (c : ascii) : Z :=
  (Z.of_nat (nat_of_ascii c) - 48)%Z.

(** [(19|20)]. *)
Definition century (a b : ascii) : bool :=
  Ascii.eqb a "1" && Ascii.eqb b "9" || Ascii.eqb a "2" && Ascii.eqb b "0".

Definition first_char (s : string) : option ascii :=
  match s with
  | EmptyString => None
  | String c _ => Some c
  end.

Section Year.

(** [\w], which the standard library decides from the Unicode tables. *)
Context (is_word : ascii -> bool).

Definition word_side (c : option ascii) : bool :=
  match c with
  | Some c => is_word c
  | None => false
  end.

(** [\b] between the character [prev] and the character [next], each
    [None] at an end of the string. *)
Definition boundary (prev next : option ascii) : bool :=
  negb (Bool.eqb (word_side prev) (word_side next)).

(** [int(match.group())] when [\b(19|20)\d{2}\b] matches at the start of
    [s], which [prev] precedes. *)
Definition year_at (prev : option ascii) (s : string) : option Z :=
  match s with
  | String a (String b (String c (String d rest))) =>
      if boundary prev (Some a) && century a b && is_digit c && is_digit d
         && boundary (Some d) (first_char rest)
      then Some (1000 * digit_value a + 100 * digit_value b
                 + 10 * digit_value c + digit_value d)%Z
      else None
  | _ => None
  end.

(** [re.search]: the match at the leftmost position that has one. *)
Fixpoint search (prev : option ascii) (s : string) : option Z :=
  match year_at prev s with
  | Some year => Some year
  | None =>
      match s with
      | EmptyString => None
      | String c rest => search (Some c) rest
      end
  end.

Definition extract_year_from_content (content : string) : option Z :=
  search None content.

(** The character before the end of [s], which [prev] precedes. *)
Fixpoint last_char (prev : option ascii) (s : string) : option ascii :=
  match s with
  | EmptyString => prev
  | String c rest => last_char (Some c) rest
  end.

End Year.

Fixpoint all_chars (p : ascii -> bool) (s : string) : bool :=
  match s with
  | EmptyString => true
  | String c rest => p c && all_chars p rest
  end.

(** The word characters of ASCII. *)
Definition ascii_word (c : ascii) : bool :=
  is_digit c
  || (65 <=? nat_of_ascii c)%nat && (nat_of_ascii c <=? 90)%nat
  || (97 <=? nat_of_ascii c)%nat && (nat_of_ascii c <=? 122)%nat
  || Ascii.eqb c "_".

End Utils.

(** * Properties *)

(** ** The monad and the world *)

Module RuntimeFacts.
Import Runtime.

Section Facts.

Context {V : Type}.
Implicit Types w : World V.

Lemma bind_ok {A B} (m : Py V A) (k : A -> Py V B) w a w' :
  m w = (Ok a, w') -> bind m k w = k a w'.
Proof. unfold bind. by intros ->. Qed.

Lemma bind_raise {A B} (m : Py V A) (k : A -> Py V B) w e w' :
  m w = (Raise e, w') -> bind m k w = (Raise e, w').
Proof. unfold bind. by intros ->. Qed.

Lemma bind_ok_inv {A B} (m : Py V A) (k : A -> Py V B) w b w2 :
  bind m k w = (Ok b, w2) ->
  exists a w1, m w = (Ok a, w1) /\ k a w1 = (Ok b, w2).
Proof.
  unfold bind. destruct (m w) as [[a|e] w1]; [eauto | discriminate].
Qed.

Lemma run_eta {A} (m : Py V A) w a :
  (m w).1 = Ok a -> m w = (Ok a, (m w).2).
Proof. destruct (m w) as [r w']; simpl. by intros ->. Qed.

Lemma log_nil w : log [] w = w.
Proof. destruct w. unfold log; simpl. by rewrite app_nil_r. Qed.

Lemma log_log evs1 evs2 w : log evs2 (log evs1 w) = log (evs1 ++ evs2) w.
Proof. unfold log; simpl. by rewrite app_assoc. Qed.

Lemma getitem_ok (d : pydict) k v w :
  d !! k = Some v -> getitem d k w = (Ok v, w).
Proof. unfold getitem. by intros ->. Qed.

Lemma getitem_ok_inv (d : pydict) k v w w' :
  getitem d k w = (Ok v, w') -> d !! k = Some v /\ w' = w.
Proof.
  unfold getitem. destruct (d !! k); unfold ret, raise; intros H.
  - by injection H as -> ->.
  - discriminate.
Qed.

Lemma prefix_append (s t : string) : String.prefix s (s ++ t) = true.
Proof.
  induction s as [|c s IH]; simpl; [by destruct t|].
  destruct (Ascii.ascii_dec c c); [exact IH | done].
Qed.

Lemma contains_prefix (sub s : string) :
  String.prefix sub s = true -> contains sub s = true.
Proof. destruct s; simpl; intros ->; done. Qed.

Lemma contains_append (sub before after : string) :
  contains sub (before ++ sub ++ after) = true.
Proof.
  induction before as [|c before IH].
  - change ("" ++ sub ++ after) with (sub ++ after).
    apply contains_prefix, prefix_append.
  - change (String c before ++ sub ++ after)
      with (String c (before ++ sub ++ after)).
    change (String.prefix sub (String c (before ++ sub ++ after))
            || contains sub (before ++ sub ++ after) = true).
    rewrite IH. apply orb_true_r.
Qed.

Lemma dict_get_present (d : pydict) k v dflt :
  d !! k = Some v -> dict_get d k dflt = v.
Proof. unfold dict_get. by intros ->. Qed.

End Facts.

End RuntimeFacts.

(** ** The memory store *)

Module EmbeddingsFacts.
Import Runtime RuntimeFacts Embeddings.

Lemma memory_id_injective a b : memory_id a = memory_id b -> a = b.
Proof.
  unfold memory_id. simpl. intros H.
  injection H as H. by apply (inj pretty).
Qed.

Section Facts.

Context {V : Type} (env : Env V).
Implicit Types w : World V.

Lemma probe_existing_count_eq w :
  probe_existing_count env w
  = (Ok (match store_get_error env with
         | Some _ => 0
         | None => length (store w) `min` GET_LIMIT
         end),
     log [EvStoreGet GET_LIMIT] w).
Proof.
  unfold probe_existing_count, try_except, collection_get_ids, bind, emit.
  destruct (store_get_error env) as [e|]; simpl; [done|].
  unfold ret. rewrite length_take, length_fmap.
  by rewrite Nat.min_comm.
Qed.

Lemma build_row_ok c i memory w :
  has_required_keys memory ->
  build_row env c i memory w
  = (Ok (row_of env c i memory),
     log [EvEmbed (dict_get memory "content" PNone)] w).
Proof.
  intros ([vc Hc] & [vf Hf] & [vs Hs] & [vu Hu]).
  unfold build_row, row_of, raw_metadata, generate_embedding, getitem, bind,
    emit, ret.
  rewrite !(dict_get_present _ _ _ PNone Hc), (dict_get_present _ _ _ PNone Hf),
    (dict_get_present _ _ _ PNone Hs), (dict_get_present _ _ _ PNone Hu).
  rewrite Hc, Hf, Hs, Hu. reflexivity.
Qed.

Lemma build_row_ok_inv c i memory w r w' :
  build_row env c i memory w = (Ok r, w') -> has_required_keys memory.
Proof.
  unfold build_row, generate_embedding, getitem, bind, emit, ret, raise,
    has_required_keys.
  destruct (memory !! "content"); [|discriminate].
  destruct (memory !! "filename"); [|discriminate].
  destruct (memory !! "source_type"); [|discriminate].
  destruct (memory !! "upload_time"); [|discriminate].
  eauto 10.
Qed.

Lemma build_rows_ok c memories : forall i w,
  Forall has_required_keys memories ->
  build_rows env c i memories w
  = (Ok (rows_of env c i memories), log (embed_events memories) w).
Proof.
  induction memories as [|memory rest IH]; intros i w Hall; simpl.
  - unfold ret. by rewrite log_nil.
  - apply Forall_cons in Hall as [Hm Hrest].
    rewrite (bind_ok _ _ _ _ _ (build_row_ok c i memory w Hm)).
    rewrite (bind_ok _ _ _ _ _ (IH (S i) _ Hrest)).
    unfold ret. by rewrite log_log.
Qed.

Lemma build_rows_ok_inv c memories : forall i w rows w',
  build_rows env c i memories w = (Ok rows, w') ->
  Forall has_required_keys memories.
Proof.
  induction memories as [|memory rest IH]; intros i w rows w' H; simpl in H.
  - constructor.
  - apply bind_ok_inv in H as (r & w1 & Hr & H).
    apply bind_ok_inv in H as (rs & w2 & Hrs & _).
    constructor; [by eapply build_row_ok_inv | by eapply IH].
Qed.

Lemma rows_of_ids c memories : forall i,
  row_id <$> rows_of env c i memories
  = (fun j => memory_id (c + j)) <$> seq i (length memories).
Proof.
  induction memories as [|memory rest IH]; intros i; simpl; [done|].
  by rewrite IH.
Qed.

(** What [add_memories] does on a non-empty batch of well-formed records. *)
Lemma add_memories_run memories w :
  memories <> [] -> Forall has_required_keys memories ->
  let c := match store_get_error env with
           | Some _ => 0
           | None => length (store w) `min` GET_LIMIT
           end in
  let rows := rows_of env c 0 memories in
  add_memories env memories w
  = (Ok tt,
     set_store (store w ++ rows)
       (log ([EvStoreGet GET_LIMIT] ++ embed_events memories
             ++ [EvStoreAdd (row_id <$> rows)]) w)).
Proof.
  intros Hne Hall c rows. destruct memories as [|m rest]; [done|].
  unfold add_memories.
  rewrite (bind_ok _ _ _ _ _ (probe_existing_count_eq w)).
  rewrite (bind_ok _ _ _ _ _ (build_rows_ok _ _ 0 _ Hall)).
  unfold collection_add, bind, emit. rewrite !log_log. reflexivity.
Qed.

Lemma strip_none_lookup (metadata : pydict) k v :
  strip_none metadata !! k = Some v <-> metadata !! k = Some v /\ v <> PNone.
Proof. unfold strip_none. by rewrite map_lookup_filter_Some. Qed.

Lemma raw_metadata_lookup memory k :
  k ∈ METADATA_KEYS ->
  raw_metadata memory !! k
  = Some (dict_get memory k
            (if bool_decide (k ∈ ["year"; "file_path"])
             then PStr "" else PNone)).
Proof.
  unfold METADATA_KEYS. intros Hk.
  repeat (apply elem_of_cons in Hk as [->|Hk]); [reflexivity..|].
  by apply elem_of_nil in Hk.
Qed.

Lemma raw_metadata_lookup_required memory k :
  has_required_keys memory -> k ∈ METADATA_KEYS ->
  raw_metadata memory !! k = Some (dict_get memory k (PStr "")).
Proof.
  intros ([vc Hc] & [vf Hf] & [vs Hs] & [vu Hu]) Hk.
  rewrite (raw_metadata_lookup _ _ Hk). unfold METADATA_KEYS in Hk.
  repeat (apply elem_of_cons in Hk as [->|Hk]); simpl;
    rewrite ?(dict_get_present _ _ _ PNone Hf),
      ?(dict_get_present _ _ _ PNone Hs), ?(dict_get_present _ _ _ PNone Hu),
      ?(dict_get_present _ _ _ (PStr "") Hf),
      ?(dict_get_present _ _ _ (PStr "") Hs),
      ?(dict_get_present _ _ _ (PStr "") Hu); try done.
  by apply elem_of_nil in Hk.
Qed.

Lemma row_of_metadata c i memory :
  has_required_keys memory -> stored_metadata_ok memory (row_of env c i memory).
Proof.
  intros Hm. split; simpl.
  - intros k v Hkv. by apply strip_none_lookup in Hkv as [_ ?].
  - intros k Hk Hempty. apply strip_none_lookup.
    rewrite raw_metadata_lookup_required, Hempty by done. done.
Qed.

Lemma rows_of_metadata c memories : forall i,
  Forall has_required_keys memories ->
  Forall2 stored_metadata_ok memories (rows_of env c i memories).
Proof.
  induction memories as [|memory rest IH]; intros i Hall; simpl.
  - constructor.
  - apply Forall_cons in Hall as [Hm Hrest].
    constructor; [by apply row_of_metadata | by apply IH].
Qed.

(** Above [GET_LIMIT] entries the probe no longer sees the whole index: it
    counts [GET_LIMIT], and the record added next gets the id
    [memory_10000] whatever the number of entries. *)
Lemma count_probe_is_capped w :
  store_get_error env = None -> GET_LIMIT < length (store w) ->
  (probe_existing_count env w).1 = Ok GET_LIMIT.
Proof.
  intros Hget Hlt. rewrite probe_existing_count_eq, Hget. simpl.
  f_equal. lia.
Qed.

Lemma ids_repeat_above_get_limit memory w :
  store_get_error env = None -> GET_LIMIT < length (store w) ->
  has_required_keys memory ->
  row_id <$> store (add_memories env [memory] w).2
  = ((row_id <$> store w) ++ [memory_id GET_LIMIT])%list.
Proof.
  intros Hget Hlt Hm.
  rewrite add_memories_run by (done || by constructor).
  rewrite Hget. simpl. rewrite fmap_app. simpl.
  replace (length (store w) `min` GET_LIMIT + 0) with GET_LIMIT by lia.
  done.
Qed.

(** C9: [add_memories([])] returns at once: the world it leaves is the
    world it found, so the index was neither read nor extended, no
    embedding was computed, and the entry count and contents of the index
    are unchanged. *)
Theorem add_memories_empty_is_noop w :
  add_memories env [] w = (Ok tt, w).
Proof. reflexivity. Qed.

(** C3 (as amended): a non-empty batch of [N] records with the keys that
    [add_memories] reads gets the ids [memory_c ... memory_(c+N-1)], which
    are pairwise distinct; the count [c] is read by a single probe per
    batch, it is the number of entries of the index when the probe
    succeeds and the index holds at most [GET_LIMIT] entries, and it is 0
    when the probe raises. *)
Theorem add_memories_consecutive_ids memories w :
  memories <> [] -> Forall has_required_keys memories ->
  exists c rows w',
    add_memories env memories w = (Ok tt, w')
    /\ store w' = (store w ++ rows)%list
    /\ row_id <$> rows
       = (fun i => memory_id (c + i)) <$> seq 0 (length memories)
    /\ NoDup (row_id <$> rows)
    /\ trace w' = (trace w ++ [EvStoreGet GET_LIMIT] ++ embed_events memories
                   ++ [EvStoreAdd (row_id <$> rows)])%list
    /\ (store_get_error env = None -> length (store w) <= GET_LIMIT ->
        c = length (store w))
    /\ (is_Some (store_get_error env) -> c = 0).
Proof.
  intros Hne Hall.
  pose proof (add_memories_run memories w Hne Hall) as Hrun.
  simpl in Hrun.
  set (c := match store_get_error env with
            | Some _ => 0
            | None => length (store w) `min` GET_LIMIT
            end) in *.
  exists c, (rows_of env c 0 memories). eexists. split; [exact Hrun|].
  rewrite rows_of_ids. repeat split.
  - apply NoDup_fmap_2_strong; [|apply NoDup_seq].
    intros i j _ _ Hij. apply memory_id_injective in Hij. lia.
  - intros Hget Hle. subst c. rewrite Hget. lia.
  - intros [e He]. subst c. by rewrite He.
Qed.

(** C2 (as amended): whenever [add_memories] completes, the metadata
    inserted for each record holds no field whose value is [None]; a field
    whose value is the empty string is kept, and a ['year'] or
    ['file_path'] key missing from the record is inserted as the empty
    string. *)
Theorem add_memories_metadata_without_none memories w w' :
  add_memories env memories w = (Ok tt, w') ->
  exists rows,
    store w' = (store w ++ rows)%list
    /\ Forall2 stored_metadata_ok memories rows.
Proof.
  intros Hrun. destruct memories as [|m rest].
  - injection Hrun as <-. exists []. split; [by rewrite app_nil_r|constructor].
  - assert (Hall : Forall has_required_keys (m :: rest)).
    { unfold add_memories in Hrun.
      apply bind_ok_inv in Hrun as (c & w1 & _ & Hrun).
      apply bind_ok_inv in Hrun as (rows & w2 & Hrows & _).
      by eapply build_rows_ok_inv. }
    rewrite add_memories_run in Hrun by done.
    injection Hrun as <-. eexists. split; [reflexivity|].
    exact (rows_of_metadata _ (m :: rest) 0 Hall).
Qed.

End Facts.

Lemma sample_records_well_formed :
  Forall has_required_keys [Sample.diary; Sample.bare_note].
Proof. repeat constructor; vm_compute; eauto. Defined.

(** The index holds two entries and its count probe raises: the new record
    gets the id [memory_0], not [memory_2]. *)
Lemma ids_restart_at_zero_when_probe_raises :
  let w := Sample.world_with_rows 2 in
  ~ forall w',
      add_memories Sample.env_get_fails [Sample.diary] w = (Ok tt, w') ->
      row_id <$> drop (length (store w)) (store w')
      = [memory_id (length (store w))].
Proof.
  intros w H.
  assert (Hrun := run_eta (add_memories Sample.env_get_fails [Sample.diary])
                          w tt ltac:(vm_compute; reflexivity)).
  specialize (H _ Hrun).
  assert (Hids : row_id <$> drop (length (store w))
                   (store (add_memories Sample.env_get_fails
                                        [Sample.diary] w).2)
                 = ["memory_0"]) by (vm_compute; reflexivity).
  rewrite Hids in H. vm_compute in H. discriminate H.
Qed.

Lemma add_memories_consecutive_ids_witness :
  [Sample.diary; Sample.bare_note] <> []
  /\ Forall has_required_keys [Sample.diary; Sample.bare_note]
  /\ exists c rows w',
       add_memories Sample.env [Sample.diary; Sample.bare_note]
                    (Sample.world_with_rows 2) = (Ok tt, w')
       /\ store w' = (store (Sample.world_with_rows 2) ++ rows)%list
       /\ row_id <$> rows = (fun i => memory_id (c + i)) <$> seq 0 2
       /\ NoDup (row_id <$> rows)
       /\ trace w'
          = (trace (Sample.world_with_rows 2) ++ [EvStoreGet GET_LIMIT]
             ++ embed_events [Sample.diary; Sample.bare_note]
             ++ [EvStoreAdd (row_id <$> rows)])%list
       /\ (store_get_error Sample.env = None ->
           length (store (Sample.world_with_rows 2)) <= GET_LIMIT ->
           c = length (store (Sample.world_with_rows 2)))
       /\ (is_Some (store_get_error Sample.env) -> c = 0).
Proof.
  split; [discriminate|]. split; [exact sample_records_well_formed|].
  apply (add_memories_consecutive_ids Sample.env
           [Sample.diary; Sample.bare_note] (Sample.world_with_rows 2)).
  - discriminate.
  - exact sample_records_well_formed.
Defined.

Lemma bare_note_well_formed : has_required_keys Sample.bare_note.
Proof. repeat split; vm_compute; eauto. Defined.

(** A record without ['year'] and ['file_path'] is stored with both fields
    set to the empty string. *)
Lemma empty_string_fields_are_stored :
  ~ forall w' r k v,
      add_memories Sample.env [Sample.bare_note] Sample.empty_world
      = (Ok tt, w') ->
      r ∈ store w' -> row_metadata r !! k = Some v ->
      v <> PNone /\ v <> PStr "".
Proof.
  intros H.
  pose proof (add_memories_run Sample.env [Sample.bare_note]
                Sample.empty_world) as Hrun.
  specialize (Hrun ltac:(discriminate)
                   (Forall_cons_2 _ _ _ bare_note_well_formed (Forall_nil_2 _))).
  destruct (H _ (row_of Sample.env 0 0 Sample.bare_note) "year" (PStr "")
              Hrun) as [_ Hne].
  - apply list_elem_of_here.
  - apply strip_none_lookup. split; [|done].
    rewrite raw_metadata_lookup_required;
      [reflexivity | exact bare_note_well_formed |].
    unfold METADATA_KEYS. rewrite !elem_of_cons. tauto.
  - by apply Hne.
Qed.

Lemma add_memories_metadata_without_none_witness :
  let run := add_memories Sample.env [Sample.bare_note] Sample.empty_world in
  run = (Ok tt, run.2)
  /\ exists rows,
       store run.2 = (store Sample.empty_world ++ rows)%list
       /\ Forall2 stored_metadata_ok [Sample.bare_note] rows.
Proof.
  intros run.
  assert (Hrun : run = (Ok tt, run.2)).
  { apply run_eta. vm_compute. reflexivity. }
  split; [exact Hrun|].
  exact (add_memories_metadata_without_none Sample.env [Sample.bare_note]
           Sample.empty_world run.2 Hrun).
Defined.

End EmbeddingsFacts.

(** ** Ingestion *)

Module IngestionFacts.
Import Runtime RuntimeFacts Ingestion.

Section Facts.

Context {V : Type} (env : Env V).
Implicit Types w : World V.

Lemma set_fs_same w : set_fs (fs w) w = w.
Proof. by destruct w. Qed.

Lemma unlink_if_exists_eq path w :
  unlink_if_exists path w = (Ok tt, without_file path w).
Proof.
  unfold unlink_if_exists, without_file.
  destruct (fs w !! path) eqn:Hp; [done|].
  by rewrite delete_id, set_fs_same.
Qed.

Lemma open_write_ok path data w :
  can_write env path = true ->
  open_write env path data w = (Ok tt, set_fs (<[path := data]> (fs w)) w).
Proof.
  unfold can_write, open_write. by destruct (write_error env path).
Qed.

Lemma open_write_fails path data w :
  can_write env path = false ->
  exists e, open_write env path data w = (Raise e, w).
Proof.
  unfold can_write, open_write, raise.
  destruct (write_error env path); [eauto | discriminate].
Qed.

Lemma open_read_ok path data w :
  fs w !! path = Some data -> open_read path w = (Ok data, w).
Proof. unfold open_read. by intros ->. Qed.

Lemma process_text_file_eq path data w :
  fs w !! path = Some data ->
  process_text_file env path w = (Ok (decode_text env data), w).
Proof.
  intros Hp. unfold process_text_file, try_except, bind, decode_text.
  rewrite (open_read_ok _ _ _ Hp).
  destruct (read_utf8 env data); [done|].
  unfold raise, is_class; simpl. by rewrite (open_read_ok _ _ _ Hp).
Qed.

Lemma process_word_file_eq path data w :
  fs w !! path = Some data ->
  process_word_file env path w
  = (match docx_paragraphs env data with
     | Ok full_text => Ok (String.concat NL full_text)
     | Raise e => Raise e
     end, w).
Proof.
  intros Hp. unfold process_word_file, bind, lift.
  rewrite (open_read_ok _ _ _ Hp). by destruct (docx_paragraphs env data).
Qed.

Lemma process_audio_file_eq path data w :
  fs w !! path = Some data ->
  process_audio_file env path w
  = (Ok (match whisper env data with
         | Ok transcription => "Audio transcription: " ++ transcription
         | Raise e => audio_placeholder e
         end), w).
Proof.
  intros Hp. unfold process_audio_file, try_except, bind, lift.
  rewrite (open_read_ok _ _ _ Hp). by destruct (whisper env data).
Qed.

Lemma process_image_file_eq path data w :
  fs w !! path = Some data ->
  process_image_file env path w
  = (match blip env data with
     | Ok caption => Ok (image_content caption)
     | Raise e => Raise e
     end, w).
Proof.
  intros Hp. unfold process_image_file, bind, lift.
  rewrite (open_read_ok _ _ _ Hp). by destruct (blip env data).
Qed.

Lemma dispatch_eq source_type path data w :
  fs w !! path = Some data ->
  dispatch env source_type path w
  = (match normalized env source_type data with
     | None => Ok None
     | Some (Ok content) => Ok (Some content)
     | Some (Raise e) => Raise e
     end, w).
Proof.
  intros Hp. unfold dispatch, normalized.
  destruct (String.eqb source_type "text").
  { unfold bind. by rewrite (process_text_file_eq _ _ _ Hp). }
  destruct (String.eqb source_type "word").
  { unfold bind. rewrite (process_word_file_eq _ _ _ Hp).
    by destruct (docx_paragraphs env data). }
  destruct (String.eqb source_type "audio").
  { unfold bind. by rewrite (process_audio_file_eq _ _ _ Hp). }
  destruct (String.eqb source_type "image"); [|done].
  unfold bind. rewrite (process_image_file_eq _ _ _ Hp).
  by destruct (blip env data).
Qed.

Lemma staged_has_scratch filename data source_type w :
  fs (staged env filename data source_type w) !! temp_path_of filename
  = Some data.
Proof. unfold staged. simpl. apply lookup_insert_eq. Qed.

Lemma save_media_eq filename data source_type w :
  match saved_name env filename source_type w with
  | Some unique_filename => can_write env (media_path unique_filename)
  | None => true
  end = true ->
  save_media env filename data source_type w
  = (Ok (saved_name env filename source_type w),
     media_saved env filename data source_type w).
Proof.
  unfold save_media, media_saved, saved_name.
  destruct (bool_decide (source_type ∈ ["image"; "audio"])); [|done].
  intros Hmedia. unfold bind, draw_uuid4.
  by rewrite (open_write_ok _ _ _ Hmedia).
Qed.

(** The loop body, once its two writes have succeeded. *)
Lemma ingest_one_eq filename data source_type description w :
  writes_succeed env filename source_type w = true ->
  ingest_one env (filename, data, source_type, description) w
  = iteration env (filename, data, source_type, description) w.
Proof.
  unfold writes_succeed. intros [Hmedia Htemp]%andb_true_iff.
  pose proof (staged_has_scratch filename data source_type w) as Hscratch.
  unfold ingest_one, iteration.
  rewrite (bind_ok _ _ _ _ _ (save_media_eq _ data _ _ Hmedia)).
  rewrite (bind_ok _ _ _ _ _ (open_write_ok _ _ _ Htemp)).
  fold (staged env filename data source_type w) in *.
  unfold try_finally, try_except, bind.
  rewrite (dispatch_eq _ _ _ _ Hscratch).
  assert (Hclock : clock (media_saved env filename data source_type w)
                   = clock w).
  { unfold media_saved. by destruct (saved_name _ _ _ _). }
  destruct (normalized env source_type data) as [[content|e]|].
  - unfold datetime_now_isoformat, ret. rewrite unlink_if_exists_eq.
    unfold staged, tick. simpl. by rewrite Hclock.
  - unfold any_exception, on_error, bind, print, emit, ret.
    destruct (saved_name env filename source_type w); simpl;
      by rewrite !unlink_if_exists_eq.
  - unfold ret. by rewrite unlink_if_exists_eq.
Qed.

Lemma audio_placeholder_nonempty e : audio_placeholder e <> "".
Proof. unfold audio_placeholder. simpl. discriminate. Qed.

Lemma audio_placeholder_embeds_message e :
  contains (exn_msg e) (audio_placeholder e) = true.
Proof. unfold audio_placeholder. apply contains_append. Qed.

Lemma with_description_empty description content :
  with_description description content = "" ->
  description = "" /\ content = "".
Proof.
  unfold with_description.
  destruct (String.eqb_spec description "") as [->|_]; [done|].
  simpl. discriminate.
Qed.

Lemma normalized_empty source_type data :
  normalized env source_type data = Some (Ok "") ->
  source_type = "text" \/ source_type = "word".
Proof.
  unfold normalized.
  destruct (String.eqb_spec source_type "text") as [->|_]; [by left|].
  destruct (String.eqb_spec source_type "word") as [->|_]; [by right|].
  destruct (String.eqb source_type "audio").
  { destruct (whisper env data); simpl; discriminate. }
  destruct (String.eqb source_type "image"); [|discriminate].
  destruct (blip env data); simpl; discriminate.
Qed.

Lemma memory_dict_content content filename source_type upload_time saved :
  memory_dict content filename source_type upload_time saved !! "content"
  = Some (PStr content).
Proof. reflexivity. Qed.

Lemma memory_dict_filename content filename source_type upload_time saved :
  memory_dict content filename source_type upload_time saved !! "filename"
  = Some (PStr filename).
Proof. reflexivity. Qed.

Lemma memory_dict_source_type content filename source_type upload_time saved :
  memory_dict content filename source_type upload_time saved !! "source_type"
  = Some (PStr source_type).
Proof. reflexivity. Qed.

Lemma temp_path_is_not_media filename unique_filename :
  temp_path_of filename <> media_path unique_filename.
Proof. unfold temp_path_of, media_path, UPLOADS_DIR. simpl. discriminate. Qed.

(** A failing write, which precedes the [try], leaves the loop body. *)
Lemma ingest_one_write_fails filename data source_type description w :
  writes_succeed env filename source_type w = false ->
  exists e w',
    ingest_one env (filename, data, source_type, description) w
    = (Raise e, w').
Proof.
  unfold writes_succeed. intros Hw. unfold ingest_one.
  destruct (match saved_name env filename source_type w with
            | Some unique_filename => can_write env (media_path unique_filename)
            | None => true
            end) eqn:Hmedia.
  - rewrite (bind_ok _ _ _ _ _ (save_media_eq _ data _ _ Hmedia)).
    simpl in Hw.
    destruct (open_write_fails (temp_path_of filename) data
                (media_saved env filename data source_type w) Hw) as [e He].
    rewrite (bind_raise _ _ _ _ _ He). eauto.
  - unfold save_media, saved_name in *.
    destruct (bool_decide (source_type ∈ ["image"; "audio"])); [|done].
    unfold bind at 1. unfold bind at 1. unfold draw_uuid4.
    match goal with
    | |- context [bind (open_write env ?p ?d) ?k ?w0] =>
        destruct (open_write_fails p d w0 Hmedia) as [e He];
        rewrite (bind_raise _ k _ _ _ He)
    end.
    eauto.
Qed.

Lemma ingest_loop_cons u rest memories w :
  ingest_loop env (u :: rest) memories w
  = (let* produced := ingest_one env u in
     ingest_loop env rest
       (match produced with
        | Some memory => memories ++ [memory]
        | None => memories
        end)) w.
Proof. reflexivity. Qed.

Lemma ingest_loop_app uploads1 uploads2 : forall memories w,
  ingest_loop env (uploads1 ++ uploads2) memories w
  = (let* collected := ingest_loop env uploads1 memories in
     ingest_loop env uploads2 collected) w.
Proof.
  induction uploads1 as [|u rest IH]; intros memories w; simpl; [done|].
  unfold bind. destruct (ingest_one env u w) as [[produced|e] w1]; [|done].
  rewrite IH. reflexivity.
Qed.

(** The loop only ever appends to [memories]. *)
Lemma ingest_loop_extends uploads : forall memories w ms w',
  ingest_loop env uploads memories w = (Ok ms, w') ->
  forall m, m ∈ memories -> m ∈ ms.
Proof.
  induction uploads as [|u rest IH]; intros memories w ms w' H m Hm;
    simpl in H.
  - by injection H as <-.
  - apply bind_ok_inv in H as (produced & w1 & _ & H).
    eapply IH; [exact H|]. destruct produced; [|done].
    apply elem_of_app. by left.
Qed.

(** The loop body returns normally exactly when its writes succeed. *)
Lemma ingest_one_returns filename data source_type description w r w' :
  ingest_one env (filename, data, source_type, description) w = (Ok r, w') ->
  writes_succeed env filename source_type w = true.
Proof.
  intros H. destruct (writes_succeed env filename source_type w) eqn:Hw;
    [done|].
  destruct (ingest_one_write_fails filename data source_type description w Hw)
    as (e & w1 & He).
  rewrite He in H. discriminate.
Qed.

Lemma ingest_one_produces filename data source_type description w m w' :
  ingest_one env (filename, data, source_type, description) w
  = (Ok (Some m), w') ->
  exists content,
    normalized env source_type data = Some (Ok content)
    /\ m = memory_dict (with_description description content) filename
                       source_type (now_iso env (clock w))
                       (saved_name env filename source_type w).
Proof.
  intros H. pose proof (ingest_one_returns _ _ _ _ _ _ _ H) as Hw.
  rewrite (ingest_one_eq _ _ _ _ _ Hw) in H. unfold iteration in H.
  destruct (normalized env source_type data) as [[content|e]|];
    [|discriminate..].
  injection H as <- _. eauto.
Qed.

Lemma ingest_loop_origin uploads : forall memories w ms w',
  ingest_loop env uploads memories w = (Ok ms, w') ->
  forall m, m ∈ ms ->
    m ∈ memories
    \/ exists filename data source_type description content upload_time saved,
         (filename, data, source_type, description) ∈ uploads
         /\ normalized env source_type data = Some (Ok content)
         /\ m = memory_dict (with_description description content) filename
                            source_type upload_time saved.
Proof.
  induction uploads as [|u rest IH]; intros memories w ms w' H m Hm;
    simpl in H.
  - injection H as <- _. by left.
  - apply bind_ok_inv in H as (produced & w1 & Hone & H).
    destruct (IH _ _ _ _ H m Hm) as [Hin|Hlater].
    + destruct produced as [m1|]; [|by left].
      apply elem_of_app in Hin as [Hin|Hin]; [by left|].
      apply list_elem_of_singleton in Hin as ->. right.
      destruct u as [[[filename data] source_type] description].
      destruct (ingest_one_produces _ _ _ _ _ _ _ Hone) as (content & Hn & ->).
      do 7 eexists. split; [apply list_elem_of_here|]. split; [exact Hn|done].
    + right.
      destruct Hlater as (f & d & st & ds & c & t & sv & Hin & Hn & ->).
      do 7 eexists. split; [apply list_elem_of_further, Hin|].
      split; [exact Hn|done].
Qed.

Lemma ingest_loop_keeps before filename data source_type description after :
  forall memories w ms w' content,
  ingest_loop env
    (before ++ (filename, data, source_type, description) :: after)
    memories w = (Ok ms, w') ->
  normalized env source_type data = Some (Ok content) ->
  exists upload_time saved,
    memory_dict (with_description description content) filename source_type
                upload_time saved ∈ ms.
Proof.
  intros memories w ms w' content H Hn. rewrite ingest_loop_app in H.
  apply bind_ok_inv in H as (ms1 & w1 & _ & H).
  rewrite ingest_loop_cons in H.
  apply bind_ok_inv in H as (produced & w2 & Hone & H).
  pose proof (ingest_one_returns _ _ _ _ _ _ _ Hone) as Hw.
  rewrite (ingest_one_eq _ _ _ _ _ Hw) in Hone. unfold iteration in Hone.
  rewrite Hn in Hone. injection Hone as <- _.
  do 2 eexists. eapply ingest_loop_extends; [exact H|].
  apply elem_of_app. right. apply list_elem_of_here.
Qed.

Lemma unsupported_not_normalized source_type data :
  source_type ∉ ["text"; "word"; "audio"; "image"] ->
  normalized env source_type data = None.
Proof.
  intros Hst. unfold normalized.
  repeat match goal with
         | |- context [String.eqb source_type ?t] =>
             destruct (String.eqb_spec source_type t) as [->|_];
             [exfalso; apply Hst; rewrite !elem_of_cons; tauto|]
         end.
  done.
Qed.

Lemma unsupported_not_saved filename source_type w :
  source_type ∉ ["text"; "word"; "audio"; "image"] ->
  saved_name env filename source_type w = None.
Proof.
  intros Hst. unfold saved_name. rewrite bool_decide_eq_false_2; [done|].
  rewrite !elem_of_cons in *. tauto.
Qed.

(** X24: an upload whose type is none of text, word, audio and image, and
    whose scratch copy can be written, leaves [memories] as it was; the
    only trace it leaves in the world is that no file remains at its
    scratch path (no side-file, no uuid drawn, nothing printed), and the
    uploads after it are processed from there. *)
Theorem unsupported_upload_is_skipped
    before filename data source_type description after w :
  source_type ∉ ["text"; "word"; "audio"; "image"] ->
  can_write env (temp_path_of filename) = true ->
  ingest_files env
    (before ++ (filename, data, source_type, description) :: after) w
  = (let* memories := ingest_files env before in
     fun w1 =>
       ingest_loop env after memories
         (without_file (temp_path_of filename) w1)) w.
Proof.
  intros Hst Htemp. unfold ingest_files. rewrite ingest_loop_app.
  unfold bind at 1 2.
  destruct (ingest_loop env before [] w) as [[memories|e] w1]; [|done].
  simpl.
  assert (Hone : ingest_one env (filename, data, source_type, description) w1
                 = (Ok None, without_file (temp_path_of filename) w1)).
  { rewrite ingest_one_eq.
    - unfold iteration.
      rewrite (unsupported_not_normalized _ _ Hst).
      unfold staged, media_saved.
      rewrite (unsupported_not_saved _ _ _ Hst).
      unfold without_file, set_fs; simpl. by rewrite delete_insert_eq.
    - unfold writes_succeed.
      by rewrite (unsupported_not_saved _ _ _ Hst), Htemp. }
  by rewrite (bind_ok _ _ _ _ _ Hone).
Qed.

(** C5: when the speech-to-text call raises [e], [process_audio_file]
    returns the placeholder, which is not empty and contains [str(e)], so a
    batch made of that one audio upload yields exactly one record, whose
    content is the placeholder (behind the description, if any).
    [process_image_file] has no such handler: an exception of the
    captioner, or a missing file, comes out of it as it is, and a batch
    made of that one image upload yields no record. *)
Theorem audio_failure_degrades_image_failure_propagates
    filename data description e w :
  whisper env data = Raise e ->
  writes_succeed env filename "audio" w = true ->
  (forall path w0, fs w0 !! path = Some data ->
     process_audio_file env path w0 = (Ok (audio_placeholder e), w0))
  /\ audio_placeholder e <> ""
  /\ contains (exn_msg e) (audio_placeholder e) = true
  /\ (exists w',
        ingest_files env [(filename, data, "audio", description)] w
        = (Ok [memory_dict
                 (with_description description (audio_placeholder e))
                 filename "audio" (now_iso env (clock w))
                 (saved_name env filename "audio" w)], w'))
  /\ (forall path w0 image e',
        fs w0 !! path = Some image -> blip env image = Raise e' ->
        process_image_file env path w0 = (Raise e', w0))
  /\ (forall path w0,
        fs w0 !! path = None ->
        exists e', process_image_file env path w0 = (Raise e', w0))
  /\ (forall name image note w0 e',
        blip env image = Raise e' ->
        writes_succeed env name "image" w0 = true ->
        exists w', ingest_files env [(name, image, "image", note)] w0
                   = (Ok [], w')).
Proof.
  intros Hwhisper Hw. repeat split.
  - intros path w0 Hp. rewrite (process_audio_file_eq _ _ _ Hp).
    by rewrite Hwhisper.
  - apply audio_placeholder_nonempty.
  - apply audio_placeholder_embeds_message.
  - unfold ingest_files. rewrite ingest_loop_cons. unfold bind.
    rewrite (ingest_one_eq _ _ _ _ _ Hw). unfold iteration, normalized.
    simpl. rewrite Hwhisper. eauto.
  - intros path w0 image e' Hp Hblip.
    rewrite (process_image_file_eq _ _ _ Hp). by rewrite Hblip.
  - intros path w0 Hp. unfold process_image_file, bind, open_read.
    rewrite Hp. eauto.
  - intros name image note w0 e' Hblip Hw0.
    unfold ingest_files. rewrite ingest_loop_cons. unfold bind.
    rewrite (ingest_one_eq _ _ _ _ _ Hw0). unfold iteration, normalized.
    simpl. rewrite Hblip. eauto.
Qed.

(** C1 (as amended): every record returned by [ingest_files] comes from
    one of the uploads, and its content can only be empty when that upload
    is a text or word upload without description; an upload without
    description whose normalization yields the empty string is not
    discarded: a record with empty content is returned for it. *)
Theorem ingested_content_empty_only_for_bare_text uploads w ms w' :
  ingest_files env uploads w = (Ok ms, w') ->
  (forall m, m ∈ ms ->
     exists filename data source_type description content,
       (filename, data, source_type, description) ∈ uploads
       /\ m !! "content" = Some (PStr content)
       /\ m !! "filename" = Some (PStr filename)
       /\ m !! "source_type" = Some (PStr source_type)
       /\ (content = "" ->
           description = ""
           /\ (source_type = "text" \/ source_type = "word")))
  /\ (forall filename data source_type,
        (filename, data, source_type, "") ∈ uploads ->
        normalized env source_type data = Some (Ok "") ->
        exists m,
          m ∈ ms /\ m !! "content" = Some (PStr "")
          /\ m !! "filename" = Some (PStr filename)).
Proof.
  intros Hrun. split.
  - intros m Hm.
    destruct (ingest_loop_origin _ _ _ _ _ Hrun m Hm) as [Hnil|Hfrom].
    { by apply elem_of_nil in Hnil. }
    destruct Hfrom as (f & d & st & ds & c & t & sv & Hin & Hn & ->).
    exists f, d, st, ds, (with_description ds c).
    split; [exact Hin|].
    split; [apply memory_dict_content|].
    split; [apply memory_dict_filename|].
    split; [apply memory_dict_source_type|].
    intros Hempty. apply with_description_empty in Hempty as [-> ->].
    split; [done|]. by eapply normalized_empty.
  - intros filename data source_type Hin Hn.
    apply list_elem_of_split in Hin as (before & after & ->).
    destruct (ingest_loop_keeps _ _ _ _ _ _ _ _ _ _ _ Hrun Hn)
      as (t & sv & Hm).
    eexists. split; [exact Hm|].
    split; [apply memory_dict_content | apply memory_dict_filename].
Qed.

(** An exception raised by the normalization itself is caught: nothing is
    appended for the upload, the error is printed, the side-file saved for
    it is gone, and the loop goes on with the next upload. *)
Lemma normalization_failure_is_isolated
    filename data source_type description e rest memories w :
  writes_succeed env filename source_type w = true ->
  normalized env source_type data = Some (Raise e) ->
  exists w1,
    ingest_loop env ((filename, data, source_type, description) :: rest)
                memories w
    = ingest_loop env rest memories w1
    /\ (forall unique_filename,
          saved_name env filename source_type w = Some unique_filename ->
          fs w1 !! media_path unique_filename = None)
    /\ fs w1 !! temp_path_of filename = None
    /\ trace w1
       = (trace w ++ [EvPrint ("Error processing " ++ filename ++ ": "
                               ++ exn_msg e)])%list.
Proof.
  intros Hw Hn. eexists. split; [|split; [|split]].
  - rewrite ingest_loop_cons. unfold bind.
    rewrite (ingest_one_eq _ _ _ _ _ Hw). unfold iteration. rewrite Hn.
    reflexivity.
  - intros u Hu. rewrite Hu. simpl.
    rewrite lookup_delete_ne by apply temp_path_is_not_media.
    apply lookup_delete_eq.
  - simpl. apply lookup_delete_eq.
  - unfold staged, media_saved.
    by destruct (saved_name env filename source_type w).
Qed.

End Facts.

Lemma run_records (uploads : list upload) :
  let run := ingest_files Sample.env uploads Sample.empty_world in
  is_ok run.1 = true -> run = (Ok (Sample.records run), run.2).
Proof.
  intros run. unfold Sample.records.
  destruct run as [[ms|e] w]; simpl; [done | discriminate].
Qed.

(** An empty text file without description is ingested as a record whose
    content is the empty string. *)
Lemma empty_text_file_yields_empty_content :
  ~ forall ms w' m,
      ingest_files Sample.env [Sample.empty_text] Sample.empty_world
      = (Ok ms, w') ->
      m ∈ ms -> m !! "content" <> Some (PStr "").
Proof.
  intros H.
  assert (Hrun := run_records [Sample.empty_text] ltac:(vm_compute; reflexivity)).
  assert (Hn : normalized Sample.env "text" [] = Some (Ok ""))
    by reflexivity.
  destruct (ingest_loop_keeps Sample.env [] "empty.txt" [] "text" "" []
              _ _ _ _ _ Hrun Hn) as (upload_time & saved & Hin).
  exact (H _ _ _ Hrun Hin (memory_dict_content _ _ _ _ _)).
Qed.

Lemma ingested_content_empty_only_for_bare_text_witness :
  let run := ingest_files Sample.env [Sample.empty_text; Sample.silent_memo]
                          Sample.empty_world in
  run = (Ok (Sample.records run), run.2)
  /\ (forall m, m ∈ Sample.records run ->
        exists filename data source_type description content,
          (filename, data, source_type, description)
            ∈ [Sample.empty_text; Sample.silent_memo]
          /\ m !! "content" = Some (PStr content)
          /\ m !! "filename" = Some (PStr filename)
          /\ m !! "source_type" = Some (PStr source_type)
          /\ (content = "" ->
              description = ""
              /\ (source_type = "text" \/ source_type = "word")))
  /\ (forall filename data source_type,
        (filename, data, source_type, "")
          ∈ [Sample.empty_text; Sample.silent_memo] ->
        normalized Sample.env source_type data = Some (Ok "") ->
        exists m,
          m ∈ Sample.records run /\ m !! "content" = Some (PStr "")
          /\ m !! "filename" = Some (PStr filename)).
Proof.
  intros run.
  assert (Hrun : run = (Ok (Sample.records run), run.2)).
  { apply run_records. vm_compute. reflexivity. }
  split; [exact Hrun|].
  exact (ingested_content_empty_only_for_bare_text Sample.env _ _ _ _ Hrun).
Defined.

(** C4 (the failing input): the side-file of the second upload cannot be
    written, because the directory named in its file name does not exist.
    The [open] of line 83 is outside the [try], so the exception leaves
    [ingest_files]: the batch is aborted and the record already built for
    the first upload is not returned. *)
Theorem side_file_write_failure_aborts_batch :
  (fun m : pydict => m !! "filename")
    <$> Sample.records (ingest_files Sample.env [Sample.greeting]
                                     Sample.empty_world)
  = [Some (PStr "hello.txt")]
  /\ (ingest_files Sample.env
        [Sample.greeting; Sample.nested_photo; Sample.empty_text]
        Sample.empty_world).1
     = Raise (mk_exn FileNotFoundError
                ("[Errno 2] No such file or directory: "
                 ++ "'uploads/6f1c2a9e-0_album/beach.png'")).
Proof. split; vm_compute; reflexivity. Qed.

(** With a read-only working directory the scratch copy cannot be written:
    the exception leaves [ingest_files] and the side-file saved just
    before is left behind. *)
Lemma scratch_write_failure_leaves_side_file :
  let run := ingest_files Sample.env_read_only_cwd [Sample.beach_photo]
                          Sample.empty_world in
  run.1 = Raise (mk_exn OSError
                   "[Errno 30] Read-only file system: 'temp_beach.png'")
  /\ fs run.2 !! "uploads/6f1c2a9e-0_beach.png"
     = Some (Sample.ascii_bytes "PNG").
Proof. split; vm_compute; reflexivity. Qed.

(** C10 (the failing input): the scratch copy of the unsupported second
    upload cannot be written, because the directory named in its file name
    does not exist.  The [open] of line 88 comes before the [try] and
    before the test of the type, so the exception leaves [ingest_files]:
    the upload is not skipped silently, the upload after it is not
    processed and the record built for the first one is not returned.
    Without the second upload the two others yield their records. *)
Theorem unsupported_upload_aborts_batch_on_failed_write :
  (fun m : pydict => m !! "filename")
    <$> Sample.records (ingest_files Sample.env
                          [Sample.greeting; Sample.silent_memo]
                          Sample.empty_world)
  = [Some (PStr "hello.txt"); Some (PStr "memo.mp3")]
  /\ (ingest_files Sample.env
        [Sample.greeting; Cases.nested_pdf; Sample.silent_memo]
        Sample.empty_world).1
     = Raise (mk_exn FileNotFoundError
                ("[Errno 2] No such file or directory: "
                 ++ "'temp_docs/scan.pdf'")).
Proof. split; vm_compute; reflexivity. Qed.

Lemma unsupported_upload_is_skipped_witness :
  ("pdf" ∉ ["text"; "word"; "audio"; "image"])
  /\ can_write Sample.env (temp_path_of "scan.pdf") = true
  /\ ingest_files Sample.env
       ([Sample.greeting] ++ Sample.scanned_pdf :: [Sample.silent_memo])
       Sample.empty_world
     = (let* memories := ingest_files Sample.env [Sample.greeting] in
        fun w1 =>
          ingest_loop Sample.env [Sample.silent_memo] memories
            (without_file (temp_path_of "scan.pdf") w1)) Sample.empty_world.
Proof.
  assert (H1 : "pdf" ∉ ["text"; "word"; "audio"; "image"]).
  { rewrite !elem_of_cons, elem_of_nil. intros [|[|[|[|]]]]; done. }
  assert (H2 : can_write Sample.env (temp_path_of "scan.pdf") = true)
    by reflexivity.
  split; [exact H1|]. split; [exact H2|].
  exact (unsupported_upload_is_skipped Sample.env [Sample.greeting]
           "scan.pdf" (Sample.ascii_bytes "%PDF") "pdf" ""
           [Sample.silent_memo] Sample.empty_world H1 H2).
Defined.

Lemma audio_failure_degrades_witness :
  let e := mk_exn OtherError "Soundfile is malformed" in
  whisper Sample.env [] = Raise e
  /\ writes_succeed Sample.env "memo.mp3" "audio" Sample.empty_world = true
  /\ audio_placeholder e
     = "Audio transcription failed: Soundfile is malformed. This is a placeholder for audio content."
  /\ exists w',
       ingest_files Sample.env [Sample.silent_memo] Sample.empty_world
       = (Ok [memory_dict
                (with_description "voice memo" (audio_placeholder e))
                "memo.mp3" "audio"
                (now_iso Sample.env (clock Sample.empty_world))
                (saved_name Sample.env "memo.mp3" "audio"
                            Sample.empty_world)], w').
Proof.
  intros e.
  assert (H1 : whisper Sample.env [] = Raise e) by reflexivity.
  assert (H2 : writes_succeed Sample.env "memo.mp3" "audio"
                 Sample.empty_world = true) by reflexivity.
  split; [exact H1|]. split; [exact H2|]. split; [reflexivity|].
  exact (proj1 (proj2 (proj2 (proj2
           (audio_failure_degrades_image_failure_propagates Sample.env
              "memo.mp3" [] "voice memo" e Sample.empty_world H1 H2))))).
Defined.

End IngestionFacts.

(** ** The responder *)

Module RagFacts.
Import Runtime RuntimeFacts Rag.

Section Facts.

Context {V : Type} (env : Env V).
Implicit Types w : World V.

Lemma Forall_list_filter {A} (P : A -> Prop) (f : A -> bool) (l : list A) :
  Forall P l -> Forall P (List.filter f l).
Proof.
  induction 1 as [|x l Hx _ IH]; simpl; [constructor|].
  destruct (f x); [by constructor | done].
Qed.

Lemma list_filter_nonempty {A} (f : A -> bool) (l : list A) x :
  x ∈ l -> f x = true -> List.filter f l <> [].
Proof.
  intros Hx Hf Hnil.
  assert (Hin : In x (List.filter f l)).
  { apply filter_In. split; [by apply list_elem_of_In | done]. }
  rewrite Hnil in Hin. destruct Hin.
Qed.

Lemma list_filter_empty {A} (f : A -> bool) (l : list A) :
  (forall x, x ∈ l -> f x = false) -> List.filter f l = [].
Proof.
  induction l as [|x l IH]; intros Hall; simpl; [done|].
  rewrite (Hall x) by apply list_elem_of_here.
  apply IH. intros y Hy. apply Hall. by apply list_elem_of_further.
Qed.

Lemma append_cancel (s a b : string) : s ++ a = s ++ b -> a = b.
Proof.
  induction s as [|c s IH]; simpl; [done|]. intros H. injection H as H. auto.
Qed.

Lemma context_line_ok mem w :
  well_formed mem -> context_line mem w = (Ok (line_of mem), w).
Proof.
  intros [[f Hf] [t Ht]]. unfold context_line, line_of, bind, getitem, ret.
  rewrite (dict_get_present _ _ _ PNone Hf), (dict_get_present _ _ _ PNone Ht).
  by rewrite Hf, Ht.
Qed.

Lemma context_lines_ok mems w :
  Forall well_formed mems ->
  for_each context_line mems w = (Ok (line_of <$> mems), w).
Proof.
  induction 1 as [|mem mems Hm _ IH]; simpl; [done|].
  rewrite (bind_ok _ _ _ _ _ (context_line_ok mem w Hm)).
  by rewrite (bind_ok _ _ _ _ _ IH).
Qed.

Lemma has_file_path_present mem :
  has_file_path mem = true ->
  metadata mem !! "file_path"
  = Some (dict_get (metadata mem) "file_path" PNone).
Proof.
  unfold has_file_path, dict_get.
  by destruct (metadata mem !! "file_path").
Qed.

Lemma collect_media_ok mems w :
  Forall well_formed mems ->
  collect_media mems w
  = (Ok (media_ref_of <$> List.filter has_file_path mems), w).
Proof.
  induction 1 as [|mem mems [[f Hf] _] _ IH]; simpl; [done|].
  destruct (has_file_path mem) eqn:Hp; [|exact IH].
  rewrite (bind_ok _ _ _ _ _ (getitem_ok _ _ _ _ (has_file_path_present _ Hp))).
  rewrite (bind_ok _ _ _ _ _ (getitem_ok _ _ _ _ Hf)).
  rewrite (bind_ok _ _ _ _ _ IH). unfold ret. rewrite fmap_cons.
  unfold media_ref_of at 2.
  by rewrite (dict_get_present _ _ _ PNone Hf).
Qed.

(** Collecting media never touches the world. *)
Lemma collect_media_world mems : forall w, (collect_media mems w).2 = w.
Proof.
  induction mems as [|mem mems IH]; intros w; simpl; [done|].
  destruct (has_file_path mem); [|apply IH].
  unfold bind, getitem.
  destruct (metadata mem !! "file_path"); [|done].
  destruct (metadata mem !! "filename"); [|done]. simpl.
  specialize (IH w). by destruct (collect_media mems w) as [[tail|e] w1].
Qed.

Lemma route_context_image query image_mems audio_mems context :
  image_mems <> [] -> mentions env IMAGE_WORDS query = true ->
  route_context env query image_mems audio_mems context = IMAGE_INTENT.
Proof.
  intros Hne Hm. unfold route_context.
  by rewrite bool_decide_eq_false_2, Hm.
Qed.

Lemma route_context_audio query image_mems audio_mems context :
  ~ (image_mems <> [] /\ mentions env IMAGE_WORDS query = true) ->
  audio_mems <> [] -> mentions env AUDIO_WORDS query = true ->
  route_context env query image_mems audio_mems context = AUDIO_INTENT.
Proof.
  intros Hno Hne Hm. unfold route_context.
  rewrite (bool_decide_eq_false_2 (audio_mems = [])), Hm by done.
  destruct (bool_decide (image_mems = [])) eqn:Hi; [done|].
  apply bool_decide_eq_false in Hi.
  destruct (mentions env IMAGE_WORDS query); [|done].
  exfalso. by apply Hno.
Qed.

(** The one call of the generative model on a non-empty result list. *)
Lemma generate_response_prompt query retrieved_memories w :
  retrieved_memories <> [] ->
  Forall well_formed (other_memories retrieved_memories) ->
  trace (generate_response env query retrieved_memories w).2
  = (trace w ++ [EvGenerate (prompt_of env query retrieved_memories)])%list.
Proof.
  intros Hne Hwf. unfold generate_response.
  destruct retrieved_memories as [|mem rest]; [done|].
  set (l := mem :: rest) in *.
  rewrite (bind_ok _ _ _ _ _ (context_lines_ok _ w Hwf)).
  fold (default_context l). fold (prompt_of env query l).
  unfold generator, bind, emit, lift.
  destruct (flan_t5 env (prompt_of env query l)) as [text|e]; [|done].
  pose proof (collect_media_world (image_memories l) (log [EvGenerate (prompt_of env query l)] w)) as Hi.
  destruct (collect_media (image_memories l) _) as [[imgs|e] w1];
    simpl in Hi; subst w1; [|done].
  pose proof (collect_media_world (audio_memories l) (log [EvGenerate (prompt_of env query l)] w)) as Ha.
  destruct (collect_media (audio_memories l) _) as [[auds|e] w1];
    simpl in Ha; subst w1; done.
Qed.

Lemma intents_differ query :
  build_prompt query IMAGE_INTENT <> build_prompt query AUDIO_INTENT.
Proof.
  unfold build_prompt. intros H.
  apply append_cancel, append_cancel, append_cancel, append_cancel in H.
  discriminate H.
Qed.

(** The routing of the context, as both the statement on intents and the
    statement on media lists need it. *)
Lemma context_routing query retrieved_memories w :
  Forall well_formed (other_memories retrieved_memories) ->
  let sent := trace (generate_response env query retrieved_memories w).2 in
  let image_match :=
    (exists mem, mem ∈ retrieved_memories /\ has_source "image" mem = true)
    /\ mentions env IMAGE_WORDS query = true in
  let audio_match :=
    (exists mem, mem ∈ retrieved_memories /\ has_source "audio" mem = true)
    /\ mentions env AUDIO_WORDS query = true in
  (image_match ->
     sent = (trace w ++ [EvGenerate (build_prompt query IMAGE_INTENT)])%list)
  /\ (audio_match -> ~ image_match ->
      sent = (trace w ++ [EvGenerate (build_prompt query AUDIO_INTENT)])%list).
Proof.
  intros Hwf sent image_match audio_match. split.
  - intros [(mem & Hin & Himg) Hword]. subst sent.
    rewrite generate_response_prompt;
      [|by intros ->; apply elem_of_nil in Hin|done].
    unfold prompt_of. rewrite route_context_image; [done| |done].
    by eapply list_filter_nonempty.
  - intros [(mem & Hin & Haud) Hword] Hno. subst sent.
    rewrite generate_response_prompt;
      [|by intros ->; apply elem_of_nil in Hin|done].
    unfold prompt_of. rewrite route_context_audio; [done| | |done].
    + intros [Hne Hw]. apply Hno. split; [|done].
      destruct (image_memories retrieved_memories) as [|m ms] eqn:Hf; [done|].
      assert (Hm : In m (image_memories retrieved_memories))
        by (rewrite Hf; by left).
      apply filter_In in Hm as [Hm Hs]. exists m.
      split; [by apply list_elem_of_In | done].
    + by eapply list_filter_nonempty.
Qed.

(** C7: on an empty result list [generate_response] returns the fixed
    no-memories answer with empty media lists, and the world it leaves is
    the world it found: the generative model was not called. *)
Theorem no_memories_fallback query w :
  generate_response env query [] w = (Ok (mk_answer NO_MEMORIES [] []), w).
Proof. reflexivity. Qed.

(** C6: when every non-media result carries its file name and type, the
    model is called once, and the context inside its prompt is the image
    sentence as soon as some result is an image and the lowercased query
    contains an image word, whatever the audio words and audio results;
    it is the audio sentence when some result is an audio, the query
    contains an audio word and the image test did not match.  The two
    prompts differ. *)
Theorem image_intent_overrides_before_audio query retrieved_memories w :
  Forall well_formed (other_memories retrieved_memories) ->
  let sent := trace (generate_response env query retrieved_memories w).2 in
  let image_match :=
    (exists mem, mem ∈ retrieved_memories /\ has_source "image" mem = true)
    /\ mentions env IMAGE_WORDS query = true in
  let audio_match :=
    (exists mem, mem ∈ retrieved_memories /\ has_source "audio" mem = true)
    /\ mentions env AUDIO_WORDS query = true in
  (image_match ->
     sent = (trace w ++ [EvGenerate (build_prompt query IMAGE_INTENT)])%list)
  /\ (audio_match -> ~ image_match ->
      sent = (trace w ++ [EvGenerate (build_prompt query AUDIO_INTENT)])%list)
  /\ build_prompt query IMAGE_INTENT <> build_prompt query AUDIO_INTENT.
Proof.
  intros Hwf sent image_match audio_match.
  destruct (context_routing query retrieved_memories
              w Hwf) as [Himage Haudio].
  split; [exact Himage|]. split; [exact Haudio|].
  - apply intents_differ.
Qed.

(** C8: when every result carries its file name and type and the model
    answers, the returned [images] are the [{path, filename}] entries of
    the image results whose [file_path] is truthy, in retrieval order, and
    [audio] those of the audio results; a media result without
    [file_path] is in neither list, yet it counts for the routing: with a
    matching word in the query the prompt carries the image (or audio)
    sentence all the same. *)
Theorem media_lists_follow_retrieval query retrieved_memories text w :
  Forall well_formed retrieved_memories ->
  flan_t5 env (prompt_of env query retrieved_memories) = Ok text ->
  exists a w',
    generate_response env query retrieved_memories w = (Ok a, w')
    /\ images a
       = media_ref_of
           <$> List.filter has_file_path (image_memories retrieved_memories)
    /\ audio a
       = media_ref_of
           <$> List.filter has_file_path (audio_memories retrieved_memories)
    /\ (forall mem,
          mem ∈ retrieved_memories -> has_file_path mem = false ->
          has_source "image" mem = true ->
          mentions env IMAGE_WORDS query = true ->
          trace w'
          = (trace w ++ [EvGenerate (build_prompt query IMAGE_INTENT)])%list)
    /\ (forall mem,
          mem ∈ retrieved_memories -> has_file_path mem = false ->
          has_source "audio" mem = true ->
          mentions env AUDIO_WORDS query = true ->
          ~ ((exists other, other ∈ retrieved_memories
                            /\ has_source "image" other = true)
             /\ mentions env IMAGE_WORDS query = true) ->
          trace w'
          = (trace w ++ [EvGenerate (build_prompt query AUDIO_INTENT)])%list).
Proof.
  intros Hwf Hgen.
  destruct retrieved_memories as [|mem0 rest].
  { exists (mk_answer NO_MEMORIES [] []), w. repeat split; try done.
    - intros mem Hin. by apply elem_of_nil in Hin.
    - intros mem Hin. by apply elem_of_nil in Hin. }
  set (l := mem0 :: rest) in *.
  assert (Hother : Forall well_formed (other_memories l))
    by by apply Forall_list_filter.
  destruct (context_routing query l w Hother)
    as (Himage & Haudio).
  assert (Hrun : generate_response env query l w
    = (Ok (mk_answer
             ("As your memory archivist, I recall: "
              ++ strip_answer_label env text)
             (media_ref_of <$> List.filter has_file_path (image_memories l))
             (media_ref_of <$> List.filter has_file_path (audio_memories l))),
       log [EvGenerate (prompt_of env query l)] w)).
  { subst l. unfold generate_response.
    rewrite (bind_ok _ _ _ _ _ (context_lines_ok _ w Hother)).
    fold (default_context (mem0 :: rest)).
    fold (prompt_of env query (mem0 :: rest)).
    unfold generator, bind, emit, lift. rewrite Hgen.
    rewrite collect_media_ok by by apply Forall_list_filter.
    rewrite collect_media_ok by by apply Forall_list_filter.
    reflexivity. }
  do 2 eexists. split; [exact Hrun|]. rewrite Hrun in *. simpl in *.
  repeat split.
  - intros mem Hin _ Hs Hm. apply Himage. eauto.
  - intros mem Hin _ Hs Hm Hno. apply Haudio; eauto.
Qed.

(** On a string, "truthy" is "not empty"; a missing [file_path] is not
    truthy. *)
Lemma has_file_path_iff_nonempty mem :
  has_file_path mem = true
  <-> exists v, metadata mem !! "file_path" = Some v
                /\ v <> PNone /\ v <> PStr "" /\ v <> PInt 0.
Proof.
  unfold has_file_path, dict_get.
  destruct (metadata mem !! "file_path") as [[|s|z]|]; simpl.
  - split; [done|]. by intros (v & [= <-] & ? & _).
  - destruct (String.eqb_spec s "") as [->|Hs]; simpl.
    + split; [done|]. by intros (v & [= <-] & _ & ? & _).
    + split; [|done]. intros _. exists (PStr s). repeat split; congruence.
  - destruct (Z.eqb_spec z 0) as [->|Hz]; simpl.
    + split; [done|]. by intros (v & [= <-] & _ & _ & ?).
    + split; [|done]. intros _. exists (PInt z). repeat split; congruence.
  - split; [done|]. by intros (v & ? & _).
Qed.

End Facts.

Lemma sample_hits_well_formed :
  Forall well_formed
    [Sample.diary_hit; Sample.photo_hit; Sample.pathless_photo_hit;
     Sample.memo_hit].
Proof. repeat constructor; vm_compute; eauto. Defined.

Lemma image_intent_overrides_before_audio_witness :
  let query := "Show me the PHOTO and play the recording" in
  let hits := [Sample.diary_hit; Sample.photo_hit; Sample.memo_hit] in
  Forall well_formed (other_memories hits)
  /\ mentions Sample.env AUDIO_WORDS query = true
  /\ trace (generate_response Sample.env query hits Sample.empty_world).2
     = [EvGenerate (build_prompt query IMAGE_INTENT)].
Proof.
  intros query hits.
  assert (Hwf : Forall well_formed (other_memories hits)).
  { repeat constructor; vm_compute; eauto. }
  split; [exact Hwf|]. split; [reflexivity|].
  apply (proj1 (image_intent_overrides_before_audio Sample.env query hits
                  Sample.empty_world Hwf)).
  split; [|reflexivity].
  exists Sample.photo_hit. split; [|reflexivity].
  apply list_elem_of_further, list_elem_of_here.
Defined.

Lemma media_lists_follow_retrieval_witness :
  let query := "Show me the photo from the beach" in
  let hits := [Sample.diary_hit; Sample.photo_hit; Sample.pathless_photo_hit;
               Sample.memo_hit] in
  Forall well_formed hits
  /\ flan_t5 Sample.env (prompt_of Sample.env query hits)
     = Ok "Answer: a day at the beach "
  /\ exists a w',
       generate_response Sample.env query hits Sample.empty_world = (Ok a, w')
       /\ images a = [mk_media (PStr "6f1c2a9e-0_beach.png")
                              (PStr "beach.png")]
       /\ audio a = [mk_media (PStr "6f1c2a9e-1_memo.mp3") (PStr "memo.mp3")]
       /\ trace w' = [EvGenerate (build_prompt query IMAGE_INTENT)].
Proof.
  intros query hits.
  assert (Hgen : flan_t5 Sample.env (prompt_of Sample.env query hits)
                 = Ok "Answer: a day at the beach ") by reflexivity.
  split; [exact sample_hits_well_formed|]. split; [exact Hgen|].
  destruct (media_lists_follow_retrieval Sample.env query hits _
              Sample.empty_world sample_hits_well_formed Hgen)
    as (a & w' & Hrun & Himages & Haudio & Hpathless & _).
  exists a, w'. split; [exact Hrun|]. split; [exact Himages|].
  split; [exact Haudio|].
  apply (Hpathless Sample.pathless_photo_hit); [|reflexivity..].
  apply list_elem_of_further, list_elem_of_further, list_elem_of_here.
Defined.

(** A result without file name makes the default context raise, whatever
    the query asks for. *)
Lemma missing_filename_raises_key_error :
  (generate_response Sample.env "show me the photo"
     [Sample.nameless_hit; Sample.photo_hit] Sample.empty_world).1
  = Raise (mk_exn KeyError "'filename'").
Proof. reflexivity. Qed.

End RagFacts.

(** ** More on ingestion *)

Module IngestionMore.
Import Runtime RuntimeFacts Ingestion IngestionFacts Cases.

Section Facts.

Context {V : Type} (env : Env V).
Implicit Types w : World V.

(** Outside the uploads directory, one iteration only removes its own
    scratch file. *)
Lemma iteration_fs_frame filename data source_type description w p :
  (forall unique_filename, p <> media_path unique_filename) ->
  fs (iteration env (filename, data, source_type, description) w).2 !! p
  = if decide (p = temp_path_of filename) then None else fs w !! p.
Proof.
  intros Hp.
  assert (Hmedia : fs (media_saved env filename data source_type w) !! p
                   = fs w !! p).
  { unfold media_saved.
    destruct (saved_name env filename source_type w) as [u|]; [|done].
    simpl. apply lookup_insert_ne. intros Heq. by apply (Hp u). }
  unfold iteration.
  destruct (normalized env source_type data) as [[content|e]|]; simpl;
    destruct (decide (p = temp_path_of filename)) as [->|Hne];
    rewrite ?lookup_delete_eq; try done.
  - by rewrite lookup_delete_ne, lookup_insert_ne.
  - rewrite lookup_delete_ne by done.
    destruct (saved_name env filename source_type w) as [u|]; simpl.
    + rewrite lookup_delete_ne by (intros Heq; by apply (Hp u)).
      by rewrite lookup_insert_ne.
    + by rewrite lookup_insert_ne.
  - by rewrite lookup_delete_ne, lookup_insert_ne.
Qed.

Lemma ingest_loop_fs_frame uploads : forall memories w ms w' p,
  ingest_loop env uploads memories w = (Ok ms, w') ->
  (forall unique_filename, p <> media_path unique_filename) ->
  fs w' !! p
  = if bool_decide (p ∈ scratch_paths uploads) then None else fs w !! p.
Proof.
  induction uploads as [|u rest IH]; intros memories w ms w' p Hrun Hp.
  - simpl in Hrun. injection Hrun as _ <-.
    rewrite bool_decide_eq_false_2; [done|]. apply not_elem_of_nil.
  - rewrite ingest_loop_cons in Hrun.
    apply bind_ok_inv in Hrun as (produced & w1 & Hone & Hrun).
    destruct u as [[[filename data] source_type] description].
    pose proof (ingest_one_returns _ _ _ _ _ _ _ _ Hone) as Hw.
    rewrite (ingest_one_eq _ _ _ _ _ _ Hw) in Hone.
    pose proof (iteration_fs_frame filename data source_type description
                  w p Hp) as Hstep.
    rewrite Hone in Hstep. simpl in Hstep.
    rewrite (IH _ _ _ _ p Hrun Hp), Hstep.
    unfold scratch_paths. rewrite fmap_cons. simpl.
    destruct (decide (p = temp_path_of filename)) as [->|Hne].
    + rewrite (bool_decide_eq_true_2 (_ ∈ _ :: _)) by apply list_elem_of_here.
      by destruct (bool_decide _).
    + destruct (bool_decide (p ∈ _)) eqn:Hin.
      * apply bool_decide_eq_true in Hin.
        rewrite bool_decide_eq_true_2; [done|]. by apply list_elem_of_further.
      * apply bool_decide_eq_false in Hin.
        rewrite bool_decide_eq_false_2; [done|].
        rewrite elem_of_cons. tauto.
Qed.

(** X1: when a batch returns, every path outside the uploads directory
    holds what it held before, except that no file is left at the scratch
    path [temp_<filename>] of any upload of the batch (also of those that
    were skipped or dropped). *)
Theorem ingest_files_leaves_no_scratch_file uploads w ms w' p :
  ingest_files env uploads w = (Ok ms, w') ->
  (forall unique_filename, p <> media_path unique_filename) ->
  fs w' !! p
  = if bool_decide (p ∈ scratch_paths uploads) then None else fs w !! p.
Proof. apply ingest_loop_fs_frame. Qed.

Lemma normalized_supported source_type data r :
  normalized env source_type data = Some r ->
  source_type ∈ ["text"; "word"; "audio"; "image"].
Proof.
  unfold normalized. rewrite !elem_of_cons.
  destruct (String.eqb_spec source_type "text") as [->|_]; [tauto|].
  destruct (String.eqb_spec source_type "word") as [->|_]; [tauto|].
  destruct (String.eqb_spec source_type "audio") as [->|_]; [tauto|].
  destruct (String.eqb_spec source_type "image") as [->|_]; [tauto|].
  discriminate.
Qed.

(** Where each record of the result comes from, and in which order. *)
Lemma ingest_loop_records uploads : forall memories w ms w',
  ingest_loop env uploads memories w = (Ok ms, w') ->
  exists new,
    ms = (memories ++ new)%list
    /\ Forall
         (fun m =>
            exists filename data source_type description content wi,
              (filename, data, source_type, description) ∈ uploads
              /\ normalized env source_type data = Some (Ok content)
              /\ m = memory_dict (with_description description content)
                                 filename source_type
                                 (now_iso env (clock wi))
                                 (saved_name env filename source_type wi))
         new
    /\ sublist ((fun m : pydict => m !! "filename") <$> new)
               (upload_name <$> uploads).
Proof.
  induction uploads as [|u rest IH]; intros memories w ms w' Hrun.
  - simpl in Hrun. injection Hrun as <- _. exists [].
    rewrite app_nil_r. repeat split; constructor.
  - rewrite ingest_loop_cons in Hrun.
    apply bind_ok_inv in Hrun as (produced & w1 & Hone & Hrun).
    destruct (IH _ _ _ _ Hrun) as (new & -> & Hall & Hsub).
    assert (Hlater : Forall
         (fun m =>
            exists filename data source_type description content wi,
              (filename, data, source_type, description) ∈ u :: rest
              /\ normalized env source_type data = Some (Ok content)
              /\ m = memory_dict (with_description description content)
                                 filename source_type
                                 (now_iso env (clock wi))
                                 (saved_name env filename source_type wi))
         new).
    { eapply Forall_impl; [exact Hall|].
      intros m (f & d & st & ds & c & wi & Hin & Hn & ->).
      exists f, d, st, ds, c, wi. split; [by apply list_elem_of_further|done]. }
    destruct u as [[[filename data] source_type] description].
    destruct produced as [m|].
    + destruct (ingest_one_produces _ _ _ _ _ _ _ _ Hone) as (c & Hn & ->).
      eexists (_ :: new). split; [by rewrite <- app_assoc|]. split.
      * constructor; [|exact Hlater].
        exists filename, data, source_type, description, c, w.
        split; [apply list_elem_of_here|done].
      * rewrite !fmap_cons. rewrite memory_dict_filename.
        by apply sublist_skip.
    + exists new. split; [done|]. split; [exact Hlater|].
      rewrite fmap_cons. by apply sublist_cons.
Qed.

Lemma uuids_drawn_iteration filename data source_type description w :
  uuids_drawn (iteration env (filename, data, source_type, description) w).2
  = if bool_decide (source_type ∈ ["image"; "audio"])
    then S (uuids_drawn w) else uuids_drawn w.
Proof.
  unfold iteration, staged, media_saved, saved_name.
  destruct (bool_decide (source_type ∈ ["image"; "audio"]));
    by destruct (normalized env source_type data) as [[c|e]|].
Qed.

(** The uuid counter at which each record of the result was built. *)
Lemma ingest_loop_draws uploads : forall memories w ms w',
  ingest_loop env uploads memories w = (Ok ms, w') ->
  uuids_drawn w <= uuids_drawn w'
  /\ exists new,
       ms = (memories ++ new)%list
       /\ Forall
            (fun m =>
               exists filename source_type content upload_time n,
                 source_type ∈ ["text"; "word"; "audio"; "image"]
                 /\ m = memory_dict content filename source_type upload_time
                                    (if bool_decide
                                          (source_type ∈ ["image"; "audio"])
                                     then Some (uuid4 env n ++ "_" ++ filename)
                                     else None)
                 /\ uuids_drawn w <= n
                 /\ (source_type ∈ ["image"; "audio"] -> n < uuids_drawn w'))
            new.
Proof.
  induction uploads as [|u rest IH]; intros memories w ms w' Hrun.
  - simpl in Hrun. injection Hrun as <- <-. split; [done|]. exists [].
    rewrite app_nil_r. split; constructor.
  - rewrite ingest_loop_cons in Hrun.
    apply bind_ok_inv in Hrun as (produced & w1 & Hone & Hrun).
    destruct u as [[[filename data] source_type] description].
    pose proof (ingest_one_returns _ _ _ _ _ _ _ _ Hone) as Hw.
    pose proof (uuids_drawn_iteration filename data source_type description w)
      as Hdrawn.
    rewrite <- (ingest_one_eq _ _ _ _ _ _ Hw), Hone in Hdrawn.
    cbn [snd] in Hdrawn.
    destruct (IH _ _ _ _ Hrun) as (Hmono & new & -> & Hall).
    assert (Hstep : uuids_drawn w <= uuids_drawn w1).
    { rewrite Hdrawn. destruct (bool_decide _); lia. }
    split; [lia|].
    assert (Hlater : Forall
         (fun m =>
            exists f st c t n,
              st ∈ ["text"; "word"; "audio"; "image"]
              /\ m = memory_dict c f st t
                                 (if bool_decide (st ∈ ["image"; "audio"])
                                  then Some (uuid4 env n ++ "_" ++ f)
                                  else None)
              /\ uuids_drawn w <= n
              /\ (st ∈ ["image"; "audio"] -> n < uuids_drawn w'))
         new).
    { eapply Forall_impl; [exact Hall|].
      intros m (f & st & c & t & n & Hst & -> & Hn & Hlt).
      exists f, st, c, t, n. repeat split; [done | lia | done]. }
    destruct produced as [m|].
    + destruct (ingest_one_produces _ _ _ _ _ _ _ _ Hone) as (c & Hn & ->).
      eexists (_ :: new). split; [by rewrite <- app_assoc|].
      constructor; [|exact Hlater].
      exists filename, source_type, (with_description description c),
        (now_iso env (clock w)), (uuids_drawn w).
      split; [by eapply normalized_supported|]. split; [reflexivity|].
      split; [done|]. intros Hmedia.
      rewrite (bool_decide_eq_true_2 _ Hmedia) in Hdrawn. lia.
    + exists new. split; [done | exact Hlater].
Qed.

(** X2: every record that [ingest_files] returns carries its file name,
    one of the four supported types and an upload time as strings, and
    ['year'] set to [None]; its ['file_path'] is [None] for a text or word
    upload, and for an image or audio upload it is [<uuid>_<filename>],
    where the uuid is one that [uuid4] drew during this call. *)
Theorem ingested_record_fields uploads w ms w' m :
  ingest_files env uploads w = (Ok ms, w') -> m ∈ ms ->
  exists filename source_type upload_time,
    m !! "filename" = Some (PStr filename)
    /\ m !! "source_type" = Some (PStr source_type)
    /\ m !! "upload_time" = Some (PStr upload_time)
    /\ m !! "year" = Some PNone
    /\ source_type ∈ ["text"; "word"; "audio"; "image"]
    /\ if bool_decide (source_type ∈ ["image"; "audio"])
       then exists n,
              uuids_drawn w <= n < uuids_drawn w'
              /\ m !! "file_path"
                 = Some (PStr (uuid4 env n ++ "_" ++ filename))
       else m !! "file_path" = Some PNone.
Proof.
  intros Hrun Hm.
  destruct (ingest_loop_draws _ _ _ _ _ Hrun) as (_ & new & -> & Hall).
  rewrite Forall_forall in Hall.
  destruct (Hall m Hm) as (f & st & c & t & n & Hst & -> & Hn & Hlt).
  exists f, st, t.
  split; [apply memory_dict_filename|].
  split; [apply memory_dict_source_type|].
  split; [reflexivity|]. split; [reflexivity|].
  split; [exact Hst|].
  destruct (bool_decide (st ∈ ["image"; "audio"])) eqn:Hmedia;
    [|reflexivity].
  apply bool_decide_eq_true in Hmedia.
  exists n. split; [split; [exact Hn | exact (Hlt Hmedia)] | reflexivity].
Qed.

(** X3: the records come in the order of the uploads, at most one per
    upload: their file names form a sub-sequence of the file names of the
    batch. *)
Theorem ingested_records_follow_uploads uploads w ms w' :
  ingest_files env uploads w = (Ok ms, w') ->
  sublist ((fun m : pydict => m !! "filename") <$> ms)
          (upload_name <$> uploads)
  /\ length ms <= length uploads.
Proof.
  intros Hrun.
  destruct (ingest_loop_records _ _ _ _ _ Hrun) as (new & -> & _ & Hsub).
  split; [exact Hsub|].
  apply sublist_length in Hsub. by rewrite !length_fmap in Hsub.
Qed.





(** X5: when one of the two writes that precede the [try] fails for an
    upload, [ingest_files] raises: the uploads after it are not processed
    and the records built so far are not returned. *)
Theorem failed_write_aborts_the_batch
    before filename data source_type description after w ms w1 :
  ingest_files env before w = (Ok ms, w1) ->
  writes_succeed env filename source_type w1 = false ->
  exists e w',
    ingest_files env
      (before ++ (filename, data, source_type, description) :: after) w
    = (Raise e, w').
Proof.
  intros Hbefore Hw. unfold ingest_files in *. rewrite ingest_loop_app.
  rewrite (bind_ok _ _ _ _ _ Hbefore), ingest_loop_cons.
  destruct (ingest_one_write_fails env filename data source_type description
              w1 Hw) as (e & w' & Hone).
  rewrite (bind_raise _ _ _ _ _ Hone). eauto.
Qed.

(** X6: an exception raised while an upload is normalized costs that
    upload only.  The records built before it are kept and the loop goes on
    with the uploads after it, in a world where the error was printed and
    neither the scratch file nor the side-file of the failed upload is
    left. *)
Theorem failed_normalization_drops_one_upload
    before filename data source_type description after w ms w1 e :
  ingest_files env before w = (Ok ms, w1) ->
  writes_succeed env filename source_type w1 = true ->
  normalized env source_type data = Some (Raise e) ->
  exists w2,
    ingest_files env
      (before ++ (filename, data, source_type, description) :: after) w
    = ingest_loop env after ms w2
    /\ (forall unique_filename,
          saved_name env filename source_type w1 = Some unique_filename ->
          fs w2 !! media_path unique_filename = None)
    /\ fs w2 !! temp_path_of filename = None
    /\ trace w2
       = (trace w1 ++ [EvPrint ("Error processing " ++ filename ++ ": "
                                ++ exn_msg e)])%list.
Proof.
  intros Hbefore Hw Hn. unfold ingest_files in *.
  destruct (normalization_failure_is_isolated env filename data source_type
              description e after ms w1 Hw Hn) as (w2 & Hloop & Hrest).
  exists w2. split; [|exact Hrest].
  by rewrite ingest_loop_app, (bind_ok _ _ _ _ _ Hbefore).
Qed.

End Facts.

Lemma ingest_files_leaves_no_scratch_file_witness :
  let uploads := [Sample.greeting; Sample.silent_memo; Sample.scanned_pdf] in
  let run := ingest_files Sample.env uploads Sample.empty_world in
  run = (Ok (Sample.records run), run.2)
  /\ (forall unique_filename, "temp_memo.mp3" <> media_path unique_filename)
  /\ fs run.2 !! "temp_memo.mp3"
     = if bool_decide ("temp_memo.mp3" ∈ scratch_paths uploads) then None
       else fs Sample.empty_world !! "temp_memo.mp3".
Proof.
  intros uploads run.
  assert (Hrun : run = (Ok (Sample.records run), run.2)).
  { apply run_records. vm_compute. reflexivity. }
  assert (Hp : forall unique_filename,
             "temp_memo.mp3" <> media_path unique_filename).
  { intros u. apply (temp_path_is_not_media "memo.mp3" u). }
  split; [exact Hrun|]. split; [exact Hp|].
  exact (ingest_files_leaves_no_scratch_file Sample.env uploads
           Sample.empty_world _ _ "temp_memo.mp3" Hrun Hp).
Defined.

Lemma ingested_record_fields_witness :
  let uploads := [Sample.greeting; Sample.beach_photo] in
  let run := ingest_files Sample.env uploads Sample.empty_world in
  let m := default ∅ (Sample.records run !! 1) in
  run = (Ok (Sample.records run), run.2)
  /\ m ∈ Sample.records run
  /\ exists filename source_type upload_time,
       m !! "filename" = Some (PStr filename)
       /\ m !! "source_type" = Some (PStr source_type)
       /\ m !! "upload_time" = Some (PStr upload_time)
       /\ m !! "year" = Some PNone
       /\ source_type ∈ ["text"; "word"; "audio"; "image"]
       /\ if bool_decide (source_type ∈ ["image"; "audio"])
          then exists n,
                 uuids_drawn Sample.empty_world <= n < uuids_drawn run.2
                 /\ m !! "file_path"
                    = Some (PStr (uuid4 Sample.env n ++ "_" ++ filename))
          else m !! "file_path" = Some PNone.
Proof.
  intros uploads run m.
  assert (Hrun : run = (Ok (Sample.records run), run.2)).
  { apply run_records. vm_compute. reflexivity. }
  assert (Hlen : length (Sample.records run) = 2)
    by (vm_compute; reflexivity).
  assert (Hm : m ∈ Sample.records run).
  { subst m. destruct (Sample.records run !! 1) as [m1|] eqn:Hlook.
    - simpl. by eapply list_elem_of_lookup_2.
    - apply lookup_ge_None in Hlook. lia. }
  split; [exact Hrun|]. split; [exact Hm|].
  exact (ingested_record_fields Sample.env uploads Sample.empty_world _ _ m
           Hrun Hm).
Defined.

Lemma ingested_records_follow_uploads_witness :
  let uploads := [Sample.greeting; Cases.blank_photo; Sample.silent_memo] in
  let run := ingest_files Sample.env uploads Sample.empty_world in
  run = (Ok (Sample.records run), run.2)
  /\ sublist ((fun m : pydict => m !! "filename") <$> Sample.records run)
             (upload_name <$> uploads)
  /\ length (Sample.records run) <= length uploads.
Proof.
  intros uploads run.
  assert (Hrun : run = (Ok (Sample.records run), run.2)).
  { apply run_records. vm_compute. reflexivity. }
  split; [exact Hrun|].
  exact (ingested_records_follow_uploads Sample.env uploads
           Sample.empty_world _ _ Hrun).
Defined.


Lemma failed_write_aborts_the_batch_witness :
  let run := ingest_files Sample.env [Sample.greeting] Sample.empty_world in
  run = (Ok (Sample.records run), run.2)
  /\ writes_succeed Sample.env "album/beach.png" "image" run.2 = false
  /\ exists e w',
       ingest_files Sample.env
         ([Sample.greeting] ++ Sample.nested_photo :: [Sample.empty_text])
         Sample.empty_world
       = (Raise e, w').
Proof.
  intros run.
  assert (Hrun : run = (Ok (Sample.records run), run.2)).
  { apply run_records. vm_compute. reflexivity. }
  assert (Hw : writes_succeed Sample.env "album/beach.png" "image" run.2
               = false) by (vm_compute; reflexivity).
  split; [exact Hrun|]. split; [exact Hw|].
  exact (failed_write_aborts_the_batch Sample.env [Sample.greeting]
           "album/beach.png" (Sample.ascii_bytes "PNG") "image" ""
           [Sample.empty_text] Sample.empty_world _ _ Hrun Hw).
Defined.

Lemma failed_normalization_drops_one_upload_witness :
  let e := mk_exn OtherError "cannot identify image file" in
  let run := ingest_files Sample.env [Sample.greeting] Sample.empty_world in
  run = (Ok (Sample.records run), run.2)
  /\ writes_succeed Sample.env "blank.png" "image" run.2 = true
  /\ normalized Sample.env "image" [] = Some (Raise e)
  /\ exists w2,
       ingest_files Sample.env
         ([Sample.greeting] ++ Cases.blank_photo :: [Sample.silent_memo])
         Sample.empty_world
       = ingest_loop Sample.env [Sample.silent_memo] (Sample.records run) w2
       /\ (forall unique_filename,
             saved_name Sample.env "blank.png" "image" run.2
             = Some unique_filename ->
             fs w2 !! media_path unique_filename = None)
       /\ fs w2 !! temp_path_of "blank.png" = None
       /\ trace w2
          = (trace run.2
             ++ [EvPrint ("Error processing " ++ "blank.png" ++ ": "
                          ++ exn_msg e)])%list.
Proof.
  intros e run.
  assert (Hrun : run = (Ok (Sample.records run), run.2)).
  { apply run_records. vm_compute. reflexivity. }
  assert (Hw : writes_succeed Sample.env "blank.png" "image" run.2 = true)
    by (vm_compute; reflexivity).
  assert (Hn : normalized Sample.env "image" [] = Some (Raise e))
    by reflexivity.
  split; [exact Hrun|]. split; [exact Hw|]. split; [exact Hn|].
  exact (failed_normalization_drops_one_upload Sample.env [Sample.greeting]
           "blank.png" [] "image" "" [Sample.silent_memo] Sample.empty_world
           _ _ e Hrun Hw Hn).
Defined.

End IngestionMore.

(** ** More on the memory store *)

Module EmbeddingsMore.
Import Runtime RuntimeFacts Embeddings EmbeddingsFacts Cases.

Section Facts.

Context {V : Type} (env : Env V).
Implicit Types w : World V.

Lemma has_required_keys_dec memory :
  has_required_keys memory \/ ~ has_required_keys memory.
Proof.
  unfold has_required_keys.
  destruct (memory !! "content"); [|right; intros ([? ?] & _); done].
  destruct (memory !! "filename"); [|right; intros (_ & [? ?] & _); done].
  destruct (memory !! "source_type");
    [|right; intros (_ & _ & [? ?] & _); done].
  destruct (memory !! "upload_time");
    [|right; intros (_ & _ & _ & [? ?]); done].
  left. eauto 10.
Qed.

Lemma build_row_raises c i memory w :
  ~ has_required_keys memory ->
  exists e evs,
    build_row env c i memory w = (Raise e, log evs w)
    /\ exn_cls e = KeyError.
Proof.
  intros Hno.
  unfold build_row, generate_embedding, getitem, bind, emit, ret, raise.
  destruct (memory !! "content") as [vc|] eqn:Hc;
    [|eexists _, []; by rewrite log_nil].
  destruct (memory !! "filename") as [vf|] eqn:Hf; [|by eexists _, [_]].
  destruct (memory !! "source_type") as [vs|] eqn:Hs; [|by eexists _, [_]].
  destruct (memory !! "upload_time") as [vu|] eqn:Hu; [|by eexists _, [_]].
  exfalso. apply Hno. unfold has_required_keys. rewrite Hc, Hf, Hs, Hu.
  eauto 10.
Qed.

Lemma build_rows_raises c memories : forall i w,
  Exists (fun memory => ~ has_required_keys memory) memories ->
  exists e evs,
    build_rows env c i memories w = (Raise e, log evs w)
    /\ exn_cls e = KeyError.
Proof.
  induction memories as [|memory rest IH]; intros i w Hex.
  - by apply Exists_nil in Hex.
  - simpl. destruct (has_required_keys_dec memory) as [Hm|Hm].
    + rewrite (bind_ok _ _ _ _ _ (build_row_ok env c i memory w Hm)).
      apply Exists_cons in Hex as [Hex|Hex]; [done|].
      destruct (IH (S i) (log [EvEmbed (dict_get memory "content" PNone)] w)
                   Hex) as (e & evs & Hrows & Hcls).
      rewrite (bind_raise _ _ _ _ _ Hrows). rewrite log_log. eauto.
    + destruct (build_row_raises c i memory w Hm) as (e & evs & Hrow & Hcls).
      rewrite (bind_raise _ _ _ _ _ Hrow). eauto.
Qed.

(** X7: a batch is added as a whole or not at all: if some record lacks
    one of the keys ['content'], ['filename'], ['source_type'],
    ['upload_time'], [add_memories] raises KeyError and the index holds
    exactly what it held before, also the rows of the records that come
    before the faulty one. *)
Theorem add_memories_missing_key_adds_nothing memories w :
  Exists (fun memory => ~ has_required_keys memory) memories ->
  exists e w',
    add_memories env memories w = (Raise e, w')
    /\ exn_cls e = KeyError
    /\ store w' = store w.
Proof.
  intros Hex. destruct memories as [|m rest].
  { by apply Exists_nil in Hex. }
  unfold add_memories.
  rewrite (bind_ok _ _ _ _ _ (probe_existing_count_eq env w)).
  destruct (build_rows_raises
              (match store_get_error env with
               | Some _ => 0
               | None => length (store w) `min` GET_LIMIT
               end) (m :: rest) 0 (log [EvStoreGet GET_LIMIT] w) Hex)
    as (e & evs & Hrows & Hcls).
  rewrite (bind_raise _ _ _ _ _ Hrows). eauto.
Qed.



Lemma length_rows_of c i memories :
  length (rows_of env c i memories) = length memories.
Proof.
  revert i. induction memories as [|memory rest IH]; intros i; simpl;
    [done | by rewrite IH].
Qed.

(** X8: while the probe succeeds and the index holds at most [GET_LIMIT]
    entries, the numbering [memory_0, memory_1, ...] of the rows is kept
    by every batch; so the ids of the index after the batch are pairwise
    distinct, and the index has grown by the size of the batch. *)
Theorem add_memories_keeps_ids_in_sequence memories w :
  store_get_error env = None -> length (store w) <= GET_LIMIT ->
  ids_in_sequence (store w) ->
  memories <> [] -> Forall has_required_keys memories ->
  exists w',
    add_memories env memories w = (Ok tt, w')
    /\ ids_in_sequence (store w')
    /\ NoDup (row_id <$> store w')
    /\ length (store w') = length (store w) + length memories.
Proof.
  intros Hget Hle Hseq Hne Hall.
  pose proof (add_memories_run env memories w Hne Hall) as Hrun.
  simpl in Hrun. rewrite Hget in Hrun.
  replace (length (store w) `min` GET_LIMIT) with (length (store w)) in Hrun
    by lia.
  eexists. split; [exact Hrun|]. simpl.
  assert (Hids : ids_in_sequence
                   (store w ++ rows_of env (length (store w)) 0 memories)).
  { unfold ids_in_sequence in *.
    rewrite fmap_app, Hseq, rows_of_ids, length_app, length_rows_of.
    rewrite seq_app, fmap_app. f_equal. simpl.
    replace (seq (length (store w)) (length memories))
      with (Nat.add (length (store w)) <$> seq 0 (length memories))
      by (by rewrite fmap_add_seq, Nat.add_0_r).
    by rewrite <- list_fmap_compose. }
  split; [exact Hids|]. split.
  - rewrite Hids. apply NoDup_fmap_2_strong; [|apply NoDup_seq].
    intros i j _ _. apply memory_id_injective.
  - by rewrite length_app, length_rows_of.
Qed.


(** X10: above [GET_LIMIT] entries the numbering breaks: the probe counts
    [GET_LIMIT], so the ids that the next batch hands to [collection.add]
    start again at [memory_10000], and every one of them that is below the
    size of the index is the id of a row that is already there. *)
Theorem ids_collide_above_get_limit memories w :
  store_get_error env = None -> GET_LIMIT < length (store w) ->
  ids_in_sequence (store w) ->
  memories <> [] -> Forall has_required_keys memories ->
  let ids := memory_id <$> seq GET_LIMIT (length memories) in
  trace (add_memories env memories w).2
  = (trace w ++ [EvStoreGet GET_LIMIT] ++ embed_events memories
     ++ [EvStoreAdd ids])%list
  /\ memory_id GET_LIMIT ∈ ids
  /\ forall n, GET_LIMIT <= n < length (store w) ->
       memory_id n ∈ row_id <$> store w.
Proof.
  intros Hget Hlt Hseq Hne Hall ids. split; [|split].
  - rewrite (add_memories_run env memories w Hne Hall). rewrite Hget.
    replace (length (store w) `min` GET_LIMIT) with GET_LIMIT by lia.
    cbn [trace set_store log]. rewrite rows_of_ids. subst ids.
    do 4 f_equal. replace (seq GET_LIMIT (length memories))
      with (Nat.add GET_LIMIT <$> seq 0 (length memories))
      by (by rewrite fmap_add_seq, Nat.add_0_r).
    by rewrite <- list_fmap_compose.
  - subst ids. apply list_elem_of_fmap. exists GET_LIMIT. split; [done|].
    apply elem_of_seq. destruct memories; [done|]. cbn [length]. lia.
  - intros n Hn. rewrite Hseq. apply list_elem_of_fmap. exists n.
    split; [done|]. apply elem_of_seq. lia.
Qed.

End Facts.

Lemma world_rows_length n : length (store (Sample.world_with_rows n)) = n.
Proof.
  unfold Sample.world_with_rows, store. by rewrite length_fmap, length_seq.
Qed.

Lemma world_rows_in_sequence n :
  ids_in_sequence (store (Sample.world_with_rows n)).
Proof.
  unfold ids_in_sequence. rewrite world_rows_length.
  unfold Sample.world_with_rows, store. by rewrite <- list_fmap_compose.
Qed.

Lemma nameless_record_lacks_keys : ~ has_required_keys Cases.nameless_record.
Proof. intros (_ & [v Hv] & _). vm_compute in Hv. discriminate Hv. Qed.

Lemma add_memories_missing_key_adds_nothing_witness :
  let memories := [Sample.diary; Cases.nameless_record] in
  Exists (fun memory => ~ has_required_keys memory) memories
  /\ exists e w',
       add_memories Sample.env memories (Sample.world_with_rows 2)
       = (Raise e, w')
       /\ exn_cls e = KeyError
       /\ store w' = store (Sample.world_with_rows 2).
Proof.
  intros memories.
  assert (Hex : Exists (fun memory => ~ has_required_keys memory) memories).
  { apply Exists_cons_tl, Exists_cons_hd, nameless_record_lacks_keys. }
  split; [exact Hex|].
  exact (add_memories_missing_key_adds_nothing Sample.env memories
           (Sample.world_with_rows 2) Hex).
Defined.

Lemma add_memories_keeps_ids_in_sequence_witness :
  let memories := [Sample.diary; Sample.bare_note] in
  let w := Sample.world_with_rows 2 in
  store_get_error Sample.env = None
  /\ length (store w) <= GET_LIMIT
  /\ ids_in_sequence (store w)
  /\ memories <> []
  /\ Forall has_required_keys memories
  /\ exists w',
       add_memories Sample.env memories w = (Ok tt, w')
       /\ ids_in_sequence (store w')
       /\ NoDup (row_id <$> store w')
       /\ length (store w') = length (store w) + length memories.
Proof.
  intros memories w.
  assert (H1 : store_get_error Sample.env = None) by reflexivity.
  assert (H2 : length (store w) <= GET_LIMIT).
  { subst w. rewrite world_rows_length. unfold GET_LIMIT. lia. }
  assert (H3 : ids_in_sequence (store w)) by apply world_rows_in_sequence.
  assert (H4 : memories <> []) by discriminate.
  split; [exact H1|]. split; [exact H2|]. split; [exact H3|].
  split; [exact H4|]. split; [exact sample_records_well_formed|].
  exact (add_memories_keeps_ids_in_sequence Sample.env memories w H1 H2 H3 H4
           sample_records_well_formed).
Defined.


Lemma ids_collide_above_get_limit_witness :
  let w := Sample.world_with_rows (S GET_LIMIT) in
  let memories := [Sample.bare_note] in
  store_get_error Sample.env = None
  /\ GET_LIMIT < length (store w)
  /\ ids_in_sequence (store w)
  /\ memories <> []
  /\ Forall has_required_keys memories
  /\ memory_id GET_LIMIT ∈ memory_id <$> seq GET_LIMIT (length memories)
  /\ memory_id GET_LIMIT ∈ row_id <$> store w.
Proof.
  intros w memories.
  assert (H1 : store_get_error Sample.env = None) by reflexivity.
  assert (H2 : GET_LIMIT < length (store w)).
  { subst w. rewrite world_rows_length. lia. }
  assert (H3 : ids_in_sequence (store w)) by apply world_rows_in_sequence.
  assert (H4 : memories <> []) by discriminate.
  assert (H5 : Forall has_required_keys memories).
  { constructor; [exact bare_note_well_formed | constructor]. }
  split; [exact H1|]. split; [exact H2|]. split; [exact H3|].
  split; [exact H4|]. split; [exact H5|].
  destruct (ids_collide_above_get_limit Sample.env memories w H1 H2 H3 H4 H5)
    as (_ & Hfirst & Hold).
  split; [exact Hfirst|]. apply Hold. lia.
Defined.

End EmbeddingsMore.

(** ** From ingestion to the index *)

Module PipelineMore.
Import Runtime RuntimeFacts Cases.
Import Ingestion IngestionFacts IngestionMore Embeddings EmbeddingsFacts.
Import EmbeddingsMore.

Section Facts.

Context {V : Type} (env : Env V).
Implicit Types w : World V.

Lemma strip_none_drops (metadata : pydict) k :
  metadata !! k = Some PNone -> strip_none metadata !! k = None.
Proof.
  intros Hk. destruct (strip_none metadata !! k) as [v|] eqn:Hv; [|done].
  apply strip_none_lookup in Hv as [Hv Hne]. congruence.
Qed.

Lemma unique_filename_truthy (id filename : string) :
  truthy (PStr (id ++ "_" ++ filename)) = true.
Proof. by destruct id. Qed.

Lemma memory_dict_upload_time content filename source_type upload_time saved :
  memory_dict content filename source_type upload_time saved !! "upload_time"
  = Some (PStr upload_time).
Proof. reflexivity. Qed.

Lemma memory_dict_year content filename source_type upload_time saved :
  memory_dict content filename source_type upload_time saved !! "year"
  = Some PNone.
Proof. reflexivity. Qed.

Lemma memory_dict_file_path content filename source_type upload_time saved :
  memory_dict content filename source_type upload_time saved !! "file_path"
  = Some (match saved with
          | Some unique_filename => PStr unique_filename
          | None => PNone
          end).
Proof. reflexivity. Qed.

Lemma memory_dict_has_required_keys content filename source_type upload_time
    saved :
  has_required_keys
    (memory_dict content filename source_type upload_time saved).
Proof.
  unfold has_required_keys.
  rewrite memory_dict_content, memory_dict_filename, memory_dict_source_type,
    memory_dict_upload_time.
  eauto 10.
Qed.

Lemma raw_metadata_of_record (m : pydict) k v :
  has_required_keys m -> k ∈ METADATA_KEYS -> m !! k = Some v ->
  raw_metadata m !! k = Some v.
Proof.
  intros Hm Hk Hv. rewrite raw_metadata_lookup_required by done.
  by rewrite (dict_get_present _ _ _ _ Hv).
Qed.

Lemma metadata_key k :
  k = "filename" \/ k = "source_type" \/ k = "upload_time" \/ k = "year"
  \/ k = "file_path" ->
  k ∈ METADATA_KEYS.
Proof. unfold METADATA_KEYS. rewrite !elem_of_cons. tauto. Qed.

(** The row built for a record of [ingest_files]. *)
Lemma ingested_row content filename source_type upload_time wi c i :
  let m := memory_dict content filename source_type upload_time
                       (Ingestion.saved_name env filename source_type wi) in
  let r := row_of env c i m in
  let h := Rag.mk_retrieved (row_document r) (row_metadata r) in
  row_document r = PStr content
  /\ row_metadata r !! "filename" = Some (PStr filename)
  /\ row_metadata r !! "source_type" = Some (PStr source_type)
  /\ row_metadata r !! "upload_time" = Some (PStr upload_time)
  /\ row_metadata r !! "year" = None
  /\ (Rag.has_file_path h = true
      <-> Rag.has_source "image" h = true \/ Rag.has_source "audio" h = true).
Proof.
  intros m r h.
  pose proof (memory_dict_has_required_keys content filename source_type
                upload_time
                (Ingestion.saved_name env filename source_type wi)) as Hm.
  fold m in Hm.
  assert (Hdoc : row_document r = PStr content).
  { subst r. unfold row_of. cbn [row_document].
    apply dict_get_present, memory_dict_content. }
  assert (Hmeta : row_metadata r = strip_none (raw_metadata m)) by done.
  assert (Hf : row_metadata r !! "filename" = Some (PStr filename)).
  { rewrite Hmeta. apply strip_none_lookup. split; [|discriminate].
    apply raw_metadata_of_record;
      [done | apply metadata_key; tauto | apply memory_dict_filename]. }
  assert (Hs : row_metadata r !! "source_type" = Some (PStr source_type)).
  { rewrite Hmeta. apply strip_none_lookup. split; [|discriminate].
    apply raw_metadata_of_record;
      [done | apply metadata_key; tauto | apply memory_dict_source_type]. }
  assert (Hu : row_metadata r !! "upload_time" = Some (PStr upload_time)).
  { rewrite Hmeta. apply strip_none_lookup. split; [|discriminate].
    apply raw_metadata_of_record;
      [done | apply metadata_key; tauto | apply memory_dict_upload_time]. }
  assert (Hy : row_metadata r !! "year" = None).
  { rewrite Hmeta. apply strip_none_drops.
    apply raw_metadata_of_record;
      [done | apply metadata_key; tauto | apply memory_dict_year]. }
  split; [exact Hdoc|]. split; [exact Hf|]. split; [exact Hs|].
  split; [exact Hu|]. split; [exact Hy|].
  assert (Hraw : raw_metadata m !! "file_path"
                 = Some (match Ingestion.saved_name env filename source_type wi
                         with
                         | Some unique_filename => PStr unique_filename
                         | None => PNone
                         end)).
  { apply raw_metadata_of_record;
      [done | apply metadata_key; tauto | apply memory_dict_file_path]. }
  subst h. unfold Rag.has_file_path, Rag.has_source, dict_get.
  cbn [Rag.metadata]. rewrite Hs. cbn [default from_option id].
  rewrite !bool_decide_eq_true. rewrite Hmeta.
  unfold Ingestion.saved_name in Hraw.
  destruct (bool_decide (source_type ∈ ["image"; "audio"])) eqn:Hmedia.
  - apply bool_decide_eq_true in Hmedia.
    assert (Hfp : strip_none (raw_metadata m) !! "file_path"
                  = Some (PStr (uuid4 env (uuids_drawn wi) ++ "_"
                                ++ filename))).
    { apply strip_none_lookup. split; [exact Hraw | discriminate]. }
    rewrite Hfp. cbn [default from_option id]. rewrite unique_filename_truthy.
    split; [intros _|done].
    rewrite !elem_of_cons, elem_of_nil in Hmedia.
    destruct Hmedia as [->|[->|[]]]; [by left | by right].
  - apply bool_decide_eq_false in Hmedia.
    rewrite (strip_none_drops _ _ Hraw). cbn [default from_option truthy].
    split; [done|]. intros Hst. exfalso. apply Hmedia.
    rewrite !elem_of_cons. destruct Hst as [[= ->]|[= ->]]; tauto.
Qed.





End Facts.


End PipelineMore.

(** ** More on the responder *)

Module RagMore.
Import Runtime RuntimeFacts Rag RagFacts.

Section Facts.

Context {V : Type} (env : Env V).
Implicit Types w : World V.

Lemma length_append (s t : string) :
  String.length (s ++ t) = String.length s + String.length t.
Proof. induction s as [|c s IH]; simpl; [done | by rewrite IH]. Qed.

Lemma substring_all (s : string) : String.substring 0 (String.length s) s = s.
Proof. induction s as [|c s IH]; simpl; [done | by rewrite IH]. Qed.

(** Cutting a prefix off: [(p + s)[len(p):] == s]. *)
Lemma str_from_append (p s : string) : str_from (String.length p) (p ++ s) = s.
Proof.
  unfold str_from. rewrite length_append.
  replace (String.length p + String.length s - String.length p)
    with (String.length s) by lia.
  induction p as [|c p IH]; simpl; [apply substring_all | exact IH].
Qed.

Lemma strip_answer_label_labelled rest :
  strip_answer_label env ("Answer:" ++ rest) = str_strip env rest.
Proof.
  unfold strip_answer_label. rewrite prefix_append.
  f_equal. exact (str_from_append "Answer:" rest).
Qed.

(** A complete run of [generate_response] on well-formed results. *)
Lemma generate_response_run query retrieved_memories text w :
  retrieved_memories <> [] ->
  Forall well_formed retrieved_memories ->
  flan_t5 env (prompt_of env query retrieved_memories) = Ok text ->
  generate_response env query retrieved_memories w
  = (Ok (mk_answer
           ("As your memory archivist, I recall: "
            ++ strip_answer_label env text)
           (media_ref_of
              <$> List.filter has_file_path (image_memories retrieved_memories))
           (media_ref_of
              <$> List.filter has_file_path
                    (audio_memories retrieved_memories))),
     log [EvGenerate (prompt_of env query retrieved_memories)] w).
Proof.
  intros Hne Hwf Hgen. unfold generate_response.
  destruct retrieved_memories as [|mem rest]; [done|].
  set (l := mem :: rest) in *.
  assert (Hother : Forall well_formed (other_memories l))
    by by apply Forall_list_filter.
  assert (Himage : Forall well_formed (image_memories l))
    by by apply Forall_list_filter.
  assert (Haudio : Forall well_formed (audio_memories l))
    by by apply Forall_list_filter.
  rewrite (bind_ok _ _ _ _ _ (context_lines_ok _ w Hother)).
  fold (default_context l). fold (prompt_of env query l).
  unfold generator, bind, emit, lift. rewrite Hgen.
  rewrite (collect_media_ok _ _ Himage), (collect_media_ok _ _ Haudio).
  reflexivity.
Qed.

(** X12: when the completion of the model starts with the label
    [Answer:], the label is cut off and what follows is stripped before it
    is wrapped; a completion without the label is wrapped as it is.  In
    both cases the response starts with the persona sentence. *)
Theorem answer_label_is_stripped query retrieved_memories text w :
  retrieved_memories <> [] ->
  Forall well_formed retrieved_memories ->
  flan_t5 env (prompt_of env query retrieved_memories) = Ok text ->
  exists a w',
    generate_response env query retrieved_memories w = (Ok a, w')
    /\ (forall rest,
          text = "Answer:" ++ rest ->
          response a
          = "As your memory archivist, I recall: " ++ str_strip env rest)
    /\ (String.prefix "Answer:" text = false ->
        response a = "As your memory archivist, I recall: " ++ text).
Proof.
  intros Hne Hwf Hgen. do 2 eexists.
  split; [exact (generate_response_run _ _ _ w Hne Hwf Hgen)|].
  cbn [response]. split.
  - intros rest ->. by rewrite strip_answer_label_labelled.
  - intros Hno. unfold strip_answer_label. by rewrite Hno.
Qed.

Lemma route_context_default query image_mems audio_mems context :
  image_mems = [] \/ mentions env IMAGE_WORDS query = false ->
  audio_mems = [] \/ mentions env AUDIO_WORDS query = false ->
  route_context env query image_mems audio_mems context = context.
Proof.
  intros Hi Ha. unfold route_context.
  assert (Hfirst : negb (bool_decide (image_mems = []))
                   && mentions env IMAGE_WORDS query = false).
  { destruct Hi as [->| ->]; [done | apply andb_false_r]. }
  assert (Hsecond : negb (bool_decide (audio_mems = []))
                    && mentions env AUDIO_WORDS query = false).
  { destruct Ha as [->| ->]; [done | apply andb_false_r]. }
  by rewrite Hfirst, Hsecond.
Qed.

(** X13: a keyword alone does not switch the context, nor does a media
    result alone: when there is no image result or no image word, and no
    audio result or no audio word, the model is called once, on the lines
    [Memory from <filename> (<type>): <content>] of the results that are
    neither image nor audio, in retrieval order, joined by newlines; the
    contents of image and audio results are not part of the prompt. *)
Theorem default_context_lists_textual_results query retrieved_memories w :
  retrieved_memories <> [] ->
  Forall well_formed (other_memories retrieved_memories) ->
  image_memories retrieved_memories = []
  \/ mentions env IMAGE_WORDS query = false ->
  audio_memories retrieved_memories = []
  \/ mentions env AUDIO_WORDS query = false ->
  trace (generate_response env query retrieved_memories w).2
  = (trace w
     ++ [EvGenerate
           (build_prompt query
              (String.concat NL
                 (line_of <$> other_memories retrieved_memories)))])%list.
Proof.
  intros Hne Hwf Hi Ha.
  rewrite (generate_response_prompt env query _ w Hne Hwf).
  unfold prompt_of. by rewrite (route_context_default _ _ _ _ Hi Ha).
Qed.

Lemma well_formed_dec mem : well_formed mem \/ ~ well_formed mem.
Proof.
  unfold well_formed.
  destruct (metadata mem !! "filename"); [|right; intros [[? ?] _]; done].
  destruct (metadata mem !! "source_type"); [|right; intros [_ [? ?]]; done].
  left. eauto.
Qed.

Lemma context_line_raises mem w :
  ~ well_formed mem ->
  exists e, context_line mem w = (Raise e, w) /\ exn_cls e = KeyError.
Proof.
  intros Hno. unfold context_line, bind, getitem, ret, raise.
  destruct (metadata mem !! "filename") as [f|] eqn:Hf; [|eauto].
  destruct (metadata mem !! "source_type") as [t|] eqn:Ht; [|eauto].
  exfalso. apply Hno. unfold well_formed. rewrite Hf, Ht. eauto.
Qed.

Lemma context_lines_raise mems w :
  Exists (fun mem => ~ well_formed mem) mems ->
  exists e,
    for_each context_line mems w = (Raise e, w) /\ exn_cls e = KeyError.
Proof.
  induction mems as [|mem rest IH]; intros Hex.
  - by apply Exists_nil in Hex.
  - simpl. destruct (well_formed_dec mem) as [Hm|Hm].
    + rewrite (bind_ok _ _ _ _ _ (context_line_ok mem w Hm)).
      apply Exists_cons in Hex as [Hex|Hex]; [done|].
      destruct (IH Hex) as (e & Hrest & Hcls).
      rewrite (bind_raise _ _ _ _ _ Hrest). eauto.
    + destruct (context_line_raises mem w Hm) as (e & Hline & Hcls).
      rewrite (bind_raise _ _ _ _ _ Hline). eauto.
Qed.

(** X14: if a result that is neither image nor audio lacks ['filename'] or
    ['source_type'] in its metadata, [generate_response] raises KeyError
    while it builds the context, whatever the query: the model is not
    called and no answer, not even the fallback, is returned. *)
Theorem missing_metadata_raises_before_the_model query retrieved_memories w :
  Exists (fun mem => ~ well_formed mem) (other_memories retrieved_memories) ->
  exists e,
    generate_response env query retrieved_memories w = (Raise e, w)
    /\ exn_cls e = KeyError.
Proof.
  intros Hex. unfold generate_response.
  destruct retrieved_memories as [|mem rest].
  { by apply Exists_nil in Hex. }
  set (l := mem :: rest) in *.
  destruct (context_lines_raise _ w Hex) as (e & Hlines & Hcls).
  rewrite (bind_raise _ _ _ _ _ Hlines). eauto.
Qed.

(** X15: an exception of the generative model is not handled: it leaves
    [generate_response] as it is, after the one call, and no answer is
    returned in its place. *)
Theorem model_failure_propagates query retrieved_memories e w :
  retrieved_memories <> [] ->
  Forall well_formed (other_memories retrieved_memories) ->
  flan_t5 env (prompt_of env query retrieved_memories) = Raise e ->
  generate_response env query retrieved_memories w
  = (Raise e, log [EvGenerate (prompt_of env query retrieved_memories)] w).
Proof.
  intros Hne Hwf Hgen. unfold generate_response.
  destruct retrieved_memories as [|mem rest]; [done|].
  set (l := mem :: rest) in *.
  rewrite (bind_ok _ _ _ _ _ (context_lines_ok _ w Hwf)).
  fold (default_context l). fold (prompt_of env query l).
  unfold generator, bind, emit, lift. by rewrite Hgen.
Qed.

End Facts.

Lemma answer_label_is_stripped_witness :
  let query := "What did we do in May?" in
  let hits := [Sample.diary_hit; Sample.photo_hit] in
  hits <> []
  /\ Forall well_formed hits
  /\ flan_t5 Sample.env (prompt_of Sample.env query hits)
     = Ok ("Answer:" ++ " a day at the beach ")
  /\ exists a w',
       generate_response Sample.env query hits Sample.empty_world = (Ok a, w')
       /\ response a = "As your memory archivist, I recall: a day at the beach".
Proof.
  intros query hits.
  assert (Hne : hits <> []) by done.
  assert (Hwf : Forall well_formed hits).
  { repeat constructor; vm_compute; eauto. }
  assert (Hgen : flan_t5 Sample.env (prompt_of Sample.env query hits)
                 = Ok ("Answer:" ++ " a day at the beach ")) by reflexivity.
  split; [exact Hne|]. split; [exact Hwf|]. split; [exact Hgen|].
  destruct (answer_label_is_stripped Sample.env query hits _
              Sample.empty_world Hne Hwf Hgen) as (a & w' & Hrun & Hlabel & _).
  exists a, w'. split; [exact Hrun|].
  rewrite (Hlabel " a day at the beach " eq_refl). vm_compute. reflexivity.
Defined.

Lemma default_context_lists_textual_results_witness :
  let query := "What did we do in May?" in
  let hits := [Sample.diary_hit; Sample.photo_hit; Sample.memo_hit] in
  hits <> []
  /\ Forall well_formed (other_memories hits)
  /\ mentions Sample.env IMAGE_WORDS query = false
  /\ mentions Sample.env AUDIO_WORDS query = false
  /\ trace (generate_response Sample.env query hits Sample.empty_world).2
     = [EvGenerate
          (build_prompt query
             "Memory from diary.txt (text): We drove to the beach")].
Proof.
  intros query hits.
  assert (Hne : hits <> []) by done.
  assert (Hwf : Forall well_formed (other_memories hits)).
  { apply Forall_list_filter. repeat constructor; vm_compute; eauto. }
  assert (Hi : mentions Sample.env IMAGE_WORDS query = false)
    by (vm_compute; reflexivity).
  assert (Ha : mentions Sample.env AUDIO_WORDS query = false)
    by (vm_compute; reflexivity).
  split; [exact Hne|]. split; [exact Hwf|]. split; [exact Hi|].
  split; [exact Ha|].
  rewrite (default_context_lists_textual_results Sample.env query hits
             Sample.empty_world Hne Hwf (or_intror Hi) (or_intror Ha)).
  vm_compute. reflexivity.
Defined.

Lemma nameless_hit_not_well_formed : ~ well_formed Sample.nameless_hit.
Proof. intros [[f Hf] _]. vm_compute in Hf. discriminate Hf. Qed.

Lemma missing_metadata_raises_before_the_model_witness :
  let query := "Show me the photo" in
  let hits := [Sample.photo_hit; Sample.nameless_hit] in
  Exists (fun mem => ~ well_formed mem) (other_memories hits)
  /\ exists e,
       generate_response Sample.env query hits Sample.empty_world
       = (Raise e, Sample.empty_world)
       /\ exn_cls e = KeyError.
Proof.
  intros query hits.
  assert (Hex : Exists (fun mem => ~ well_formed mem) (other_memories hits)).
  { assert (Hphoto : has_source "image" Sample.photo_hit = true)
      by (vm_compute; reflexivity).
    assert (Hpage : negb (has_source "image" Sample.nameless_hit
                          || has_source "audio" Sample.nameless_hit) = true)
      by (vm_compute; reflexivity).
    unfold other_memories, hits. cbn [List.filter].
    rewrite Hphoto, Hpage. cbn [orb negb].
    apply Exists_cons_hd, nameless_hit_not_well_formed. }
  split; [exact Hex|].
  exact (missing_metadata_raises_before_the_model Sample.env query hits
           Sample.empty_world Hex).
Defined.

Lemma model_failure_propagates_witness :
  let query := "What did we do in May?" in
  let hits := [Sample.diary_hit] in
  hits <> []
  /\ Forall well_formed (other_memories hits)
  /\ flan_t5 Cases.env_model_fails (prompt_of Cases.env_model_fails query hits)
     = Raise (mk_exn OtherError "CUDA out of memory")
  /\ generate_response Cases.env_model_fails query hits Sample.empty_world
     = (Raise (mk_exn OtherError "CUDA out of memory"),
        log [EvGenerate (prompt_of Cases.env_model_fails query hits)]
            Sample.empty_world).
Proof.
  intros query hits.
  assert (Hne : hits <> []) by done.
  assert (Hwf : Forall well_formed (other_memories hits)).
  { apply Forall_list_filter. repeat constructor; vm_compute; eauto. }
  split; [exact Hne|]. split; [exact Hwf|]. split; [reflexivity|].
  exact (model_failure_propagates Cases.env_model_fails query hits _
           Sample.empty_world Hne Hwf eq_refl).
Defined.

End RagMore.

(** ** Retrieval: [search_memories] and [retrieve_memories] *)

Module RetrievalMore.
Import Runtime RuntimeFacts Retrieval.

Section Facts.

Context {V D : Type} (env : Env V).
Context (chroma_query : V -> nat -> list (row V) -> result (query_result D)).
Implicit Types (w : World V) (results : query_result D).

Lemma list_item_ok {A} (l : list A) i x w :
  l !! i = Some x -> list_item (V := V) l i w = (Ok x, w).
Proof. intros H. unfold list_item. by rewrite H. Qed.

Lemma list_item_raises {A} (l : list A) i w :
  length l <= i -> list_item (V := V) l i w = (Raise INDEX_ERROR, w).
Proof.
  intros H. unfold list_item. by rewrite (proj2 (lookup_ge_None l i) H).
Qed.

Lemma hit_at_ok results i h w :
  hits_of results !! i = Some h -> hit_at results i w = (Ok h, w).
Proof.
  unfold hits_of. rewrite lookup_zip_with.
  destruct (zip (documents results) (metadatas results) !! i)
    as [[c m]|] eqn:Hcm; [|done].
  destruct (distances results !! i) as [d|] eqn:Hd; [|done].
  simpl. intros [= <-].
  apply lookup_zip_with_Some in Hcm as (c' & m' & [= -> ->] & Hc & Hm).
  unfold hit_at.
  rewrite (bind_ok _ _ _ _ _ (list_item_ok _ _ _ w Hc)).
  rewrite (bind_ok _ _ _ _ _ (list_item_ok _ _ _ w Hm)).
  by rewrite (bind_ok _ _ _ _ _ (list_item_ok _ _ _ w Hd)).
Qed.

Lemma hit_at_raises results i w :
  i < length (documents results) ->
  length (metadatas results) <= i \/ length (distances results) <= i ->
  hit_at results i w = (Raise INDEX_ERROR, w).
Proof.
  intros Hi Hshort. unfold hit_at.
  destruct (lookup_lt_is_Some_2 _ _ Hi) as [c Hc].
  rewrite (bind_ok _ _ _ _ _ (list_item_ok _ _ _ w Hc)).
  destruct (decide (length (metadatas results) <= i)) as [Hm|Hm].
  - by rewrite (bind_raise _ _ _ _ _ (list_item_raises _ _ w Hm)).
  - destruct (lookup_lt_is_Some_2 (metadatas results) i ltac:(lia)) as [m Hm'].
    rewrite (bind_ok _ _ _ _ _ (list_item_ok _ _ _ w Hm')).
    destruct Hshort as [Hshort|Hd]; [lia|].
    by rewrite (bind_raise _ _ _ _ _ (list_item_raises _ _ w Hd)).
Qed.

Lemma length_hits_of results :
  length (hits_of results)
  = (length (documents results) `min` length (metadatas results))
    `min` length (distances results).
Proof. unfold hits_of. by rewrite length_zip_with, length_zip. Qed.

(** The loop over a range of indices that all three lists cover. *)
Lemma hits_loop_ok results w n : forall i,
  i + n <= length (hits_of results) ->
  for_each (hit_at results) (seq i n) w
  = (Ok (take n (drop i (hits_of results))), w).
Proof.
  induction n as [|n IH]; intros i Hlen; simpl.
  { by rewrite take_0. }
  destruct (lookup_lt_is_Some_2 (hits_of results) i ltac:(lia)) as [h Hh].
  rewrite (bind_ok _ _ _ _ _ (hit_at_ok _ _ _ w Hh)).
  rewrite (bind_ok _ _ _ _ _ (IH (S i) ltac:(lia))).
  by rewrite (drop_S _ _ _ Hh).
Qed.

(** The loop over a range that reaches an index one of the two other lists
    does not have. *)
Lemma hits_loop_raises results w n : forall i,
  i + n <= length (documents results) ->
  i <= length (hits_of results) < i + n ->
  for_each (hit_at results) (seq i n) w = (Raise INDEX_ERROR, w).
Proof.
  induction n as [|n IH]; intros i Hdocs Hshort; simpl; [lia|].
  destruct (decide (i = length (hits_of results))) as [->|Hlater].
  - assert (Hdoc : length (hits_of results) < length (documents results))
      by lia.
    assert (Hother : length (metadatas results) <= length (hits_of results)
                     \/ length (distances results)
                        <= length (hits_of results))
      by (rewrite length_hits_of in *; lia).
    by rewrite (bind_raise _ _ _ _ _ (hit_at_raises results _ w Hdoc Hother)).
  - destruct (lookup_lt_is_Some_2 (hits_of results) i ltac:(lia)) as [h Hh].
    rewrite (bind_ok _ _ _ _ _ (hit_at_ok _ _ _ w Hh)).
    by rewrite (bind_raise _ _ _ _ _ (IH (S i) ltac:(lia) ltac:(lia))).
Qed.

Lemma search_memories_query query n_results w :
  search_memories env chroma_query query n_results w
  = match chroma_query (encode env (PStr query)) n_results (store w) with
    | Ok results =>
        for_each (hit_at results) (seq 0 (length (documents results)))
                 (log [EvEmbed (PStr query)] w)
    | Raise e => (Raise e, log [EvEmbed (PStr query)] w)
    end.
Proof.
  unfold search_memories, Embeddings.generate_embedding, collection_query,
    bind, emit, ret.
  cbn [store log]. by destruct (chroma_query _ _ _).
Qed.

(** X16: [search_memories] embeds the query once, asks the index once and
    leaves the index as it was; when the index answers with a metadata
    dict and a distance for every document, the result has one entry per
    document, in the order of the answer, pairing the i-th document with
    the i-th metadata dict and the i-th distance. *)
Theorem search_memories_pairs_by_position query n_results results w :
  chroma_query (encode env (PStr query)) n_results (store w) = Ok results ->
  length (documents results) <= length (metadatas results) ->
  length (documents results) <= length (distances results) ->
  exists hits,
    search_memories env chroma_query query n_results w
    = (Ok hits, log [EvEmbed (PStr query)] w)
    /\ store (log [EvEmbed (PStr query)] w) = store w
    /\ hit_content <$> hits = documents results
    /\ hit_metadata <$> hits
       = take (length (documents results)) (metadatas results)
    /\ hit_distance <$> hits
       = take (length (documents results)) (distances results).
Proof.
  intros Hquery Hm Hd.
  exists (take (length (documents results)) (hits_of results)).
  rewrite search_memories_query, Hquery.
  rewrite hits_loop_ok by (rewrite length_hits_of; lia).
  rewrite drop_0. split; [done|]. split; [done|].
  unfold hits_of.
  remember (documents results) as cs eqn:Hcs.
  remember (metadatas results) as ms eqn:Hms.
  remember (distances results) as ds eqn:Hds.
  clear Hquery Hcs Hms Hds.
  revert ms ds Hm Hd.
  induction cs as [|c cs IH]; intros ms ds Hm Hd; [done|].
  destruct ms as [|m ms]; [simpl in Hm; lia|].
  destruct ds as [|d ds]; [simpl in Hd; lia|].
  simpl in Hm, Hd.
  destruct (IH ms ds ltac:(lia) ltac:(lia)) as (Hc' & Hm' & Hd').
  cbn [length zip_with take]. rewrite !fmap_cons.
  cbn [hit_content hit_metadata hit_distance fst snd].
  split_and!; f_equal; assumption.
Qed.

(** X17: when the index answers with fewer metadata dicts or fewer
    distances than documents, [search_memories] raises IndexError: no
    shorter list of hits is returned. *)
Theorem search_memories_ragged_answer_raises query n_results results w :
  chroma_query (encode env (PStr query)) n_results (store w) = Ok results ->
  length (metadatas results) < length (documents results)
  \/ length (distances results) < length (documents results) ->
  search_memories env chroma_query query n_results w
  = (Raise INDEX_ERROR, log [EvEmbed (PStr query)] w).
Proof.
  intros Hquery Hshort.
  rewrite search_memories_query, Hquery.
  apply hits_loop_raises; rewrite ?length_hits_of; lia.
Qed.

(** X18: retrieval and response composed, as the chat endpoint does: when
    the index has no document for the query, the answer is the fixed
    no-memories sentence with empty media lists; the query was embedded,
    the generative model was not called. *)
Theorem empty_retrieval_answers_with_fallback query n_results results w :
  chroma_query (encode env (PStr query)) n_results (store w) = Ok results ->
  documents results = [] ->
  (let* hits := retrieve_memories env chroma_query query n_results in
   Rag.generate_response env query (as_retrieved <$> hits)) w
  = (Ok (Rag.mk_answer Rag.NO_MEMORIES [] []),
     log [EvEmbed (PStr query)] w).
Proof.
  intros Hquery Hnone. unfold retrieve_memories.
  assert (Hrun : search_memories env chroma_query query n_results w
                 = (Ok [], log [EvEmbed (PStr query)] w)).
  { rewrite search_memories_query, Hquery, Hnone. reflexivity. }
  by rewrite (bind_ok _ _ _ _ _ Hrun).
Qed.

(** An exception of the index search leaves [search_memories], and with it
    [retrieve_memories], as it is. *)
Lemma index_failure_propagates query n_results e w :
  chroma_query (encode env (PStr query)) n_results (store w) = Raise e ->
  retrieve_memories env chroma_query query n_results w
  = (Raise e, log [EvEmbed (PStr query)] w).
Proof.
  intros Hquery. unfold retrieve_memories.
  by rewrite search_memories_query, Hquery.
Qed.

End Facts.

Lemma search_memories_pairs_by_position_witness :
  let w := Sample.world_with_rows 3 in
  let results :=
    mk_query_result [PStr "old"; PStr "old"] [∅; ∅] [0; 1] in
  Cases.first_rows (encode Sample.env (PStr "beach")) 2 (store w) = Ok results
  /\ length (documents results) <= length (metadatas results)
  /\ length (documents results) <= length (distances results)
  /\ exists hits,
       search_memories Sample.env Cases.first_rows "beach" 2 w
       = (Ok hits, log [EvEmbed (PStr "beach")] w)
       /\ store (log [EvEmbed (PStr "beach")] w) = store w
       /\ hit_content <$> hits = documents results
       /\ hit_metadata <$> hits
          = take (length (documents results)) (metadatas results)
       /\ hit_distance <$> hits
          = take (length (documents results)) (distances results).
Proof.
  intros w results.
  assert (Hquery : Cases.first_rows (encode Sample.env (PStr "beach")) 2
                     (store w) = Ok results) by (vm_compute; reflexivity).
  assert (Hm : length (documents results) <= length (metadatas results))
    by (simpl; lia).
  assert (Hd : length (documents results) <= length (distances results))
    by (simpl; lia).
  split; [exact Hquery|]. split; [exact Hm|]. split; [exact Hd|].
  exact (search_memories_pairs_by_position Sample.env Cases.first_rows
           "beach" 2 results w Hquery Hm Hd).
Defined.

Lemma search_memories_ragged_answer_raises_witness :
  let w := Sample.world_with_rows 3 in
  let results := mk_query_result [PStr "a"; PStr "b"] [∅] [0; 1] in
  Cases.ragged (encode Sample.env (PStr "beach")) 2 (store w) = Ok results
  /\ length (metadatas results) < length (documents results)
  /\ search_memories Sample.env Cases.ragged "beach" 2 w
     = (Raise INDEX_ERROR, log [EvEmbed (PStr "beach")] w).
Proof.
  intros w results.
  assert (Hquery : Cases.ragged (encode Sample.env (PStr "beach")) 2 (store w)
                   = Ok results) by reflexivity.
  assert (Hm : length (metadatas results) < length (documents results))
    by (simpl; lia).
  split; [exact Hquery|]. split; [exact Hm|].
  exact (search_memories_ragged_answer_raises Sample.env Cases.ragged
           "beach" 2 results w Hquery (or_introl Hm)).
Defined.

Lemma empty_retrieval_answers_with_fallback_witness :
  let w := Sample.empty_world in
  let results := mk_query_result (D := nat) [] [] [] in
  Cases.first_rows (encode Sample.env (PStr "beach")) 5 (store w) = Ok results
  /\ documents results = []
  /\ (let* hits := retrieve_memories Sample.env Cases.first_rows "beach" 5 in
      Rag.generate_response Sample.env "beach" (as_retrieved <$> hits)) w
     = (Ok (Rag.mk_answer Rag.NO_MEMORIES [] []),
        log [EvEmbed (PStr "beach")] w).
Proof.
  intros w results.
  assert (Hquery : Cases.first_rows (encode Sample.env (PStr "beach")) 5
                     (store w) = Ok results) by reflexivity.
  split; [exact Hquery|]. split; [reflexivity|].
  exact (empty_retrieval_answers_with_fallback Sample.env Cases.first_rows
           "beach" 5 results w Hquery eq_refl).
Defined.

End RetrievalMore.

(** ** The side-files of a batch *)

Module MediaMore.
Import Runtime RuntimeFacts Ingestion IngestionFacts Cases.

Section Facts.

Context {V : Type} (env : Env V).
Implicit Types w : World V.

Lemma media_path_injective a b : media_path a = media_path b -> a = b.
Proof.
  intros H.
  change (String.append "uploads/" a = String.append "uploads/" b) in H.
  cbn [String.append] in H. by injection H.
Qed.

Lemma saved_name_side_names filename data source_type description rest w :
  side_names env ((filename, data, source_type, description) :: rest)
             (uuids_drawn w)
  = match saved_name env filename source_type w with
    | Some unique_filename =>
        unique_filename
        :: side_names env rest
             (uuids_drawn (iteration env
                (filename, data, source_type, description) w).2)
    | None =>
        side_names env rest
          (uuids_drawn (iteration env
             (filename, data, source_type, description) w).2)
    end.
Proof.
  unfold iteration, saved_name, staged, media_saved, saved_name. simpl.
  destruct (bool_decide (source_type ∈ ["image"; "audio"]));
    by destruct (normalized env source_type data) as [[c|e]|].
Qed.

(** One iteration touches its scratch file and its own side-file only. *)
Lemma iteration_touches_own_files filename data source_type description w p :
  p <> temp_path_of filename ->
  (forall unique_filename,
     saved_name env filename source_type w = Some unique_filename ->
     p <> media_path unique_filename) ->
  fs (iteration env (filename, data, source_type, description) w).2 !! p
  = fs w !! p.
Proof.
  intros Htemp Hmedia. unfold iteration, staged, media_saved.
  destruct (saved_name env filename source_type w) as [u|];
    destruct (normalized env source_type data) as [[c|e]|]; simpl;
    rewrite ?lookup_delete_ne, ?lookup_insert_ne; try done;
    try (intros Heq; by eapply Hmedia).
Qed.

(** A successful iteration leaves its side-file behind. *)
Lemma iteration_keeps_side_file
    filename data source_type description w content unique_filename :
  normalized env source_type data = Some (Ok content) ->
  saved_name env filename source_type w = Some unique_filename ->
  fs (iteration env (filename, data, source_type, description) w).2
    !! media_path unique_filename = Some data.
Proof.
  intros Hn Hs. unfold iteration, staged, media_saved. rewrite Hn, Hs. simpl.
  rewrite lookup_delete_ne by apply temp_path_is_not_media.
  rewrite lookup_insert_ne by apply temp_path_is_not_media.
  apply lookup_insert_eq.
Qed.

Lemma ingest_loop_side_files uploads : forall memories w ms w',
  ingest_loop env uploads memories w = (Ok ms, w') ->
  NoDup (side_names env uploads (uuids_drawn w)) ->
  exists new,
    ms = (memories ++ new)%list
    /\ (forall unique_filename,
          unique_filename ∉ side_names env uploads (uuids_drawn w) ->
          fs w' !! media_path unique_filename
          = fs w !! media_path unique_filename)
    /\ Forall
         (fun m : pydict =>
            forall unique_filename,
              m !! "file_path" = Some (PStr unique_filename) ->
              exists filename data source_type description,
                (filename, data, source_type, description) ∈ uploads
                /\ m !! "filename" = Some (PStr filename)
                /\ fs w' !! media_path unique_filename = Some data)
         new.
Proof.
  induction uploads as [|u rest IH]; intros memories w ms w' Hrun Hnodup.
  - simpl in Hrun. injection Hrun as <- <-. exists [].
    rewrite app_nil_r. repeat split; constructor.
  - rewrite ingest_loop_cons in Hrun.
    apply bind_ok_inv in Hrun as (produced & w1 & Hone & Hrun).
    destruct u as [[[filename data] source_type] description].
    pose proof (ingest_one_returns _ _ _ _ _ _ _ _ Hone) as Hw.
    pose proof Hone as Hstep.
    rewrite (ingest_one_eq _ _ _ _ _ _ Hw) in Hstep.
    rewrite (saved_name_side_names filename data source_type description)
      in Hnodup |- *.
    rewrite Hstep in Hnodup |- *. cbn [snd] in Hnodup |- *.
    pose proof (iteration_touches_own_files filename data source_type
                  description w) as Hframe.
    rewrite Hstep in Hframe. cbn [snd] in Hframe.
    assert (Htail : NoDup (side_names env rest (uuids_drawn w1))).
    { destruct (saved_name env filename source_type w);
        [by apply NoDup_cons in Hnodup as [_ ?] | done]. }
    destruct (IH _ _ _ _ Hrun Htail) as (new & -> & Hrest & Hall).
    assert (Hlater : Forall
         (fun m : pydict =>
            forall unique_filename,
              m !! "file_path" = Some (PStr unique_filename) ->
              exists f d st ds,
                (f, d, st, ds)
                ∈ (filename, data, source_type, description) :: rest
                /\ m !! "filename" = Some (PStr f)
                /\ fs w' !! media_path unique_filename = Some d)
         new).
    { eapply Forall_impl; [exact Hall|].
      intros m Hm u Hu. destruct (Hm u Hu) as (f & d & st & ds & Hin & ?).
      exists f, d, st, ds. split; [by apply list_elem_of_further|done]. }
    assert (Hown : forall unique_filename,
               unique_filename
               ∉ match saved_name env filename source_type w with
                 | Some own => own :: side_names env rest (uuids_drawn w1)
                 | None => side_names env rest (uuids_drawn w1)
                 end ->
               fs w' !! media_path unique_filename
               = fs w !! media_path unique_filename).
    { intros u Hu. rewrite Hrest, Hframe.
      - done.
      - intros Heq. symmetry in Heq. by apply temp_path_is_not_media in Heq.
      - intros own Hsaved Heq. apply media_path_injective in Heq as ->.
        rewrite Hsaved in Hu. apply Hu, list_elem_of_here.
      - destruct (saved_name env filename source_type w); [|done].
        intros Hin. by apply Hu, list_elem_of_further. }
    destruct produced as [m|].
    + destruct (ingest_one_produces _ _ _ _ _ _ _ _ Hone) as (c & Hn & ->).
      eexists (_ :: new). split; [by rewrite <- app_assoc|].
      split; [exact Hown|].
      constructor; [|exact Hlater].
      intros u Hu. exists filename, data, source_type, description.
      split; [apply list_elem_of_here|].
      split; [apply memory_dict_filename|].
      assert (Hsaved : saved_name env filename source_type w = Some u).
      { destruct (saved_name env filename source_type w) as [own|] eqn:Hs.
        - assert (Hfp : memory_dict (with_description description c) filename
                          source_type (now_iso env (clock w)) (Some own)
                        !! "file_path" = Some (PStr own)) by reflexivity.
          rewrite Hfp in Hu. by injection Hu as ->.
        - assert (Hfp : memory_dict (with_description description c) filename
                          source_type (now_iso env (clock w)) None
                        !! "file_path" = Some PNone) by reflexivity.
          rewrite Hfp in Hu. discriminate Hu. }
      rewrite Hsaved in Hnodup. apply NoDup_cons in Hnodup as [Hfresh _].
      rewrite (Hrest u Hfresh).
      pose proof (iteration_keeps_side_file filename data source_type
                    description w c u Hn Hsaved) as Hkept.
      by rewrite Hstep in Hkept.
    + exists new. split; [done|]. split; [exact Hown|exact Hlater].
Qed.

(** X19: when a batch returns and the side-file names it drew are pairwise
    different, every record with a ['file_path'] points at a file of the
    uploads directory that still exists when the batch is over and holds
    the bytes of an upload of that batch with the record's file name; side
    files of the directory that the batch did not name are left alone. *)
Theorem recorded_side_files_exist uploads w ms w' :
  ingest_files env uploads w = (Ok ms, w') ->
  NoDup (side_names env uploads (uuids_drawn w)) ->
  (forall m unique_filename,
     m ∈ ms -> m !! "file_path" = Some (PStr unique_filename) ->
     exists filename data source_type description,
       (filename, data, source_type, description) ∈ uploads
       /\ m !! "filename" = Some (PStr filename)
       /\ fs w' !! media_path unique_filename = Some data)
  /\ (forall unique_filename,
        unique_filename ∉ side_names env uploads (uuids_drawn w) ->
        fs w' !! media_path unique_filename
        = fs w !! media_path unique_filename).
Proof.
  intros Hrun Hnodup.
  destruct (ingest_loop_side_files _ _ _ _ _ Hrun Hnodup)
    as (new & -> & Hframe & Hall).
  split; [|exact Hframe].
  intros m u Hm Hu. rewrite Forall_forall in Hall. by apply (Hall m Hm u).
Qed.

End Facts.

Lemma recorded_side_files_exist_witness :
  let uploads := [Sample.beach_photo; Cases.blank_photo; Sample.silent_memo] in
  let run := ingest_files Sample.env uploads Sample.empty_world in
  run = (Ok (Sample.records run), run.2)
  /\ NoDup (side_names Sample.env uploads (uuids_drawn Sample.empty_world))
  /\ (forall m unique_filename,
        m ∈ Sample.records run ->
        m !! "file_path" = Some (PStr unique_filename) ->
        exists filename data source_type description,
          (filename, data, source_type, description) ∈ uploads
          /\ m !! "filename" = Some (PStr filename)
          /\ fs run.2 !! media_path unique_filename = Some data)
  /\ (forall unique_filename,
        unique_filename
        ∉ side_names Sample.env uploads (uuids_drawn Sample.empty_world) ->
        fs run.2 !! media_path unique_filename
        = fs Sample.empty_world !! media_path unique_filename).
Proof.
  intros uploads run.
  assert (Hrun : run = (Ok (Sample.records run), run.2)).
  { apply run_records. vm_compute. reflexivity. }
  assert (Hnodup : NoDup (side_names Sample.env uploads
                            (uuids_drawn Sample.empty_world))).
  { apply (bool_decide_unpack (NoDup _)). vm_compute. exact I. }
  split; [exact Hrun|]. split; [exact Hnodup|].
  exact (recorded_side_files_exist Sample.env uploads Sample.empty_world _ _
           Hrun Hnodup).
Defined.

End MediaMore.

(** ** backend/utils.py: the year of a memory and its display line *)

Module UtilsMore.
Import Runtime RuntimeFacts Utils.

Section Year.

Context (is_word : ascii -> bool).

Lemma is_digit_value c : is_digit c = true -> (0 <= digit_value c <= 9)%Z.
Proof.
  unfold is_digit, digit_value.
  intros [Hlow Hhigh]%andb_true_iff.
  apply Nat.leb_le in Hlow, Hhigh. lia.
Qed.

Lemma century_cases a b :
  century a b = true ->
  (a = "1" /\ b = "9")%char \/ (a = "2" /\ b = "0")%char.
Proof.
  unfold century. intros [H|H]%orb_true_iff;
    apply andb_true_iff in H as [Ha Hb];
    apply Ascii.eqb_eq in Ha, Hb; auto.
Qed.

Lemma century_first_digit a b : century a b = true -> is_digit a = true.
Proof. by intros [[-> _]|[-> _]]%century_cases. Qed.

Lemma year_at_inv prev s year :
  year_at is_word prev s = Some year ->
  exists a b c d rest,
    s = String a (String b (String c (String d rest)))
    /\ year = (1000 * digit_value a + 100 * digit_value b
               + 10 * digit_value c + digit_value d)%Z
    /\ boundary is_word prev (Some a) = true
    /\ century a b = true
    /\ is_digit c = true
    /\ is_digit d = true
    /\ boundary is_word (Some d) (first_char rest) = true.
Proof.
  destruct s as [|a [|b [|c [|d rest]]]]; try discriminate.
  cbn [year_at].
  destruct (boundary is_word prev (Some a)) eqn:H1; [|discriminate].
  destruct (century a b) eqn:H2; [|discriminate].
  destruct (is_digit c) eqn:H3; [|discriminate].
  destruct (is_digit d) eqn:H4; [|discriminate].
  destruct (boundary is_word (Some d) (first_char rest)) eqn:H5;
    [|discriminate].
  cbn [andb]. intros [= <-]. exists a, b, c, d, rest.
  repeat split; assumption.
Qed.

Lemma year_at_first_digit prev a s :
  is_digit a = false -> year_at is_word prev (String a s) = None.
Proof.
  intros Ha. destruct (year_at is_word prev (String a s)) as [y|] eqn:Hy;
    [|done].
  apply year_at_inv in Hy as (a' & b & c & d & rest & [= <- _] & _ & _
                              & Hc%century_first_digit & _).
  congruence.
Qed.

Lemma search_inv s : forall prev year,
  search is_word prev s = Some year ->
  exists before a b c d after,
    s = before ++ String a (String b (String c (String d after)))
    /\ year = (1000 * digit_value a + 100 * digit_value b
               + 10 * digit_value c + digit_value d)%Z
    /\ boundary is_word (last_char prev before) (Some a) = true
    /\ century a b = true
    /\ is_digit c = true
    /\ is_digit d = true
    /\ boundary is_word (Some d) (first_char after) = true.
Proof.
  induction s as [|ch s IH]; intros prev year Hs.
  - discriminate Hs.
  - cbn [search] in Hs.
    destruct (year_at is_word prev (String ch s)) as [y|] eqn:Hy.
    + injection Hs as ->.
      apply year_at_inv in Hy as (a & b & c & d & rest & -> & Hrest).
      by exists "", a, b, c, d, rest.
    + destruct (IH _ _ Hs) as (before & a & b & c & d & after & -> & Hrest).
      by exists (String ch before), a, b, c, d, after.
Qed.

(** X20: a year that [extract_year_from_content] returns lies between
    1900 and 2099 and is written in the content: as four digits that
    start with 19 or 20, between two word boundaries. *)
Theorem extracted_year_is_written_in_content content year :
  extract_year_from_content is_word content = Some year ->
  (1900 <= year <= 2099)%Z
  /\ exists before a b c d after,
       content = before ++ String a (String b (String c (String d after)))
       /\ year = (1000 * digit_value a + 100 * digit_value b
                  + 10 * digit_value c + digit_value d)%Z
       /\ century a b = true
       /\ is_digit c = true
       /\ is_digit d = true
       /\ boundary is_word (last_char None before) (Some a) = true
       /\ boundary is_word (Some d) (first_char after) = true.
Proof.
  intros Hs. apply search_inv in Hs
    as (before & a & b & c & d & after & -> & -> & Hb & Hab & Hc & Hd & He).
  split.
  - pose proof (is_digit_value c Hc). pose proof (is_digit_value d Hd).
    destruct (century_cases a b Hab) as [[-> ->]|[-> ->]].
    + change (digit_value "1") with 1%Z. change (digit_value "9") with 9%Z.
      lia.
    + change (digit_value "2") with 2%Z. change (digit_value "0") with 0%Z.
      lia.
  - exists before, a, b, c, d, after. done.
Qed.

Lemma search_inside_a_word s : forall p,
  is_word p = true -> all_chars is_word s = true ->
  search is_word (Some p) s = None.
Proof.
  induction s as [|a s IH]; intros p Hp Hs; [done|].
  cbn [all_chars] in Hs. apply andb_true_iff in Hs as [Ha Hs].
  cbn [search].
  assert (Hno : year_at is_word (Some p) (String a s) = None).
  { destruct (year_at is_word (Some p) (String a s)) as [y|] eqn:Hy; [|done].
    apply year_at_inv in Hy as (a' & b & c & d & rest & [= <- _] & _ & Hb & _).
    unfold boundary in Hb. simpl in Hb. by rewrite Hp, Ha in Hb. }
  rewrite Hno. by apply IH.
Qed.

(** X21: digits glued to other word characters are not a year: a content
    made of word characters only (a file name such as IMG20190504, a
    longer number) yields [None], unless it is four characters long. *)
Theorem no_year_inside_a_word content :
  all_chars is_word content = true ->
  String.length content <> 4 ->
  extract_year_from_content is_word content = None.
Proof.
  intros Hall Hlen. unfold extract_year_from_content.
  destruct content as [|a s]; [done|].
  cbn [all_chars] in Hall. apply andb_true_iff in Hall as [Ha Hs].
  cbn [search].
  assert (Hno : year_at is_word None (String a s) = None).
  { destruct (year_at is_word None (String a s)) as [y|] eqn:Hy; [|done].
    apply year_at_inv in Hy
      as (a' & b & c & d & rest & [= <- ->] & _ & _ & _ & _ & _ & He).
    cbn [all_chars] in Hs.
    apply andb_true_iff in Hs as [_ [_ [Hd Hrest]%andb_true_iff]%andb_true_iff].
    destruct rest as [|e rest]; [done|].
    cbn [all_chars] in Hrest. apply andb_true_iff in Hrest as [He' _].
    unfold boundary in He. simpl in He. by rewrite Hd, He' in He. }
  rewrite Hno. by apply search_inside_a_word.
Qed.

Lemma search_finds year_text : forall before prev a b c d after,
  (forall ch, is_digit ch = true -> is_word ch = true) ->
  year_text = String a (String b (String c (String d after))) ->
  all_chars (fun ch => negb (is_digit ch)) before = true ->
  word_side is_word (last_char prev before) = false ->
  word_side is_word (first_char after) = false ->
  century a b = true -> is_digit c = true -> is_digit d = true ->
  search is_word prev (before ++ year_text)
  = Some (1000 * digit_value a + 100 * digit_value b
          + 10 * digit_value c + digit_value d)%Z.
Proof.
  induction before as [|ch before IH];
    intros prev a b c d after Hdigit -> Hbefore Hprev Hafter Hab Hc Hd.
  - cbn [last_char] in Hprev. change (String.append "" ?x) with x.
    cbn [search year_at]. unfold boundary. rewrite Hprev, Hafter, Hab, Hc, Hd. cbn [word_side].
    rewrite (Hdigit a (century_first_digit a b Hab)), (Hdigit d Hd).
    reflexivity.
  - cbn [all_chars] in Hbefore.
    apply andb_true_iff in Hbefore as [Hch%negb_true_iff Hbefore].
    change (String.append (String ch before) ?x)
      with (String ch (String.append before x)).
    cbn [search]. rewrite (year_at_first_digit prev ch _ Hch).
    by apply (IH (Some ch) a b c d after).
Qed.

(** X22: the first year of a content is found: when the content has four
    digits that start with 19 or 20, no word character right before or
    right after them and no digit anywhere before them, these four digits
    are the year, whatever follows. *)
Theorem first_standalone_year_is_found before a b c d after :
  (forall ch, is_digit ch = true -> is_word ch = true) ->
  all_chars (fun ch => negb (is_digit ch)) before = true ->
  word_side is_word (last_char None before) = false ->
  word_side is_word (first_char after) = false ->
  century a b = true -> is_digit c = true -> is_digit d = true ->
  extract_year_from_content is_word
    (before ++ String a (String b (String c (String d after))))
  = Some (1000 * digit_value a + 100 * digit_value b
          + 10 * digit_value c + digit_value d)%Z.
Proof.
  intros Hdigit Hbefore Hprev Hafter Hab Hc Hd.
  by apply search_finds with (after := after).
Qed.

End Year.

Lemma ascii_digits_are_word ch :
  is_digit ch = true -> ascii_word ch = true.
Proof. unfold ascii_word. by intros ->. Qed.

Lemma extracted_year_is_written_in_content_witness :
  let content := "Summer of 1999, before the move in 2004" in
  extract_year_from_content ascii_word content = Some 1999%Z
  /\ (1900 <= 1999 <= 2099)%Z.
Proof.
  intros content.
  assert (Hyear : extract_year_from_content ascii_word content = Some 1999%Z)
    by (vm_compute; reflexivity).
  split; [exact Hyear|].
  exact (proj1 (extracted_year_is_written_in_content ascii_word content _
                  Hyear)).
Defined.

Lemma no_year_inside_a_word_witness :
  let content := "IMG20190504" in
  all_chars ascii_word content = true
  /\ String.length content <> 4
  /\ extract_year_from_content ascii_word content = None.
Proof.
  intros content.
  assert (Hall : all_chars ascii_word content = true)
    by (vm_compute; reflexivity).
  assert (Hlen : String.length content <> 4) by (simpl; lia).
  split; [exact Hall|]. split; [exact Hlen|].
  exact (no_year_inside_a_word ascii_word content Hall Hlen).
Defined.

Lemma first_standalone_year_is_found_witness :
  (forall ch, is_digit ch = true -> ascii_word ch = true)
  /\ extract_year_from_content ascii_word
       ("Summer of " ++ "1999" ++ ", before the move in 2004")
     = Some 1999%Z.
Proof.
  split; [exact ascii_digits_are_word|].
  exact (first_standalone_year_is_found ascii_word "Summer of "
           "1" "9" "9" "9" ", before the move in 2004"
           ascii_digits_are_word eq_refl eq_refl eq_refl eq_refl eq_refl
           eq_refl).
Defined.

End UtilsMore.

(** ** From an upload to its display line *)

Module DisplayMore.
Import Runtime RuntimeFacts Utils.
Import Ingestion IngestionFacts IngestionMore Embeddings EmbeddingsFacts.
Import PipelineMore.

Section Facts.

Context {V : Type} (env : Env V).
Implicit Types w : World V.

Lemma str_to_prefix s : forall n, String.prefix (str_to n s) s = true.
Proof.
  unfold str_to. induction s as [|c s IH]; intros [|n]; simpl; try done.
  destruct (Ascii.ascii_dec c c); [apply IH | done].
Qed.

Lemma str_to_length s : forall n,
  String.length (str_to n s) = n `min` String.length s.
Proof.
  unfold str_to. induction s as [|c s IH]; intros [|n]; simpl; try done.
  by rewrite IH.
Qed.

Lemma display_of_strings memory filename source_type upload_time text w :
  Rag.metadata memory !! "filename" = Some (PStr filename) ->
  Rag.metadata memory !! "source_type" = Some (PStr source_type) ->
  Rag.metadata memory !! "upload_time" = Some (PStr upload_time) ->
  Rag.content memory = PStr text ->
  format_memory_for_display memory w
  = (Ok ("**" ++ filename ++ "** (" ++ source_type ++ ", "
         ++ str_to 10 upload_time ++ "): " ++ str_to 200 text ++ "..."), w).
Proof.
  intros Hf Hs Hu Hc. unfold format_memory_for_display.
  rewrite (bind_ok _ _ _ _ _ (getitem_ok _ _ _ w Hf)).
  rewrite (bind_ok _ _ _ _ _ (getitem_ok _ _ _ w Hs)).
  rewrite (bind_ok _ _ _ _ _ (getitem_ok _ _ _ w Hu)).
  rewrite Hc. reflexivity.
Qed.

Lemma elem_of_rows_of r memories : forall c i,
  r ∈ rows_of env c i memories ->
  exists j memory, memory ∈ memories /\ r = row_of env c j memory.
Proof.
  induction memories as [|memory rest IH]; intros c i Hr; cbn [rows_of] in Hr.
  - by apply elem_of_nil in Hr.
  - apply elem_of_cons in Hr as [->|Hr].
    + exists i, memory. split; [apply list_elem_of_here | done].
    + destruct (IH _ _ Hr) as (j & m & Hm & ->).
      exists j, m. split; [by apply list_elem_of_further | done].
Qed.

(** X23: every row that [add_memories] stores for a batch returned by
    [ingest_files] can be displayed: [format_memory_for_display] raises
    neither KeyError nor TypeError on it.  The line shows the file name,
    the type and the first ten characters of the upload time that the
    metadata of the row hold, and a prefix of at most 200 characters of
    the document of the row, and it ends with three dots also when the
    content is shown in full. *)
Theorem ingested_rows_can_be_displayed uploads w ms w1 w2 r w3 :
  ingest_files env uploads w = (Ok ms, w1) ->
  add_memories env ms w1 = (Ok tt, w2) ->
  r ∈ drop (length (store w1)) (store w2) ->
  exists filename source_type upload_time text,
    row_document r = PStr text
    /\ row_metadata r !! "filename" = Some (PStr filename)
    /\ row_metadata r !! "source_type" = Some (PStr source_type)
    /\ row_metadata r !! "upload_time" = Some (PStr upload_time)
    /\ format_memory_for_display
         (Rag.mk_retrieved (row_document r) (row_metadata r)) w3
       = (Ok ("**" ++ filename ++ "** (" ++ source_type ++ ", "
              ++ str_to 10 upload_time ++ "): " ++ str_to 200 text ++ "..."),
          w3)
    /\ String.prefix (str_to 200 text) text = true
    /\ String.length (str_to 200 text) = 200 `min` String.length text.
Proof.
  intros Hrun Hadd Hr.
  destruct (ingest_loop_records env _ _ _ _ _ Hrun) as (new & -> & Hall & _).
  rewrite app_nil_l in Hadd.
  assert (Hkeys : Forall has_required_keys new).
  { eapply Forall_impl; [exact Hall|].
    intros m (f & d & st & ds & c & wi & _ & _ & ->).
    apply memory_dict_has_required_keys. }
  destruct new as [|m0 rest].
  { injection Hadd as <-. rewrite drop_all in Hr. by apply elem_of_nil in Hr. }
  rewrite (add_memories_run env (m0 :: rest) w1 ltac:(discriminate) Hkeys)
    in Hadd.
  injection Hadd as <-.
  change (r ∈ drop (length (store w1))
                (store w1 ++ rows_of env
                   match store_get_error env with
                   | Some _ => 0
                   | None => length (store w1) `min` GET_LIMIT
                   end 0 (m0 :: rest))) in Hr.
  rewrite drop_app_length in Hr.
  apply elem_of_rows_of in Hr as (j & m & Hm & ->).
  rewrite Forall_forall in Hall.
  destruct (Hall m Hm) as (f & d & st & ds & ct & wi & _ & _ & ->).
  destruct (ingested_row env (with_description ds ct) f st
              (now_iso env (clock wi)) wi
              match store_get_error env with
              | Some _ => 0
              | None => length (store w1) `min` GET_LIMIT
              end j)
    as (Hdoc & Hf & Hs & Hu & _).
  cbv zeta in Hdoc, Hf, Hs, Hu.
  exists f, st, (now_iso env (clock wi)), (with_description ds ct).
  split; [exact Hdoc|]. split; [exact Hf|]. split; [exact Hs|].
  split; [exact Hu|].
  split; [by apply display_of_strings|].
  split; [apply str_to_prefix | apply str_to_length].
Qed.

End Facts.

Lemma ingested_rows_can_be_displayed_witness :
  let uploads := [Sample.greeting; Sample.beach_photo] in
  let run := ingest_files Sample.env uploads Sample.empty_world in
  let added := add_memories Sample.env (Sample.records run) run.2 in
  let rows := drop (length (store run.2)) (store added.2) in
  let r := default (Sample.stored 0) (rows !! 1) in
  run = (Ok (Sample.records run), run.2)
  /\ added = (Ok tt, added.2)
  /\ r ∈ rows
  /\ exists filename source_type upload_time text,
       row_document r = PStr text
       /\ row_metadata r !! "filename" = Some (PStr filename)
       /\ row_metadata r !! "source_type" = Some (PStr source_type)
       /\ row_metadata r !! "upload_time" = Some (PStr upload_time)
       /\ format_memory_for_display
            (Rag.mk_retrieved (row_document r) (row_metadata r))
            Sample.empty_world
          = (Ok ("**" ++ filename ++ "** (" ++ source_type ++ ", "
                 ++ str_to 10 upload_time ++ "): " ++ str_to 200 text
                 ++ "..."),
             Sample.empty_world)
       /\ String.prefix (str_to 200 text) text = true
       /\ String.length (str_to 200 text) = 200 `min` String.length text.
Proof.
  intros uploads run added rows r.
  assert (Hrun : run = (Ok (Sample.records run), run.2)).
  { apply run_records. vm_compute. reflexivity. }
  assert (Hadded : added = (Ok tt, added.2)).
  { apply (run_eta (add_memories Sample.env (Sample.records run)) run.2 tt).
    vm_compute. reflexivity. }
  assert (Hlen : length rows = 2) by (vm_compute; reflexivity).
  assert (Hr : r ∈ rows).
  { subst r. destruct (rows !! 1) as [r1|] eqn:Hlook.
    - simpl. by eapply list_elem_of_lookup_2.
    - apply lookup_ge_None in Hlook. lia. }
  split; [exact Hrun|]. split; [exact Hadded|]. split; [exact Hr|].
  exact (ingested_rows_can_be_displayed Sample.env uploads Sample.empty_world
           _ _ _ r Sample.empty_world Hrun Hadded Hr).
Defined.

End DisplayMore.
